(** * temper.py: USB thermometer/hygrometer reader -- shallow embedding

    The development follows src/temper.py class by class: [USBList] (the
    sysfs scanner), [USBRead] (the hidraw and serial decoders), [Temper]
    (registry, known ids, acquisition) and the [RequestHandler] of the web
    server.

    - A Python dict is a [gmap string pyval]; the dict that the scanner
      builds for a device, whose keys and value types are fixed, is the
      record [device], and the registry keeps insertion order.
    - bytes are lists of 8-bit characters, str is [string]; floats are
      binary64 ([PrimFloat]), so that [2151 / 100.0] is the float Python
      computes.
    - Exceptions are explicit ([outcome]); a statement on a mutable object
      threads it ([M]), and the object survives an exception.
    - The devices under /dev, the sysfs tree and the clock form the
      [world]; what the process does to a device is logged there.
    - Left out: the tracing prints of verbose mode, the text and JSON
      formatting, argument parsing, the socket and TLS set-up, and the
      lock of the server (requests are taken one at a time). *)

From Stdlib Require Import ZArith String Ascii List Sorted Permutation.
From Stdlib Require Import PrimFloat SpecFloat FloatOps.
From stdpp Require Import base option list gmap strings pretty.

Local Open Scope string_scope.
Local Open Scope Z_scope.

(** ** Python values, exceptions and the two monads *)

(** The values that occur in the dictionaries of the program. *)
Inductive pyval : Type :=
| VInt (z : Z)
| VStr (s : string)
| VFloat (f : float)
| VList (l : list string).

Abbreviation dict := (gmap string pyval).

(** The exception classes the program can meet.  [FileNotFoundError] is the
    only one a handler of the program names; a bare [except:] takes all. *)
Inductive exn : Type :=
| IndexError
| StructError
| ZeroDivisionError
| ValueError
| KeyError (k : string)
| TypeError
| RuntimeError (msg : string)
| FileNotFoundError
| SerialException
| AttributeError (attr : string).

Inductive outcome (A : Type) : Type :=
| Normal (a : A)
| Raise (e : exn).
Arguments Normal {A} a.
Arguments Raise {A} e.

#[global] Instance outcome_ret : MRet outcome := fun A a => Normal a.
#[global] Instance outcome_bind : MBind outcome := fun A B f m =>
  match m with
  | Normal a => f a
  | Raise e => Raise e
  end.

(** Statements that read or write a mutable object of type [S]: the object
    is threaded, and survives an exception. *)
Definition M (S A : Type) : Type := S -> outcome A * S.

#[global] Instance M_ret {S} : MRet (M S) := fun A a s => (Normal a, s).
#[global] Instance M_bind {S} : MBind (M S) := fun A B f m s =>
  match m s with
  | (Normal a, s') => f a s'
  | (Raise e, s') => (Raise e, s')
  end.

Definition raise {S A} (e : exn) : M S A := fun s => (Raise e, s).
Definition lift {S A} (o : outcome A) : M S A := fun s => (o, s).
Definition get_state {S} : M S S := fun s => (Normal s, s).
Definition modify {S} (f : S -> S) : M S unit := fun s => (Normal tt, f s).

(** [try: body / except: handler] (bare except). *)
Definition try_except {S A} (body : M S A) (handler : exn -> M S A) : M S A :=
  fun s =>
    match body s with
    | (Normal a, s') => (Normal a, s')
    | (Raise e, s') => handler e s'
    end.

(** [try: body / except FileNotFoundError: handler]. *)
Definition is_FileNotFoundError (e : exn) : bool :=
  match e with FileNotFoundError => true | _ => false end.

Definition try_except_FileNotFoundError {S A}
    (body : M S A) (handler : M S A) : M S A :=
  fun s =>
    match body s with
    | (Raise e, s') =>
        if is_FileNotFoundError e then handler s' else (Raise e, s')
    | r => r
    end.

(** [info[name] = v] on the dict being built. *)
Definition setitem (name : string) (v : pyval) : M dict unit :=
  modify (fun info : dict => <[name := v]> info).

(** ** bytes, str and numbers *)

(** A [bytes] object; a [str] decoded as latin-1 has the same code points,
    so [string] (8-bit characters) represents it exactly. *)
Abbreviation bytes := (list ascii).

Definition byte_val (c : ascii) : Z := Z.of_N (N_of_ascii c).

(** [bytes([...])] / [struct.pack('8B', ...)]. *)
Definition bytes_of (l : list Z) : bytes :=
  map (fun z => ascii_of_N (Z.to_N z)) l.

(** [b[i]] with Python's negative indices. *)
Definition py_getitem (b : bytes) (i : Z) : outcome Z :=
  let n := Z.of_nat (length b) in
  let j := if i <? 0 then i + n else i in
  if (0 <=? j) && (j <? n)
  then match b !! Z.to_nat j with
       | Some c => Normal (byte_val c)
       | None => Raise IndexError
       end
  else Raise IndexError.

(** [struct.unpack_from('>h', b, offset)[0]]: two bytes, big-endian, two's
    complement; a negative offset counts from the end. *)
Definition signed16 (hi lo : Z) : Z :=
  let u := hi * 256 + lo in
  if u <? 32768 then u else u - 65536.

Definition unpack_from_h (b : bytes) (offset : Z) : outcome Z :=
  let n := Z.of_nat (length b) in
  if (offset <? 0) && (offset + n <? 0) then Raise StructError
  else
    let o := if offset <? 0 then offset + n else offset in
    if n - o <? 2 then Raise StructError
    else match b !! Z.to_nat o, b !! Z.to_nat (o + 1) with
         | Some hi, Some lo => Normal (signed16 (byte_val hi) (byte_val lo))
         | _, _ => Raise StructError
         end.

(** [float(z)] for an int, correctly rounded (exact below 2^53). *)
Definition float_of_Z (z : Z) : float :=
  SF2Prim (binary_normalize FloatOps.prec FloatOps.emax z 0 false).

Definition float_is_zero (d : float) : bool := PrimFloat.eqb d 0%float.

(** [z / d] with an int on the left and a float on the right. *)
Definition py_truediv (z : Z) (d : float) : outcome float :=
  if float_is_zero d then Raise ZeroDivisionError
  else Normal (PrimFloat.div (float_of_Z z) d).

(** [binascii.b2a_hex] / [binascii.hexlify]. *)
Definition hex_digit (n : Z) : ascii :=
  if n <? 10 then ascii_of_N (Z.to_N (48 + n)) else ascii_of_N (Z.to_N (87 + n)).

Fixpoint b2a_hex (b : bytes) : string :=
  match b with
  | [] => EmptyString
  | c :: b' =>
      String (hex_digit (byte_val c / 16))
        (String (hex_digit (byte_val c mod 16)) (b2a_hex b'))
  end.

(** ['%s' % h] for a bytes object [h] made of hex digits: its repr. *)
Definition repr_hex_bytes (h : string) : string := "b'" ++ h ++ "'".

(** [str.strip()]: the white space of str among the latin-1 code points. *)
Definition is_space (c : ascii) : bool :=
  let n := byte_val c in
  ((9 <=? n) && (n <=? 13)) || ((28 <=? n) && (n <=? 32))
  || (n =? 133) || (n =? 160).

Fixpoint lstrip (s : string) : string :=
  match s with
  | String c s' => if is_space c then lstrip s' else s
  | EmptyString => EmptyString
  end.

Fixpoint rstrip (s : string) : string :=
  match s with
  | String c s' =>
      match rstrip s' with
      | EmptyString => if is_space c then EmptyString else String c EmptyString
      | t => String c t
      end
  | EmptyString => EmptyString
  end.

Definition py_strip (s : string) : string := rstrip (lstrip s).

(** [s[:n]]. *)
Fixpoint str_take (n : nat) (s : string) : string :=
  match n, s with
  | S n', String c s' => String c (str_take n' s')
  | _, _ => EmptyString
  end.

(** [str(b, 'latin-1')]. *)
Definition latin1 (b : bytes) : string := string_of_list_ascii b.

(** ** USBRead: the field decoder and the firmware dispatch *)

Module USBRead.

(** [_parse_bytes(name, offset, divisor, bytes, info)], [info] being the
    dict the caller is filling.  The first [try] tests the sentinel pair;
    its Boolean tells whether a [return] was taken. *)
Definition sentinel_block (b : bytes) (offset : Z) : M dict bool :=
  try_except
    (b0 ← lift (py_getitem b offset);
     if b0 =? 0x4e
     then b1 ← lift (py_getitem b (offset + 1));
          mret (b1 =? 0x20)
     else mret false)
    (fun _ => mret true).

(** The second [try] unpacks, divides and stores. *)
Definition store_block (name : string) (offset : Z) (divisor : float)
    (b : bytes) : M dict unit :=
  try_except
    (v ← lift (unpack_from_h b offset);
     q ← lift (py_truediv v divisor);
     setitem name (VFloat q))
    (fun _ => mret tt).

Definition _parse_bytes (name : string) (offset : Z) (divisor : float)
    (b : bytes) : M dict unit :=
  returned ← sentinel_block b offset;
  if returned : bool then mret tt
  else store_block name offset divisor b.

(** Lines 198-223 of [_read_hidraw]: the dict built from the firmware
    reply and the data reply, once the device has been closed. *)
Definition decode_firmware (firmware data : bytes) : M dict unit :=
  _ ← setitem "firmware" (VStr (py_strip (latin1 firmware)));
  _ ← setitem "hex_firmware" (VStr (b2a_hex firmware));
  _ ← setitem "hex_data" (VStr (b2a_hex data));
  let fw := py_strip (latin1 firmware) in
  if String.eqb (str_take 10 fw) "TEMPerF1.4" then
    _ ← setitem "firmware" (VStr (str_take 10 fw));
    _parse_bytes "internal temperature" 2 256%float data
  else if String.eqb (str_take 14 fw) "TEMPerGold_V3." then
    _ ← setitem "firmware" (VStr (str_take 15 fw));
    _parse_bytes "internal temperature" 2 100%float data
  else if String.eqb (str_take 12 fw) "TEMPerX_V3.1"
          || String.eqb (str_take 12 fw) "TEMPerX_V3.3" then
    _ ← setitem "firmware" (VStr (str_take 12 fw));
    _ ← _parse_bytes "internal temperature" 2 100%float data;
    _ ← _parse_bytes "internal humidity" 4 100%float data;
    _ ← _parse_bytes "external temperature" 10 100%float data;
    _parse_bytes "external humidity" 12 100%float data
  else
    setitem "error"
      (VStr ("Unknown firmware " ++ fw ++ ": " ++ repr_hex_bytes (b2a_hex data))).

(** [info = dict(); ...; return info]. *)
Definition hid_info (firmware data : bytes) : outcome dict :=
  match decode_firmware firmware data ∅ with
  | (Normal _, info) => Normal info
  | (Raise e, _) => Raise e
  end.

End USBRead.

(** ** The world outside the process *)

(** A character device under /dev.  Its behaviour is a script: [replies]
    holds, for each successive write, the frames (or lines) the device
    answers with; [ready] holds what has been answered and not yet read.
    Every burst is finite: a device that never stops sending is not
    modelled. *)
Record node : Type := Node { replies : list (list bytes); ready : list bytes }.

(** An entry of the sysfs tree.  A file that cannot be read has no
    content; a symbolic link carries what it resolves to, if anything. *)
#[warnings="-register-all"] Inductive fsnode : Type :=
| FFile (content : option string)
| FDir (entries : list (string * fsnode))
| FLink (target : option fsnode).

Inductive event : Type :=
| EvOpen (name : string)
| EvWrite (name : string) (data : bytes)
| EvRead (name : string) (data : bytes)
| EvClose (name : string)
| EvScan.

Record world : Type := World {
  dev : gmap string node;            (* /dev, by leaf name *)
  sysfs : list (string * fsnode);    (* the entries of /sys/bus/usb/devices *)
  clock : list float;                (* successive values of os.times().elapsed *)
  log : list event                   (* what the process did, oldest first *)
}.

Definition set_dev (f : gmap string node -> gmap string node) (w : world) : world :=
  World (f (dev w)) (sysfs w) (clock w) (log w).
Definition emit (e : event) : M world unit :=
  modify (fun w => World (dev w) (sysfs w) (clock w) (log w ++ [e])).

(** [os.times().elapsed]: the next reading of the clock; the last one
    stays once the script is used up. *)
Definition os_times_elapsed : M world float := fun w =>
  match clock w with
  | [] => (Normal 0%float, w)
  | [t] => (Normal t, w)
  | t :: rest => (Normal t, World (dev w) (sysfs w) rest (log w))
  end.

(** [os.open('/dev/' + name, os.O_RDWR)] and [serial.Serial('/dev/' + name)];
    the descriptor is represented by the leaf name. *)
Definition os_open (name : string) : M world string := fun w =>
  match dev w !! name with
  | Some _ => (_ ← emit (EvOpen name); mret name) w
  | None => (Raise FileNotFoundError, w)
  end.

Definition serial_open (name : string) : M world string := fun w =>
  match dev w !! name with
  | Some _ => (_ ← emit (EvOpen name); mret name) w
  | None => (Raise SerialException, w)
  end.

(** A write makes the device answer with its next burst. *)
Definition answer (n : node) : node :=
  match replies n with
  | [] => n
  | burst :: rest => Node rest (ready n ++ burst)
  end.

Definition os_write (fd : string) (data : bytes) : M world unit :=
  _ ← modify (set_dev (fun d => alter answer fd d));
  emit (EvWrite fd data).

(** [fd in select.select([fd], [], [], timeout)[0]]. *)
Definition select_ready (fd : string) : M world bool := fun w =>
  match dev w !! fd with
  | Some n => (Normal (bool_decide (ready n ≠ [])), w)
  | None => (Normal false, w)
  end.

Definition pop_ready (n : node) : node := Node (replies n) (tail (ready n)).

(** [os.read(fd, k)]: one frame, cut to [k] bytes. *)
Definition os_read (fd : string) (k : nat) : M world bytes := fun w =>
  let data := match dev w !! fd with
              | Some n => take k (hd [] (ready n))
              | None => []
              end in
  (_ ← modify (set_dev (fun d => alter pop_ready fd d));
   _ ← emit (EvRead fd data);
   mret data) w.

(** [s.readline()] with its timeout: the next line, or [b''] when none
    arrives. *)
Definition serial_readline (fd : string) : M world bytes := fun w =>
  let data := match dev w !! fd with
              | Some n => hd [] (ready n)
              | None => []
              end in
  (_ ← modify (set_dev (fun d => alter pop_ready fd d));
   _ ← emit (EvRead fd data);
   mret data) w.

Definition os_close (fd : string) : M world unit := emit (EvClose fd).

(** How many frames wait on [fd]. *)
Definition pending (fd : string) (w : world) : nat :=
  match dev w !! fd with
  | Some n => length (ready n)
  | None => O
  end.

(** ** USBRead: talking to a hidraw device *)

Module HidIO.

Definition firmware_query : bytes :=
  bytes_of [0x01; 0x86; 0xff; 0x01; 0; 0; 0; 0].
Definition data_query : bytes :=
  bytes_of [0x01; 0x80; 0x33; 0x01; 0; 0; 0; 0].

(** [while True: r = select(...); if fd not in r: break; data = os.read(fd, 8);
    acc += data].  The loop ends when nothing is ready; [fuel] bounds the
    iterations and [read_frames] gives it more than the frames waiting. *)
Fixpoint read_loop (fuel : nat) (fd : string) (acc : bytes) : M world bytes :=
  match fuel with
  | O => mret acc
  | S fuel' =>
      r ← select_ready fd;
      if r : bool then
        data ← os_read fd 8;
        read_loop fuel' fd (acc ++ data)
      else mret acc
  end.

Definition read_frames (fd : string) : M world bytes :=
  fun w => read_loop (S (pending fd w)) fd [] w.

(** [for i in range(0, 10)] of [_read_hidraw_firmware], with [n] attempts
    left and [firmware] the value the variable holds. *)
Fixpoint firmware_attempts (n : nat) (fd : string) (firmware : bytes)
    : M world bytes :=
  match n with
  | O => mret firmware
  | S n' =>
      _ ← os_write fd firmware_query;
      firmware ← read_frames fd;
      if (length firmware =? 0)%nat then
        _ ← os_close fd;
        raise (RuntimeError "Cannot read device firmware identifier")
      else if (8 <? length firmware)%nat then mret firmware
      else firmware_attempts n' fd firmware
  end.

Definition _read_hidraw_firmware (fd : string) : M world bytes :=
  firmware_attempts 10 fd [].

Definition _read_hidraw (device : string) : M world dict :=
  fd ← os_open device;
  firmware ← _read_hidraw_firmware fd;
  _ ← os_write fd data_query;
  data ← read_frames fd;
  _ ← os_close fd;
  lift (USBRead.hid_info firmware data).

End HidIO.

(** ** The regular expressions of the program *)

(** The fragment of [re] the program uses: literals, one-character classes,
    greedy stars and options over them, capturing groups and [$].  Matching
    backtracks as Python's does: a star first takes all it can and gives
    characters back one at a time. *)
Inductive regex : Type :=
| RLit (lit : string)
| RSet (p : ascii -> bool)
| RStar (p : ascii -> bool)
| ROpt (c : ascii)
| RSeq (r1 r2 : regex)
| RGroup (n : nat) (r : regex)
| REnd.

Abbreviation captures := (list (nat * string)).

Definition is_digit (c : ascii) : bool :=
  (48 <=? byte_val c) && (byte_val c <=? 57).
Definition is_digit_or_dot (c : ascii) : bool :=
  is_digit c || (byte_val c =? 46).
(** [.] without DOTALL. *)
Definition not_newline (c : ascii) : bool := negb (byte_val c =? 10).

Fixpoint str_drop (n : nat) (s : string) : string :=
  match n, s with
  | S n', String _ s' => str_drop n' s'
  | _, _ => s
  end.

Fixpoint star_match {R} (p : ascii -> bool) (s : string)
    (k : string -> option R) : option R :=
  match s with
  | String c s' =>
      if p c then
        match star_match p s' k with
        | Some r => Some r
        | None => k s
        end
      else k s
  | EmptyString => k s
  end.

Fixpoint rmatch {R} (r : regex) (s : string) (caps : captures)
    (k : string -> captures -> option R) : option R :=
  match r with
  | RLit lit =>
      if String.prefix lit s then k (str_drop (String.length lit) s) caps
      else None
  | RSet p =>
      match s with
      | String c s' => if p c then k s' caps else None
      | EmptyString => None
      end
  | RStar p => star_match p s (fun s' => k s' caps)
  | ROpt c =>
      match s with
      | String c' s' =>
          if Ascii.eqb c c' then
            match k s' caps with
            | Some res => Some res
            | None => k s caps
            end
          else k s caps
      | EmptyString => k s caps
      end
  | RSeq r1 r2 => rmatch r1 s caps (fun s' caps' => rmatch r2 s' caps' k)
  | RGroup n r' =>
      rmatch r' s caps (fun s' caps' =>
        k s' ((n, str_take (String.length s - String.length s') s) :: caps'))
  | REnd =>
      if String.eqb s "" || String.eqb s (String "010" "") then k s caps
      else None
  end.

(** [pattern.match(s)]: at the start only. *)
Definition re_match (r : regex) (s : string) : option captures :=
  rmatch r s [] (fun _ caps => Some caps).

(** [re.search(pattern, s)]: the leftmost position that matches. *)
Fixpoint re_search (r : regex) (s : string) : option captures :=
  match re_match r s with
  | Some caps => Some caps
  | None =>
      match s with
      | String _ s' => re_search r s'
      | EmptyString => None
      end
  end.

(** [m.group(n)] for a group that took part in the match. *)
Fixpoint group (m : captures) (n : nat) : string :=
  match m with
  | [] => ""
  | (i, s) :: m' => if Nat.eqb i n then s else group m' n
  end.

(** ** float() and int() on text *)

Definition digit_of (c : ascii) : Z := byte_val c - 48.

(** [float(s)] for a text over digits and dots, which is all the
    captured groups can hold: at least one digit and at most one dot,
    else ValueError.  The value is the decimal m / 10^e rounded to the
    nearest binary64. *)
Fixpoint scan_decimal (s : string) (m e : Z) (dot digit : bool)
    : option (Z * Z) :=
  match s with
  | EmptyString => if digit then Some (m, e) else None
  | String c s' =>
      if is_digit c then
        scan_decimal s' (10 * m + digit_of c) (if dot then e + 1 else e) dot true
      else if (byte_val c =? 46) && negb dot then scan_decimal s' m e true digit
      else None
  end.

Definition round_decimal (m e : Z) : float :=
  match m with
  | Zpos p =>
      SF2Prim (SFdiv FloatOps.prec FloatOps.emax
                 (S754_finite false p 0)
                 (S754_finite false (Z.to_pos (10 ^ e)) 0))
  | _ => 0%float
  end.

Definition py_float (s : string) : outcome float :=
  match scan_decimal s 0 0 false false with
  | Some (m, e) => Normal (round_decimal m e)
  | None => Raise ValueError
  end.

(** [int(s, base)] for base 10 or 16: white space around, a sign, for base
    16 an optional 0x, then digits with single underscores between. *)
Definition digit_value (c : ascii) : option Z :=
  let n := byte_val c in
  if (48 <=? n) && (n <=? 57) then Some (n - 48)
  else if (97 <=? n) && (n <=? 122) then Some (n - 87)
  else if (65 <=? n) && (n <=? 90) then Some (n - 55)
  else None.

Fixpoint scan_digits (base : Z) (s : string) (acc : Z) (need : bool)
    : option Z :=
  match s with
  | EmptyString => if need then None else Some acc
  | String c s' =>
      if Ascii.eqb c "_" then
        if need then None else scan_digits base s' acc true
      else
        match digit_value c with
        | Some d => if d <? base then scan_digits base s' (acc * base + d) false
                    else None
        | None => None
        end
  end.

Definition scan_unsigned (base : Z) (s : string) : option Z :=
  if (base =? 16) && (String.prefix "0x" s || String.prefix "0X" s) then
    match str_drop 2 s with
    | String "_" s' => scan_digits base s' 0 true
    | s' => scan_digits base s' 0 true
    end
  else scan_digits base s 0 true.

Definition py_int (base : Z) (s : string) : outcome Z :=
  let r := match py_strip s with
           | String "-" s' => Z.opp <$> scan_unsigned base s'
           | String "+" s' => scan_unsigned base s'
           | s' => scan_unsigned base s'
           end in
  match r with
  | Some z => Normal z
  | None => Raise ValueError
  end.

(** ** USBRead: the serial decoder and the dispatch on the device name *)

Module SerialIO.

(** The pattern for the inner sensor: the text Temp-Inner: then a group of
    digits and dots, anything, a comma, an optional blank and a second
    group of digits and dots. *)
Definition inner_pattern : regex :=
  RSeq (RLit "Temp-Inner:")
    (RSeq (RGroup 1 (RStar is_digit_or_dot))
       (RSeq (RStar not_newline)
          (RSeq (RLit ",")
             (RSeq (ROpt " ") (RGroup 2 (RStar is_digit_or_dot)))))).

(** The pattern for the outer sensor: Temp-Outer: and a group of digits
    and dots. *)
Definition outer_pattern : regex :=
  RSeq (RLit "Temp-Outer:") (RGroup 1 (RStar is_digit_or_dot)).

(** Lines 254-266 of [_read_serial]: the dict built from the two replies. *)
Definition parse_reply (firmware reply : string) : M dict unit :=
  _ ← setitem "firmware" (VStr firmware);
  _ ← match re_search inner_pattern reply with
      | Some m =>
          t ← lift (py_float (group m 1));
          _ ← setitem "internal temperature" (VFloat t);
          h ← lift (py_float (group m 2));
          setitem "internal humidity" (VFloat h)
      | None => mret tt
      end;
  match re_search outer_pattern reply with
  | Some m =>
      try_except
        (t ← lift (py_float (group m 1));
         setitem "external temperature" (VFloat t))
        (fun _ => mret tt)
  | None => mret tt
  end.

Definition serial_info (firmware reply : string) : outcome dict :=
  match parse_reply firmware reply ∅ with
  | (Normal _, info) => Normal info
  | (Raise e, _) => Raise e
  end.

Definition _read_serial (device : string) : M world dict :=
  s ← serial_open device;
  _ ← os_write s (list_ascii_of_string "Version");
  l ← serial_readline s;
  let firmware := py_strip (latin1 l) in
  _ ← os_write s (list_ascii_of_string "ReadTemp");
  l1 ← serial_readline s;
  l2 ← serial_readline s;
  let reply := py_strip (latin1 l1) ++ py_strip (latin1 l2) in
  _ ← os_close s;
  lift (serial_info firmware reply).

End SerialIO.

(** [USBRead(device).read()]. *)
Definition USBRead_read (device : string) : M world dict :=
  if String.prefix "hidraw" device then HidIO._read_hidraw device
  else if String.prefix "tty" device then SerialIO._read_serial device
  else mret ({[ "error" := VStr "No usable hid/tty devices available" ]} : dict).

(** ** USBList: the sysfs scanner *)

(** What [_get_usb_device] returns for a USB device: a dict with exactly
    these seven keys, of these types.  [error] is the one key the program
    adds to such a dict later ([Temper.read]); it is absent after a scan. *)
Record device : Type := Device {
  vendorid : Z;
  productid : Z;
  manufacturer : string;
  product : string;
  busnum : Z;
  devnum : Z;
  devices : list string;
  error : option string
}.

(** The dict itself, for the places that merge or print it. *)
Definition to_dict (d : device) : dict :=
  let base : dict :=
    <["vendorid" := VInt (vendorid d)]>
    (<["productid" := VInt (productid d)]>
    (<["manufacturer" := VStr (manufacturer d)]>
    (<["product" := VStr (product d)]>
    (<["busnum" := VInt (busnum d)]>
    (<["devnum" := VInt (devnum d)]>
    (<["devices" := VList (devices d)]> ∅)))))) in
  match error d with
  | Some e => <["error" := VStr e]> base
  | None => base
  end.

(** A dict keyed by path, in insertion order; position is identity. *)
Abbreviation registry := (list (string * device)).

(** [info[path] = device] on an insertion-ordered dict. *)
Fixpoint dict_set {A} (k : string) (v : A) (l : list (string * A))
    : list (string * A) :=
  match l with
  | [] => [(k, v)]
  | (k', v') :: l' =>
      if String.eqb k k' then (k, v) :: l' else (k', v') :: dict_set k v l'
  end.

Module USBList.

Definition SYSPATH : string := "/sys/bus/usb/devices".

Definition path_join (dirname name : string) : string :=
  dirname ++ "/" ++ name.

Fixpoint resolve (n : fsnode) : option fsnode :=
  match n with
  | FLink None => None
  | FLink (Some t) => resolve t
  | _ => Some n
  end.

(** [entry.is_dir()] follows symbolic links; [entry.is_symlink()] does not. *)
Definition is_dir (n : fsnode) : bool :=
  match resolve n with Some (FDir _) => true | _ => false end.
Definition is_symlink (n : fsnode) : bool :=
  match n with FLink _ => true | _ => false end.

Fixpoint lookup_entry (name : string) (entries : list (string * fsnode))
    : option fsnode :=
  match entries with
  | [] => None
  | (n, x) :: rest => if String.eqb n name then Some x else lookup_entry name rest
  end.

(** [_readfile(os.path.join(dirname, name))], the directory given by its
    entries: the stripped content, or the empty string when the file is
    missing, is not a file or cannot be read. *)
Definition _readfile (entries : list (string * fsnode)) (name : string) : string :=
  match lookup_entry name entries with
  | Some n =>
      match resolve n with
      | Some (FFile (Some content)) => py_strip content
      | _ => ""
      end
  | None => ""
  end.

(** The two searches of [_find_devices]: tty, anything, a digit; and
    hidraw followed by a digit. *)
Definition tty_pattern : regex :=
  RSeq (RLit "tty") (RSeq (RStar not_newline) (RSet is_digit)).
Definition hidraw_pattern : regex :=
  RSeq (RLit "hidraw") (RSet is_digit).

Definition name_matches (name : string) : bool :=
  bool_decide (is_Some (re_search tty_pattern name))
  || bool_decide (is_Some (re_search hidraw_pattern name)).

(** [_find_devices(dirname)] on the directory node: real subdirectories
    are descended into, symbolic links are not; every entry name, of a
    directory or not, is tested. *)
Fixpoint _find_devices (n : fsnode) : gset string :=
  match n with
  | FDir entries =>
      (fix scan (es : list (string * fsnode)) : gset string :=
         match es with
         | [] => ∅
         | (name, child) :: es' =>
             (match child with
              | FDir _ => _find_devices child
              | _ => ∅
              end)
             ∪ (if bool_decide (is_Some (re_search tty_pattern name))
                then {[ name ]} else ∅)
             ∪ (if bool_decide (is_Some (re_search hidraw_pattern name))
                then {[ name ]} else ∅)
             ∪ scan es'
         end) entries
  | _ => ∅
  end.

(** [sorted(s)] for a set of str: by code points. *)
Fixpoint insert_sorted (x : string) (l : list string) : list string :=
  match l with
  | [] => [x]
  | y :: l' => if String.leb x y then x :: l else y :: insert_sorted x l'
  end.

Definition sorted (s : gset string) : list string :=
  foldr insert_sorted [] (elements s).

(** [_get_usb_device(dirname)]: [None] when there is no vendor id. *)
Definition _get_usb_device (dir : fsnode) : outcome (option device) :=
  let entries := match dir with FDir es => es | _ => [] end in
  let vendor := _readfile entries "idVendor" in
  if String.eqb vendor "" then mret None
  else
    vid ← py_int 16 vendor;
    pid ← py_int 16 (_readfile entries "idProduct");
    let manu := _readfile entries "manufacturer" in
    let prod := _readfile entries "product" in
    bus ← py_int 10 (_readfile entries "busnum");
    dev ← py_int 10 (_readfile entries "devnum");
    mret (Some (Device vid pid manu prod bus dev (sorted (_find_devices dir)) None)).

(** The loop of [get_usb_devices] over the entries of SYSPATH. *)
Fixpoint scan_entries (es : list (string * fsnode)) (info : registry)
    : outcome registry :=
  match es with
  | [] => mret info
  | (name, n) :: es' =>
      if is_dir n then
        d ← _get_usb_device (default n (resolve n));
        match d with
        | Some dv => scan_entries es' (dict_set (path_join SYSPATH name) dv info)
        | None => scan_entries es' info
        end
      else scan_entries es' info
  end.

Definition get_usb_devices : M world registry :=
  _ ← emit EvScan;
  w ← get_state;
  lift (scan_entries (sysfs w) []).

End USBList.

(** ** Temper: the registry, the known ids and the acquisition *)

(** The attributes of a [Temper] object that the modelled methods use. *)
Record temper : Type := Temper {
  forced_vendor_id : option Z;
  forced_product_id : option Z;
  usb_devices : registry;
  last_reset : float
}.

(** The process: its [Temper] object and the world around it.  Both
    survive an exception. *)
Record state : Type := State { self : temper; outside : world }.

Definition in_world {A} (m : M world A) : M state A := fun st =>
  let (r, w') := m (outside st) in (r, State (self st) w').

Definition with_usb_devices (r : registry) (st : state) : state :=
  State (Temper (forced_vendor_id (self st)) (forced_product_id (self st))
           r (last_reset (self st))) (outside st).
Definition with_last_reset (t : float) (st : state) : state :=
  State (Temper (forced_vendor_id (self st)) (forced_product_id (self st))
           (usb_devices (self st)) t) (outside st).

Definition get_self : M state temper := fun st => (Normal (self st), st).
Definition set_usb_devices (r : registry) : M state unit :=
  modify (with_usb_devices r).
Definition set_last_reset (t : float) : M state unit :=
  modify (with_last_reset t).

Module Temper.

Definition no_interface_message : string := "no hid/tty devices available".

Definition reset : M state unit :=
  devs ← in_world USBList.get_usb_devices;
  _ ← set_usb_devices devs;
  t ← in_world os_times_elapsed;
  set_last_reset t.

Definition _is_known_id (t : temper) (vendor prod : Z) : bool :=
  match forced_vendor_id t, forced_product_id t with
  | Some fv, Some fp => (fv =? vendor) && (fp =? prod)
  | _, _ =>
      if (vendor =? 0x0c45) && (prod =? 0x7401) then true
      else if (vendor =? 0x413d) && (prod =? 0x2107) then true
      else if (vendor =? 0x1a86) && (prod =? 0x5523) then true
      else if (vendor =? 0x1a86) && (prod =? 0xe025) then true
      else false
  end.

(** The key of [sorted] in [list] and [read]. *)
Definition sort_key (d : device) : Z := busnum d * 1000 + devnum d.

(** [sorted(self.usb_devices.items(), key=...)]: stable; every item keeps
    the position of its dict in the registry, which stands for the
    identity of that dict. *)
Definition item : Type := nat * (string * device).

Fixpoint insert_item (x : item) (l : list item) : list item :=
  match l with
  | [] => [x]
  | y :: l' =>
      if sort_key (snd (snd x)) <=? sort_key (snd (snd y)) then x :: l
      else y :: insert_item x l'
  end.

Definition sorted_items (r : registry) : list item :=
  foldr insert_item [] (imap (fun i kv => (i, kv)) r).

(** [info['error'] = msg] on the dict at position [i] of the registry. *)
Definition set_error (msg : string) (d : device) : device :=
  Device (vendorid d) (productid d) (manufacturer d) (product d)
         (busnum d) (devnum d) (devices d) (Some msg).

Definition mark_error (i : nat) (msg : string) : M state unit :=
  t ← get_self;
  set_usb_devices (alter (fun kv => (fst kv, set_error msg (snd kv))) i (usb_devices t)).

(** The body of the loop of [read] for the items still to visit. *)
Fixpoint read_items (items : list item) (results : list dict)
    : M state (list dict) :=
  match items with
  | [] => mret results
  | (i, (_, info)) :: rest =>
      t ← get_self;
      if negb (_is_known_id t (vendorid info) (productid info)) then
        read_items rest results
      else
        match last (devices info) with
        | None =>
            _ ← mark_error i no_interface_message;
            read_items rest
              (results ++ [to_dict (set_error no_interface_message info)])
        | Some name =>
            r ← in_world (USBRead_read name);
            read_items rest (results ++ [r ∪ to_dict info])
        end
  end.

Definition read : M state (list dict) :=
  t ← get_self;
  read_items (sorted_items (usb_devices t)) [].

Definition maybe_reset : M state unit :=
  now ← in_world os_times_elapsed;
  t ← get_self;
  if PrimFloat.ltb 60%float (PrimFloat.sub now (last_reset t)) then reset
  else mret tt.

(** The methods without arguments that class [Temper] defines and the
    handler calls by name on [self]; any other name is an AttributeError.
    The class body defines [__init__], [reset], [_is_known_id], [list],
    [read], [_add_temperature], [_add_humidity], [print], [maybe_reset],
    [webserver] and [main], and nothing is added to the class or its
    instances elsewhere. *)
Definition method (name : string) : option (M state unit) :=
  if String.eqb name "reset" then Some reset
  else if String.eqb name "maybe_reset" then Some maybe_reset
  else None.

Definition call (name : string) : M state unit :=
  match method name with
  | Some m => m
  | None => raise (AttributeError name)
  end.

End Temper.

(** ** The request handler of the web server *)

(** What the handler takes from the configuration file. *)
Record server_config : Type := ServerConfig {
  protocol : string;    (* https when a certfile is configured, else http *)
  hostname : string;
  port : Z
}.

(** The body of a reply before [json.dumps]. *)
Inductive body : Type :=
| BList (l : list dict)
| BDict (d : dict).

Inductive request_mode : Type := GET | HEAD.

Module RequestHandler.

Section Handler.

Variable config : server_config.

(** [f'{v}'] for the int or str found under a key; a list or a float never
    stands under vendorid or productid ([to_dict]), and formatting those is
    left out as a TypeError. *)
Definition format_value (v : pyval) : outcome string :=
  match v with
  | VInt z => Normal (pretty z)
  | VStr s => Normal s
  | _ => Raise TypeError
  end.

Definition dict_get (info : dict) (k : string) : outcome pyval :=
  match info !! k with
  | Some v => Normal v
  | None => Raise (KeyError k)
  end.

Definition filter_keys : list string :=
  ["vendorid"; "productid"; "manufacturer"; "product";
   "internal temperature"; "internal humidity";
   "external temperature"; "external humidity"].

Definition url_of (info : dict) : outcome string :=
  v ← dict_get info "vendorid";
  vs ← format_value v;
  p ← dict_get info "productid";
  ps ← format_value p;
  mret (protocol config ++ "://" ++ hostname config ++ ":" ++ pretty (port config)
        ++ "/" ++ vs ++ "/" ++ ps).

(** The loop of [filter]: the url is set at every turn. *)
Fixpoint filter_loop (keys : list string) (info : dict) : M dict unit :=
  match keys with
  | [] => mret tt
  | k :: keys' =>
      _ ← match info !! k with
          | Some v => setitem k v
          | None => mret tt
          end;
      u ← lift (url_of info);
      _ ← setitem "url" (VStr u);
      filter_loop keys' info
  end.

Definition filter (info : dict) : outcome dict :=
  match filter_loop filter_keys info ∅ with
  | (Normal _, filtered) => Normal filtered
  | (Raise e, _) => Raise e
  end.

(** [[rqh.filter(data) for data in l]]. *)
Fixpoint filter_all (l : list dict) : outcome (list dict) :=
  match l with
  | [] => mret []
  | d :: l' =>
      f ← filter d;
      fs ← filter_all l';
      mret (f :: fs)
  end.

(** [get_devices]: the identity of every known device, no reading. *)
Fixpoint known_devices (t : temper) (r : registry) : outcome (list dict) :=
  match r with
  | [] => mret []
  | (_, info) :: r' =>
      if negb (Temper._is_known_id t (vendorid info) (productid info)) then
        known_devices t r'
      else
        f ← filter (to_dict info);
        fs ← known_devices t r';
        mret (f :: fs)
  end.

Definition get_devices (mode : request_mode) : M state (Z * body) :=
  _ ← Temper.call "maybe_reset";
  t ← get_self;
  results ← lift (known_devices t (usb_devices t));
  mret (200, BList results).

(** [get_all]: [results] stays [None] when the first reading raises
    FileNotFoundError. *)
Definition get_all (mode : request_mode) : M state (Z * body) :=
  _ ← Temper.call "maybe_reset";
  match mode with
  | HEAD => mret (200, BList [])
  | GET =>
      results ← try_except_FileNotFoundError
                  (l ← Temper.read; fl ← lift (filter_all l); mret (Some fl))
                  (mret None);
      match results with
      | Some fl => mret (200, BList fl)
      | None =>
          _ ← Temper.call "force_reset";
          l ← Temper.read;
          fl ← lift (filter_all l);
          mret (200, BList fl)
      end
  end.

(** The loop of [get_device] over the registry in insertion order; [None]
    when it ends without a [return]. *)
Fixpoint find_device (mode : request_mode) (vendor prod : Z) (t : temper)
    (r : registry) : M state (option (Z * body)) :=
  match r with
  | [] => mret None
  | (_, info) :: r' =>
      if negb (Temper._is_known_id t (vendorid info) (productid info)) then
        find_device mode vendor prod t r'
      else if (vendor =? vendorid info) && (prod =? productid info) then
        match mode with
        | HEAD => mret (Some (200, BDict ∅))
        | GET =>
            match last (devices info) with
            | None => raise IndexError
            | Some name =>
                r ← in_world (USBRead_read name);
                f ← lift (filter (r ∪ to_dict info));
                mret (Some (200, BDict f))
            end
        end
      else find_device mode vendor prod t r'
  end.

Definition get_device (mode : request_mode) (m : captures) : M state (Z * body) :=
  vendor ← lift (py_int 10 (group m 1));
  prod ← lift (py_int 10 (group m 2));
  found ← try_except_FileNotFoundError
            (t ← get_self; find_device mode vendor prod t (usb_devices t))
            (mret None);
  match found with
  | Some reply => mret reply
  | None =>
      _ ← Temper.call "maybe_reset";
      mret (404, BDict {[ "error" := VStr "no such device" ]})
  end.

(** The compiled pattern of the single-device path: a slash, digits, a
    slash, digits, the end. *)
Definition path_pattern : regex :=
  RSeq (RLit "/")
    (RSeq (RGroup 1 (RSeq (RSet is_digit) (RStar is_digit)))
       (RSeq (RLit "/")
          (RSeq (RGroup 2 (RSeq (RSet is_digit) (RStar is_digit))) REnd))).

Definition get_path (path : string) (mode : request_mode) : M state (Z * body) :=
  match re_match path_pattern path with
  | Some m => get_device mode m
  | None =>
      if String.eqb path "/devices" then get_devices mode
      else if String.eqb path "/" then get_all mode
      else mret (404, BDict {[ "error" := VStr "unrecognized path" ]})
  end.

(** [do_GET]: the reply is written only once [get_path] has returned; the
    replies sent so far are the second component. *)
Definition do_GET (path : string) (sent : list (Z * body))
    : state -> outcome unit * state * list (Z * body) := fun st =>
  match get_path path GET st with
  | (Normal reply, st') => (Normal tt, st', (sent ++ [reply])%list)
  | (Raise e, st') => (Raise e, st', sent)
  end.

End Handler.

End RequestHandler.

(** ** Definitions used to state the properties *)

(** The field-decode rule in the words of the specification: the 16-bit
    big-endian signed integer at [offset], divided by the divisor; nothing
    when the two bytes are 0x4E, 0x20 or the buffer is too short. *)
Definition spec_decode_field (data : bytes) (offset : nat) (divisor : float)
    : option float :=
  match data !! offset, data !! S offset with
  | Some hi, Some lo =>
      if (byte_val hi =? 0x4e) && (byte_val lo =? 0x20) then None
      else Some (PrimFloat.div (float_of_Z (signed16 (byte_val hi) (byte_val lo)))
                   divisor)
  | _, _ => None
  end.


(** A dict with the field stored, or left alone when there is none. *)
Definition with_field (name : string) (v : option float) (info : dict) : dict :=
  match v with
  | Some x => <[name := VFloat x]> info
  | None => info
  end.

Definition sensor_keys : list string :=
  ["internal temperature"; "internal humidity";
   "external temperature"; "external humidity"].

(** The dict that [_read_hidraw] holds before it looks at the firmware. *)
Definition hid_base (firmware data : bytes) : dict :=
  <["hex_data" := VStr (b2a_hex data)]>
    (<["hex_firmware" := VStr (b2a_hex firmware)]>
       (<["firmware" := VStr (py_strip (latin1 firmware))]> ∅)).

(** The value under a key of the dict that was returned, if one was. *)
Definition field_of (o : outcome dict) (k : string) : option pyval :=
  match o with
  | Normal info => info !! k
  | Raise _ => None
  end.

(** None of the listed keys is in the dict. *)
Definition lacks (keys : list string) (info : dict) : Prop :=
  Forall (fun k => info !! k = None) keys.

(** The firmware id matches none of the known prefixes. *)
Definition unknown_firmware (fw : string) : Prop :=
  str_take 10 fw <> "TEMPerF1.4"
  /\ str_take 14 fw <> "TEMPerGold_V3."
  /\ str_take 12 fw <> "TEMPerX_V3.1"
  /\ str_take 12 fw <> "TEMPerX_V3.3".

(** What the read loop gathers from the frames that wait: each read takes
    one frame, cut to eight bytes. *)
Definition burst_bytes (frames : list bytes) : bytes :=
  concat (map (take 8) frames).

(** The world once the device [fd] has become [n] and the events [evs]
    have been logged. *)
Definition after (fd : string) (n : node) (evs : list event) (w : world) : world :=
  World (<[fd := n]> (dev w)) (sysfs w) (clock w) (log w ++ evs).

(** The events of reading the frames that wait on [fd]. *)
Definition read_events (fd : string) (frames : list bytes) : list event :=
  map (fun f => EvRead fd (take 8 f)) frames.




(** Every entry name under a directory, real subdirectories included and
    symbolic links not followed. *)
Fixpoint subtree_names (n : fsnode) : list string :=
  match n with
  | FDir entries =>
      (fix names (es : list (string * fsnode)) : list string :=
         match es with
         | [] => []
         | (name, child) :: es' =>
             (name :: match child with
                      | FDir _ => subtree_names child
                      | _ => []
                      end
                     ++ names es')%list
         end) entries
  | _ => []
  end.

(** The order of [sorted] on str. *)
Definition string_le (a b : string) : Prop := String.leb a b = true.

(** The shape of an interface name in the words of the specification: tty
    followed by digits, or hidraw followed by digits. *)
Definition all_digits (s : string) : bool :=
  negb (String.eqb s "") && forallb is_digit (list_ascii_of_string s).

Definition spec_interface_name (s : string) : bool :=
  (String.prefix "tty" s && all_digits (str_drop 3 s))
  || (String.prefix "hidraw" s && all_digits (str_drop 6 s)).

Definition file (s : string) : fsnode := FFile (Some s).

(** A serial thermometer as sysfs shows it: the tty node is ttyUSB0. *)
Definition serial_stick : fsnode :=
  FDir [("idVendor", file "1a86"); ("idProduct", file "5523");
        ("manufacturer", file "QinHeng"); ("product", file "USB Serial");
        ("busnum", file "1"); ("devnum", file "7");
        ("1-2:1.0", FDir [("ttyUSB0", FDir [("tty", FDir [("ttyUSB0", FDir [])])])])].

(** A device directory without idProduct, one whose busnum cannot be
    read, and one without manufacturer and product. *)
Definition stick_without_idProduct : fsnode :=
  FDir [("idVendor", file "0c45"); ("busnum", file "1"); ("devnum", file "4")].
Definition stick_unreadable_busnum : fsnode :=
  FDir [("idVendor", file "0c45"); ("idProduct", file "7401");
        ("busnum", FFile None); ("devnum", file "4")].
Definition stick_without_strings : fsnode :=
  FDir [("idVendor", file "0c45"); ("idProduct", file "7401");
        ("busnum", file "1"); ("devnum", file "4")].
Definition hub : fsnode :=
  FDir [("idVendor", file "1d6b"); ("idProduct", file "0002");
        ("manufacturer", file "Linux"); ("product", file "xHCI Host Controller");
        ("busnum", file "1"); ("devnum", file "1")].

(** The device an event is about. *)
Definition event_name (e : event) : option string :=
  match e with
  | EvOpen n | EvWrite n _ | EvRead n _ | EvClose n => Some n
  | EvScan => None
  end.

Definition known_item (t : temper) (it : Temper.item) : bool :=
  Temper._is_known_id t (vendorid (snd (snd it))) (productid (snd (snd it))).

(** The entries of the registry that [read] reports on: those with a known
    id, in the order of the sort. *)
Definition included (t : temper) (r : registry) : list Temper.item :=
  List.filter (known_item t) (Temper.sorted_items r).

(** What the specification asks of the acquisition, entry by entry: an
    entry without interface gives its identity with the error message and
    leaves the world alone; any other entry gives the dict that
    [USBRead(name).read()] returns on its last interface name, run on the
    world as the entries before left it, over the identity fields. *)
Inductive acquired : list Temper.item -> world -> list dict -> world -> Prop :=
| acquired_nil (w : world) : acquired [] w [] w
| acquired_error (i : nat) (path : string) (info : device)
    (rest : list Temper.item) (w w' : world) (results : list dict) :
    devices info = [] ->
    acquired rest w results w' ->
    acquired ((i, (path, info)) :: rest) w
      (to_dict (Temper.set_error Temper.no_interface_message info) :: results) w'
| acquired_read (i : nat) (path : string) (info : device) (name : string)
    (reading : dict) (rest : list Temper.item) (w w1 w' : world)
    (results : list dict) :
    last (devices info) = Some name ->
    USBRead_read name w = (Normal reading, w1) ->
    acquired rest w1 results w' ->
    acquired ((i, (path, info)) :: rest) w
      ((reading ∪ to_dict info) :: results) w'.

(** The interface names on which [read] may call a decoder: the last
    interface of every known item that has one. *)
Definition names_of (t : temper) (items : list Temper.item) : list string :=
  omap (fun it : Temper.item => last (devices (snd (snd it))))
       (List.filter (known_item t) items).



(** [m] logs events about the device [name] only. *)
Definition logs_only {A} (name : string) (m : M world A) : Prop :=
  forall w r w', m w = (r, w') ->
    exists evs, log w' = (log w ++ evs)%list
                /\ Forall (fun e => event_name e = Some name) evs.


(** The state once the dict at position [i] of the registry has the error
    message. *)
Definition marked (i : nat) (st : state) : state :=
  with_usb_devices
    (alter (fun kv => (fst kv, Temper.set_error Temper.no_interface_message (snd kv)))
       i (usb_devices (self st)))
    st.

Definition same_forced (t t' : temper) : Prop :=
  forced_vendor_id t' = forced_vendor_id t
  /\ forced_product_id t' = forced_product_id t.


(** A registry with a hub, which is not a known device, and a TEMPer
    stick that shows no interface; nothing under /dev. *)
Definition stick_without_interface : device :=
  Device 0x0c45 0x7401 "RDing" "TEMPerV1.4" 1 12 [] None.
Definition hub_device : device :=
  Device 0x1d6b 0x0002 "Linux" "xHCI Host Controller" 1 1 [] None.
Definition bare_state : state :=
  State (Temper None None
           [("/sys/bus/usb/devices/1-1", stick_without_interface);
            ("/sys/bus/usb/devices/usb1", hub_device)]
           0%float)
        (World ∅ [] [] []).

(** The status code of the reply, when there is one. *)
Definition reply_code (o : outcome (Z * body)) : option Z :=
  match o with
  | Normal (code, _) => Some code
  | Raise _ => None
  end.

Definition example_config : server_config := ServerConfig "http" "localhost" 8080.

(** The request is for the ids [vendor]:[prod] and the entry is a known
    device with these ids. *)
Definition selects (t : temper) (vendor prod : Z) (kv : string * device) : bool :=
  Temper._is_known_id t (vendorid (snd kv)) (productid (snd kv))
  && (vendor =? vendorid (snd kv)) && (prod =? productid (snd kv)).

(** The device a single-device request matches: the first known entry
    with the requested ids, in registry order. *)
Definition matched_entry (t : temper) (vendor prod : Z) (r : registry)
    : option (string * device) :=
  List.find (selects t vendor prod) r.

(** Two sticks with the same ids: the first answers on hidraw0, the second
    shows no interface. *)
Definition stick_on_hidraw0 : device :=
  Device 0x0c45 0x7401 "RDing" "TEMPerV1.4" 1 11 ["hidraw0"] None.
Definition gold_node : node :=
  Node [[list_ascii_of_string "TEMPerGo"; list_ascii_of_string "ld_V3.1 "];
        [bytes_of [0x80; 0x80; 0x09; 0xc4; 0x4e; 0x20; 0; 0]]] [].
Definition twin_state : state :=
  State (Temper None None
           [("/sys/bus/usb/devices/1-1", stick_on_hidraw0);
            ("/sys/bus/usb/devices/1-2", stick_without_interface)]
           0%float)
        (World {[ "hidraw0" := gold_node ]} [] [] []).

(** A stick whose hidraw node has gone from /dev since the scan. *)
Definition vanished_state : state :=
  State (Temper None None
           [("/sys/bus/usb/devices/1-1", stick_on_hidraw0)] 0%float)
        (World ∅ [("1-1", stick_without_strings)] [0%float] []).


(** A line as the serial device sends it: the text, carriage return, line
    feed. *)
Definition line (s : string) : bytes :=
  (list_ascii_of_string s ++ ["013"%char; "010"%char])%list.

(** The two shapes of name the scanner keeps, in plain terms: the letters
    tty, then any characters other than a newline, then a digit; or the
    letters hidraw and a digit right after.  Either may stand anywhere in
    the name. *)
Fixpoint all_chars (p : ascii -> bool) (s : string) : bool :=
  match s with
  | EmptyString => true
  | String c s' => p c && all_chars p s'
  end.

Definition tty_then_digit (s : string) : Prop :=
  exists a b d c,
    s = a ++ "tty" ++ b ++ String d c
    /\ all_chars not_newline b = true /\ is_digit d = true.

Definition hidraw_digit (s : string) : Prop :=
  exists a d c, s = a ++ "hidraw" ++ String d c /\ is_digit d = true.

(** ** More of the program: the HEAD request and the forced id *)

Module RequestHandlerMore.

(** [do_HEAD]: the status of [get_path('HEAD')] goes out, without body;
    the statuses sent so far are the second component. *)
Definition do_HEAD (config : server_config) (path : string) (sent : list Z)
    : state -> outcome unit * state * list Z := fun st =>
  match RequestHandler.get_path config path HEAD st with
  | (Normal (code, _), st') => (Normal tt, st', (sent ++ [code])%list)
  | (Raise e, st') => (Raise e, st', sent)
  end.

End RequestHandlerMore.


Module Main.


End Main.

(** ** Definitions used to state the further properties *)

(** The keys a decoder may set. *)
Definition decoder_keys : list string :=
  ["firmware"; "hex_firmware"; "hex_data"; "internal temperature";
   "internal humidity"; "external temperature"; "external humidity"; "error"].

(** The keys of the dict of a scanned device, [error] apart. *)
Definition identity_keys : list string :=
  ["vendorid"; "productid"; "manufacturer"; "product"; "busnum"; "devnum";
   "devices"].

(** Every key of the dict is in the list. *)
Definition keys_within (keys : list string) (info : dict) : Prop :=
  forall k, is_Some (info !! k) -> k ∈ keys.

(** The url of a device on the server. *)
Definition device_url (config : server_config) (vendor prod : Z) : string :=
  protocol config ++ "://" ++ hostname config ++ ":" ++ pretty (port config)
  ++ "/" ++ pretty vendor ++ "/" ++ pretty prod.

(** Between [w] and [w'] no device has been touched: /dev and the sysfs
    tree are as they were, and the log has grown by one scan at most. *)
Definition quiet (w w' : world) : Prop :=
  dev w' = dev w /\ sysfs w' = sysfs w
  /\ (log w' = log w \/ log w' = (log w ++ [EvScan])%list).




(** Is the event a write of [data] / an open or a close? *)
Definition is_write_of (data : bytes) (e : event) : bool :=
  match e with
  | EvWrite _ d => bool_decide (d = data)
  | _ => false
  end.
Definition is_open_or_close (e : event) : bool :=
  match e with
  | EvOpen _ | EvClose _ => true
  | _ => false
  end.

(** [m] returns normally and keeps the keys of the dict within [keys]. *)
Definition keeps (keys : list string) (m : M dict unit) : Prop :=
  forall acc, keys_within keys acc ->
    exists acc', m acc = (Normal tt, acc') /\ keys_within keys acc'.

(** The filtered object of a device with ids [v] and [p]: its url, its ids
    and none of the keys the handler keeps back. *)
Definition public_object (cfg : server_config) (v p : Z) (f : dict) : Prop :=
  f !! "url" = Some (VStr (device_url cfg v p))
  /\ f !! "vendorid" = Some (VInt v)
  /\ f !! "productid" = Some (VInt p)
  /\ f !! "busnum" = None /\ f !! "devnum" = None /\ f !! "devices" = None
  /\ f !! "firmware" = None /\ f !! "hex_firmware" = None
  /\ f !! "hex_data" = None /\ f !! "error" = None.

(** What [Temper.read] returns in a state, the empty list when it raises. *)
Definition readings (st : state) : list dict :=
  match fst (Temper.read st) with
  | Normal l => l
  | Raise _ => []
  end.

(** The reply to a request for a device that is not there. *)
Definition no_such_device : Z * body :=
  (404, BDict {[ "error" := VStr "no such device" ]}).

(** What [get_device] does once its loop has ended without an answer:
    [maybe_reset], then the 404. *)
Definition not_found_after (st : state) : outcome (Z * body) * state :=
  match Temper.maybe_reset st with
  | (Normal _, st1) => (Normal no_such_device, st1)
  | (Raise e, st1) => (Raise e, st1)
  end.

(** The longest prefix of [s] whose characters satisfy [p], and the rest. *)
Fixpoint take_while (p : ascii -> bool) (s : string) : string :=
  match s with
  | String c s' => if p c then String c (take_while p s') else EmptyString
  | EmptyString => EmptyString
  end.

Fixpoint skip_while (p : ascii -> bool) (s : string) : string :=
  match s with
  | String c s' => if p c then skip_while p s' else s
  | EmptyString => EmptyString
  end.

(** A non-empty run of the digits 0 to 9. *)
Definition digits (s : string) : Prop :=
  s <> EmptyString /\ all_chars is_digit s = true.

(** The registry entry comes from a directory entry of SYSPATH: its key is
    the path of that entry and its dict is what [_get_usb_device] returns
    for it. *)
Definition scanned (es : list (string * fsnode)) (kv : string * device) : Prop :=
  exists name n,
    (name, n) ∈ es /\ USBList.is_dir n = true
    /\ fst kv = USBList.path_join USBList.SYSPATH name
    /\ USBList._get_usb_device (default n (USBList.resolve n))
       = Normal (Some (snd kv)).

(** The registry of a scan of the given entries of SYSPATH, empty when
    the scan fails. *)
Definition registry_of_scan (es : list (string * fsnode)) : registry :=
  match USBList.scan_entries es [] with
  | Normal r => r
  | Raise _ => []
  end.


Definition firmware_failure : exn :=
  RuntimeError "Cannot read device firmware identifier".

(** The exceptions a decoder lets out. *)
Definition decoder_exn (e : exn) : Prop :=
  e = FileNotFoundError \/ e = firmware_failure \/ e = SerialException
  \/ e = ValueError.

(** The exceptions that leave the request handler, and its replies. *)
Definition handler_exn (mode : request_mode) (e : exn) : Prop :=
  e = ValueError
  \/ (mode = GET
      /\ (e = IndexError \/ e = firmware_failure \/ e = SerialException
          \/ e = AttributeError "force_reset")).

Definition handler_reply (r : Z * body) : Prop :=
  fst r = 200 \/ r = no_such_device
  \/ r = (404, BDict {[ "error" := VStr "unrecognized path" ]}).

Definition handler_outcome (mode : request_mode) (o : outcome (Z * body)) : Prop :=
  match o with
  | Normal r => handler_reply r
  | Raise e => handler_exn mode e
  end.

(** A hidraw device on which two frames wait, the second longer than
    eight bytes. *)
Definition waiting_frames : list bytes :=
  [list_ascii_of_string "TEMPerGo"; list_ascii_of_string "ld_V3.1 and more"].
Definition waiting_world : world :=
  World {[ "hidraw0" := Node [] waiting_frames ]} [] [] [].

(** [m] raises nothing but exceptions that satisfy [P]. *)
Definition raises_only {S A} (P : exn -> Prop) (m : M S A) : Prop :=
  forall s e s', m s = (Raise e, s') -> P e.

(** * Properties *)

(** ** The field decoder *)

Ltac unfold_monad :=
  unfold mbind, mret, M_bind, M_ret, outcome_bind, outcome_ret, lift, raise,
    try_except, setitem, modify, get_state in *.

Lemma py_getitem_nonneg (b : bytes) (i : nat) :
  py_getitem b (Z.of_nat i) =
  match b !! i with
  | Some c => Normal (byte_val c)
  | None => Raise IndexError
  end.
Proof.
  unfold py_getitem.
  destruct (Z.ltb_spec (Z.of_nat i) 0) as [Hneg|_]; [lia|].
  destruct (Z.leb_spec 0 (Z.of_nat i)) as [_|Hneg]; [|lia].
  rewrite Nat2Z.id. simpl.
  destruct (b !! i) as [c|] eqn:Hi.
  - apply lookup_lt_Some in Hi.
    destruct (Z.ltb_spec (Z.of_nat i) (Z.of_nat (length b))); [done|lia].
  - destruct (Z.of_nat i <? Z.of_nat (length b)); done.
Qed.

Lemma unpack_from_h_nonneg (b : bytes) (i : nat) :
  unpack_from_h b (Z.of_nat i) =
  match b !! i, b !! S i with
  | Some hi, Some lo => Normal (signed16 (byte_val hi) (byte_val lo))
  | _, _ => Raise StructError
  end.
Proof.
  unfold unpack_from_h.
  destruct (Z.ltb_spec (Z.of_nat i) 0) as [Hneg|_]; [lia|]. simpl.
  replace (Z.to_nat (Z.of_nat i + 1)) with (S i) by lia.
  rewrite Nat2Z.id.
  destruct (Z.ltb_spec (Z.of_nat (length b) - Z.of_nat i) 2) as [Hshort|Hlong].
  - assert (b !! S i = None) as -> by (apply lookup_ge_None; lia).
    by destruct (b !! i).
  - done.
Qed.

Lemma sentinel_block_total (b : bytes) (offset : Z) (info : dict) :
  exists r, USBRead.sentinel_block b offset info = (Normal r, info).
Proof.
  unfold USBRead.sentinel_block. unfold_monad.
  destruct (py_getitem b offset) as [b0|]; [|by eexists].
  destruct (b0 =? 0x4e); [|by eexists].
  destruct (py_getitem b (offset + 1)); by eexists.
Qed.

Lemma store_block_total (name : string) (offset : Z) (divisor : float)
    (b : bytes) (info : dict) :
  USBRead.store_block name offset divisor b info = (Normal tt, info)
  \/ exists x, USBRead.store_block name offset divisor b info
               = (Normal tt, <[name := VFloat x]> info).
Proof.
  unfold USBRead.store_block. unfold_monad.
  destruct (unpack_from_h b offset) as [v|]; [|by left].
  destruct (py_truediv v divisor) as [q|]; [right; by exists q|by left].
Qed.

(** Whatever the offset and the divisor, no exception leaves
    [_parse_bytes] and the dict is the old one or the old one with [name]
    set. *)
Lemma parse_bytes_total (name : string) (offset : Z) (divisor : float)
    (b : bytes) (info : dict) :
  USBRead._parse_bytes name offset divisor b info = (Normal tt, info)
  \/ exists x, USBRead._parse_bytes name offset divisor b info
               = (Normal tt, <[name := VFloat x]> info).
Proof.
  unfold USBRead._parse_bytes.
  destruct (sentinel_block_total b offset info) as [r Hr].
  unfold mbind, M_bind. rewrite Hr.
  destruct r; [by left|apply store_block_total].
Qed.

(** What [_parse_bytes] does at an offset that is not negative, with a
    divisor that is not zero: the rule of the specification. *)
Lemma parse_bytes_run (name : string) (offset : nat) (divisor : float)
    (b : bytes) (info : dict) :
  float_is_zero divisor = false ->
  USBRead._parse_bytes name (Z.of_nat offset) divisor b info =
  (Normal tt, with_field name (spec_decode_field b offset divisor) info).
Proof.
  intros Hd.
  unfold USBRead._parse_bytes, USBRead.sentinel_block, USBRead.store_block,
    spec_decode_field, with_field.
  unfold_monad.
  rewrite py_getitem_nonneg.
  replace (Z.of_nat offset + 1) with (Z.of_nat (S offset)) by lia.
  rewrite py_getitem_nonneg, unpack_from_h_nonneg.
  unfold py_truediv. rewrite Hd.
  destruct (b !! offset) as [hi|]; [|done].
  destruct (byte_val hi =? 0x4e) eqn:Hhi; simpl.
  - destruct (b !! S offset) as [lo|]; [|done].
    destruct (byte_val lo =? 0x20); done.
  - destruct (b !! S offset) as [lo|]; done.
Qed.


Lemma with_field_other (name k : string) (v : option float) (info : dict) :
  k <> name -> with_field name v info !! k = info !! k.
Proof.
  intros Hk. destruct v as [x|]; simpl; [|done].
  by rewrite lookup_insert_ne.
Qed.





Lemma unpack_from_h_before_start (b : bytes) (i : Z) :
  i + Z.of_nat (length b) < 0 -> unpack_from_h b i = Raise StructError.
Proof.
  intros Hout. unfold unpack_from_h.
  destruct (Z.ltb_spec i 0); [|lia].
  destruct (Z.ltb_spec (i + Z.of_nat (length b)) 0); [done|lia].
Qed.




(** ** The firmware dispatch of the hidraw decoder *)

Lemma parse_bytes_bind {A} (name : string) (offset : nat) (divisor : float)
    (b : bytes) (k : unit -> M dict A) (info : dict) :
  float_is_zero divisor = false ->
  (USBRead._parse_bytes name (Z.of_nat offset) divisor b ≫= k) info =
  k tt (with_field name (spec_decode_field b offset divisor) info).
Proof.
  intros Hd. unfold mbind, M_bind. by rewrite parse_bytes_run.
Qed.

Lemma hid_base_lacks (firmware data : bytes) :
  lacks sensor_keys (hid_base firmware data).
Proof. repeat constructor. Qed.

(** C4, as the code has it.  The hidraw decoder dispatches on the prefix
    of the stripped firmware string.  TEMPerF1.4 decodes the internal
    temperature alone, at offset 2 with divisor 256.0; TEMPerGold_V3.
    (whatever follows) decodes it at offset 2 with divisor 100.0;
    TEMPerX_V3.1 and TEMPerX_V3.3 decode internal temperature (2),
    internal humidity (4), external temperature (10) and external humidity
    (12) with divisor 100.0; any other firmware id gives a dict without any
    temperature or humidity field whose error field is the text
    Unknown firmware, the id, a colon and the Python rendering b'...' of
    the hex of the data buffer.  No case raises. *)
Theorem hid_dispatch (firmware data : bytes) :
  let fw := py_strip (latin1 firmware) in
  let base := hid_base firmware data in
  let field name off d := with_field name (spec_decode_field data off d) in
  (str_take 10 fw = "TEMPerF1.4" ->
   let info := field "internal temperature" 2%nat 256%float
                 (<["firmware" := VStr (str_take 10 fw)]> base) in
   USBRead.hid_info firmware data = Normal info
   /\ lacks ["internal humidity"; "external temperature"; "external humidity";
             "error"] info)
  /\ (str_take 14 fw = "TEMPerGold_V3." ->
      let info := field "internal temperature" 2%nat 100%float
                    (<["firmware" := VStr (str_take 15 fw)]> base) in
      USBRead.hid_info firmware data = Normal info
      /\ lacks ["internal humidity"; "external temperature";
                "external humidity"; "error"] info)
  /\ (str_take 12 fw = "TEMPerX_V3.1" \/ str_take 12 fw = "TEMPerX_V3.3" ->
      let info := field "external humidity" 12%nat 100%float
                    (field "external temperature" 10%nat 100%float
                       (field "internal humidity" 4%nat 100%float
                          (field "internal temperature" 2%nat 100%float
                             (<["firmware" := VStr (str_take 12 fw)]> base)))) in
      USBRead.hid_info firmware data = Normal info /\ lacks ["error"] info)
  /\ (unknown_firmware fw ->
      let info :=
        <["error" := VStr ("Unknown firmware " ++ fw ++ ": b'"
                           ++ b2a_hex data ++ "'")]> base in
      USBRead.hid_info firmware data = Normal info
      /\ lacks sensor_keys info).
Proof.
  cbv zeta. unfold USBRead.hid_info, USBRead.decode_firmware.
  set (fw := py_strip (latin1 firmware)).
  split; [|split; [|split]].
  - intros H10. unfold_monad. rewrite H10, String.eqb_refl. cbv beta iota.
    change 2 with (Z.of_nat 2).
    rewrite parse_bytes_run by reflexivity.
    split; [done|].
    repeat constructor; by rewrite with_field_other.
  - intros H14. unfold_monad.
    assert (String.eqb (str_take 10 fw) "TEMPerF1.4" = false) as ->.
    { apply String.eqb_neq. intros H10.
      destruct fw as [|c0 [|c1 [|c2 [|c3 [|c4 [|c5 [|c6 [|c7 [|c8 [|c9 ?]]]]]]]]]];
        simpl in *; congruence. }
    rewrite H14, String.eqb_refl. cbv beta iota.
    change 2 with (Z.of_nat 2).
    rewrite parse_bytes_run by reflexivity.
    split; [done|].
    repeat constructor; by rewrite with_field_other.
  - intros H12. unfold_monad.
    assert (String.eqb (str_take 10 fw) "TEMPerF1.4" = false) as ->.
    { apply String.eqb_neq. intros H10.
      destruct fw as [|c0 [|c1 [|c2 [|c3 [|c4 [|c5 [|c6 [|c7 [|c8 [|c9 ?]]]]]]]]]];
        simpl in *; destruct H12; congruence. }
    assert (String.eqb (str_take 14 fw) "TEMPerGold_V3." = false) as ->.
    { apply String.eqb_neq. intros H14.
      destruct fw as [|c0 [|c1 [|c2 [|c3 [|c4 [|c5 [|c6 [|c7 [|c8 [|c9 ?]]]]]]]]]];
        simpl in *; destruct H12; congruence. }
    assert (String.eqb (str_take 12 fw) "TEMPerX_V3.1"
            || String.eqb (str_take 12 fw) "TEMPerX_V3.3" = true) as ->.
    { destruct H12 as [->| ->]; rewrite String.eqb_refl; [done|apply orb_true_r]. }
    cbv beta iota.
    change 2 with (Z.of_nat 2). change 4 with (Z.of_nat 4).
    change 10 with (Z.of_nat 10). change 12 with (Z.of_nat 12).
    rewrite !parse_bytes_run by reflexivity.
    split; [done|].
    repeat constructor. by rewrite !with_field_other.
  - intros (H10 & H14 & H12a & H12b). unfold_monad.
    apply String.eqb_neq in H10, H14, H12a, H12b.
    rewrite H10, H14, H12a, H12b. cbv beta iota. simpl orb. cbv beta iota.
    split; [done|]. repeat constructor.
Qed.

(** The four branches on concrete replies: scenario A of the
    specification (TEMPerGold_V3.1, 0x09C4 at offset 2) among them. *)
Lemma hid_dispatch_witness :
  USBRead.hid_info (list_ascii_of_string "TEMPerF1.4")
    (bytes_of [0x80; 0x80; 0x19; 0x80])
  = Normal (<["internal temperature" := VFloat 25.5%float]>
              (<["firmware" := VStr "TEMPerF1.4"]>
                 (hid_base (list_ascii_of_string "TEMPerF1.4")
                    (bytes_of [0x80; 0x80; 0x19; 0x80]))))
  /\ USBRead.hid_info (list_ascii_of_string "TEMPerGold_V3.1 ")
       (bytes_of [0x80; 0x80; 0x09; 0xc4; 0x4e; 0x20; 0; 0])
     = Normal (<["internal temperature" := VFloat 25%float]>
                 (<["firmware" := VStr "TEMPerGold_V3.1"]>
                    (hid_base (list_ascii_of_string "TEMPerGold_V3.1 ")
                       (bytes_of [0x80; 0x80; 0x09; 0xc4; 0x4e; 0x20; 0; 0]))))
  /\ USBRead.hid_info (list_ascii_of_string "TEMPerX_V3.3")
       (bytes_of [0x80; 0x80; 0x09; 0xc4; 0x4e; 0x20; 0; 0])
     = Normal (<["internal temperature" := VFloat 25%float]>
                 (<["firmware" := VStr "TEMPerX_V3.3"]>
                    (hid_base (list_ascii_of_string "TEMPerX_V3.3")
                       (bytes_of [0x80; 0x80; 0x09; 0xc4; 0x4e; 0x20; 0; 0]))))
  /\ USBRead.hid_info (list_ascii_of_string "TEMPer2_V4.1") (bytes_of [0x80; 0x01])
     = Normal (<["error" := VStr "Unknown firmware TEMPer2_V4.1: b'8001'"]>
                 (hid_base (list_ascii_of_string "TEMPer2_V4.1")
                    (bytes_of [0x80; 0x01]))).
Proof.
  split; [|split; [|split]].
  - pose proof (hid_dispatch (list_ascii_of_string "TEMPerF1.4")
                  (bytes_of [0x80; 0x80; 0x19; 0x80])) as (H & _).
    apply H. reflexivity.
  - pose proof (hid_dispatch (list_ascii_of_string "TEMPerGold_V3.1 ")
                  (bytes_of [0x80; 0x80; 0x09; 0xc4; 0x4e; 0x20; 0; 0]))
      as (_ & H & _).
    apply H. reflexivity.
  - pose proof (hid_dispatch (list_ascii_of_string "TEMPerX_V3.3")
                  (bytes_of [0x80; 0x80; 0x09; 0xc4; 0x4e; 0x20; 0; 0]))
      as (_ & _ & H & _).
    apply H. right. reflexivity.
  - pose proof (hid_dispatch (list_ascii_of_string "TEMPer2_V4.1")
                  (bytes_of [0x80; 0x01])) as (_ & _ & _ & H).
    apply H. repeat split; discriminate.
Defined.

(** The error text of the specification, in lower case with the bare hex, is
    not the one the code stores. *)
Lemma hid_dispatch_counterexample :
  field_of (USBRead.hid_info (list_ascii_of_string "TEMPer2_V4.1")
              (bytes_of [0x80; 0x01])) "error"
  = Some (VStr "Unknown firmware TEMPer2_V4.1: b'8001'")
  /\ field_of (USBRead.hid_info (list_ascii_of_string "TEMPer2_V4.1")
                 (bytes_of [0x80; 0x01])) "error"
     <> Some (VStr "unknown firmware TEMPer2_V4.1: 8001").
Proof.
  assert (field_of (USBRead.hid_info (list_ascii_of_string "TEMPer2_V4.1")
                      (bytes_of [0x80; 0x01])) "error"
          = Some (VStr "Unknown firmware TEMPer2_V4.1: b'8001'")) as ->
    by (vm_compute; reflexivity).
  split; [reflexivity|discriminate].
Qed.

(** ** The searches of the scanner in plain terms *)

Lemma append_cons (c : ascii) (a b : string) :
  String c a ++ b = String c (a ++ b).
Proof. reflexivity. Qed.

Lemma append_nil (b : string) : "" ++ b = b.
Proof. reflexivity. Qed.

Lemma prefix_split (lit s : string) :
  String.prefix lit s = true <-> exists u, s = lit ++ u.
Proof.
  revert s. induction lit as [|c lit IH]; intros s.
  - split; [intros _; by exists s|by destruct s].
  - destruct s as [|c' s]; simpl; [split; [done|by intros [u Hu]]|].
    destruct (Ascii.ascii_dec c c') as [->|Hne].
    + rewrite IH. split; intros [u Hu]; exists u;
        rewrite append_cons in *; congruence.
    + split; [done|]. intros [u Hu]. rewrite append_cons in Hu. congruence.
Qed.

Lemma str_drop_app (lit u : string) :
  str_drop (String.length lit) (lit ++ u) = u.
Proof.
  induction lit as [|c lit IH]; [by destruct u|].
  rewrite append_cons. simpl. apply IH.
Qed.

Lemma re_search_is_Some (r : regex) (s : string) :
  is_Some (re_search r s)
  <-> exists a t, s = a ++ t /\ is_Some (re_match r t).
Proof.
  induction s as [|c s IH]; cbn [re_search].
  - destruct (re_match r "") as [caps|] eqn:Hm.
    + split; [|by eexists]. intros _. exists "", "". by rewrite Hm.
    + split; [by intros [? ?]|].
      intros (a & t & Hs & Ht). destruct a as [|c a].
      * rewrite append_nil in Hs. subst t. rewrite Hm in Ht. by destruct Ht.
      * rewrite append_cons in Hs. discriminate.
  - destruct (re_match r (String c s)) as [caps|] eqn:Hm.
    + split; [|by eexists]. intros _. exists "", (String c s). by rewrite Hm.
    + rewrite IH. split.
      * intros (a & t & -> & Ht). by exists (String c a), t.
      * intros (a & t & Hs & Ht). destruct a as [|c' a].
        -- rewrite append_nil in Hs. subst t. rewrite Hm in Ht. by destruct Ht.
        -- rewrite append_cons in Hs. injection Hs as -> ->. by exists a, t.
Qed.

Lemma star_match_is_Some {R} (p : ascii -> bool) (s : string)
    (k : string -> option R) :
  is_Some (star_match p s k)
  <-> exists b u, s = b ++ u /\ all_chars p b = true /\ is_Some (k u).
Proof.
  induction s as [|c s IH]; cbn [star_match].
  - split.
    + intros Hk. by exists "", "".
    + intros (b & u & Hs & _ & Hk). destruct b as [|c b].
      * rewrite append_nil in Hs. by subst u.
      * rewrite append_cons in Hs. discriminate.
  - destruct (p c) eqn:Hp.
    + destruct (star_match p s k) as [r|] eqn:Hstar.
      * split; [|by eexists]. intros _.
        destruct (proj1 IH (mk_is_Some _ _ eq_refl)) as (b & u & -> & Hb & Hk).
        exists (String c b), u. cbn [all_chars]. by rewrite Hp, Hb.
      * split.
        -- intros Hk. by exists "", (String c s).
        -- intros (b & u & Hs & Hb & Hk). destruct b as [|c' b].
           ++ rewrite append_nil in Hs. by subst u.
           ++ rewrite append_cons in Hs. injection Hs as -> ->.
              cbn [all_chars] in Hb. apply andb_prop in Hb as [_ Hb].
              assert (is_Some (None : option R)) as [? ?]; [|done].
              apply IH. by exists b, u.
    + split.
      * intros Hk. by exists "", (String c s).
      * intros (b & u & Hs & Hb & Hk). destruct b as [|c' b].
        -- rewrite append_nil in Hs. by subst u.
        -- rewrite append_cons in Hs. injection Hs as -> ->.
           cbn [all_chars] in Hb. by rewrite Hp in Hb.
Qed.

Lemma tty_search_plain (s : string) :
  is_Some (re_search USBList.tty_pattern s) <-> tty_then_digit s.
Proof.
  rewrite re_search_is_Some. unfold tty_then_digit. split.
  - intros (a & t & -> & Ht). unfold re_match, USBList.tty_pattern in Ht.
    cbn [rmatch] in Ht.
    destruct (String.prefix "tty" t) eqn:Hpre; [|by destruct Ht].
    apply prefix_split in Hpre as [u ->].
    rewrite (str_drop_app "tty" u) in Ht.
    apply star_match_is_Some in Ht as (b & v & -> & Hb & Hv).
    destruct v as [|d c]; [by destruct Hv|].
    destruct (is_digit d) eqn:Hd; [|by destruct Hv].
    by exists a, b, d, c.
  - intros (a & b & d & c & -> & Hb & Hd).
    exists a, ("tty" ++ b ++ String d c). split; [done|].
    unfold re_match, USBList.tty_pattern. cbn [rmatch].
    assert (String.prefix "tty" ("tty" ++ b ++ String d c) = true) as ->
      by (apply prefix_split; by eexists).
    rewrite (str_drop_app "tty").
    apply star_match_is_Some. exists b, (String d c).
    split; [done|]. split; [done|]. by rewrite Hd.
Qed.

Lemma hidraw_search_plain (s : string) :
  is_Some (re_search USBList.hidraw_pattern s) <-> hidraw_digit s.
Proof.
  rewrite re_search_is_Some. unfold hidraw_digit. split.
  - intros (a & t & -> & Ht). unfold re_match, USBList.hidraw_pattern in Ht.
    cbn [rmatch] in Ht.
    destruct (String.prefix "hidraw" t) eqn:Hpre; [|by destruct Ht].
    apply prefix_split in Hpre as [u ->].
    rewrite (str_drop_app "hidraw" u) in Ht.
    destruct u as [|d c]; [by destruct Ht|].
    destruct (is_digit d) eqn:Hd; [|by destruct Ht].
    by exists a, d, c.
  - intros (a & d & c & -> & Hd).
    exists a, ("hidraw" ++ String d c). split; [done|].
    unfold re_match, USBList.hidraw_pattern. cbn [rmatch].
    assert (String.prefix "hidraw" ("hidraw" ++ String d c) = true) as ->
      by (apply prefix_split; by eexists).
    rewrite (str_drop_app "hidraw"). by rewrite Hd.
Qed.

Lemma name_matches_plain (s : string) :
  USBList.name_matches s = true <-> tty_then_digit s \/ hidraw_digit s.
Proof.
  unfold USBList.name_matches.
  rewrite orb_true_iff, !bool_decide_eq_true.
  by rewrite tty_search_plain, hidraw_search_plain.
Qed.

(** ** The firmware query on a hidraw device *)

Arguments os_open : simpl never.
Arguments serial_open : simpl never.
Arguments os_write : simpl never.
Arguments os_read : simpl never.
Arguments os_close : simpl never.
Arguments select_ready : simpl never.
Arguments serial_readline : simpl never.
Arguments emit : simpl never.
Arguments os_times_elapsed : simpl never.

Lemma after_after (fd : string) (n1 n2 : node) (e1 e2 : list event) (w : world) :
  after fd n2 e2 (after fd n1 e1 w) = after fd n2 (e1 ++ e2)%list w.
Proof.
  unfold after; simpl. by rewrite insert_insert_eq, <- app_assoc.
Qed.

Lemma dev_after (fd : string) (n : node) (evs : list event) (w : world) :
  dev (after fd n evs w) !! fd = Some n.
Proof. unfold after; simpl. apply lookup_insert_eq. Qed.

Lemma alter_lookup_insert (f : node -> node) (fd : string) (n : node)
    (d : gmap string node) :
  d !! fd = Some n -> alter f fd d = <[fd := f n]> d.
Proof.
  intros Hn. apply map_eq. intros k.
  destruct (decide (k = fd)) as [->|Hk].
  - by rewrite lookup_alter_eq, lookup_insert_eq, Hn.
  - by rewrite lookup_alter_ne, lookup_insert_ne.
Qed.

Lemma os_write_run (fd : string) (data : bytes) (n : node) (w : world) :
  dev w !! fd = Some n ->
  os_write fd data w = (Normal tt, after fd (answer n) [EvWrite fd data] w).
Proof.
  intros Hn. unfold os_write, emit, set_dev, after. unfold_monad. simpl.
  by rewrite (alter_lookup_insert _ _ n).
Qed.

Lemma select_ready_run (fd : string) (n : node) (w : world) :
  dev w !! fd = Some n ->
  select_ready fd w = (Normal (bool_decide (ready n ≠ [])), w).
Proof. intros Hn. unfold select_ready. by rewrite Hn. Qed.

Lemma os_read_run (fd : string) (k : nat) (n : node) (w : world) :
  dev w !! fd = Some n ->
  os_read fd k w =
  (Normal (take k (hd [] (ready n))),
   after fd (pop_ready n) [EvRead fd (take k (hd [] (ready n)))] w).
Proof.
  intros Hn. unfold os_read, emit, set_dev, after. unfold_monad. simpl.
  by rewrite Hn, (alter_lookup_insert _ _ n).
Qed.

Lemma os_close_run (fd : string) (n : node) (w : world) :
  dev w !! fd = Some n ->
  os_close fd w = (Normal tt, after fd n [EvClose fd] w).
Proof.
  intros Hn. unfold os_close, emit, after. unfold_monad.
  by rewrite insert_id.
Qed.

Lemma read_loop_S (fuel : nat) (fd : string) (acc : bytes) :
  HidIO.read_loop (S fuel) fd acc =
  (r ← select_ready fd;
   if r : bool then data ← os_read fd 8; HidIO.read_loop fuel fd (acc ++ data)
   else mret acc).
Proof. reflexivity. Qed.

Lemma read_loop_run (fd : string) (reps : list (list bytes)) (rdy : list bytes) :
  forall (fuel : nat) (acc : bytes) (w : world),
    dev w !! fd = Some (Node reps rdy) ->
    (length rdy < fuel)%nat ->
    HidIO.read_loop fuel fd acc w =
    (Normal (acc ++ burst_bytes rdy)%list,
     after fd (Node reps []) (read_events fd rdy) w).
Proof.
  induction rdy as [|f rdy IH]; intros fuel acc w Hn Hfuel.
  - destruct fuel as [|fuel]; [simpl in Hfuel; lia|].
    rewrite read_loop_S. unfold mbind, M_bind.
    rewrite (select_ready_run _ _ _ Hn). cbn [ready].
    rewrite bool_decide_false by (intros H; by apply H).
    unfold mret, M_ret, after, burst_bytes, read_events. cbn [map concat].
    rewrite !app_nil_r, insert_id by done. by destruct w.
  - destruct fuel as [|fuel]; [simpl in Hfuel; lia|].
    rewrite read_loop_S. unfold mbind, M_bind.
    rewrite (select_ready_run _ _ _ Hn). cbn [ready].
    rewrite bool_decide_true by done.
    rewrite (os_read_run _ _ _ _ Hn). cbn [ready hd].
    rewrite (IH fuel _ _ (dev_after _ _ _ _)) by (simpl in Hfuel; lia).
    rewrite after_after. unfold burst_bytes, read_events. cbn [map concat].
    by rewrite <- app_assoc.
Qed.

Lemma read_frames_run (fd : string) (reps : list (list bytes)) (rdy : list bytes)
    (w : world) :
  dev w !! fd = Some (Node reps rdy) ->
  HidIO.read_frames fd w =
  (Normal (burst_bytes rdy), after fd (Node reps []) (read_events fd rdy) w).
Proof.
  intros Hn. unfold HidIO.read_frames, pending. rewrite Hn. simpl ready.
  by rewrite (read_loop_run fd reps rdy) by (done || lia).
Qed.

(** One turn of the loop of [_read_hidraw_firmware]. *)
Lemma firmware_attempt_run (k : nat) (fd : string) (fw : bytes) (n : node)
    (w : world) :
  dev w !! fd = Some n ->
  let got := burst_bytes (ready (answer n)) in
  let evs := (EvWrite fd HidIO.firmware_query :: read_events fd (ready (answer n))) in
  let w1 := after fd (Node (replies (answer n)) []) evs w in
  HidIO.firmware_attempts (S k) fd fw w =
  if (length got =? 0)%nat then
    (Raise (RuntimeError "Cannot read device firmware identifier"),
     after fd (Node (replies (answer n)) []) (evs ++ [EvClose fd])%list w)
  else if (8 <? length got)%nat then (Normal got, w1)
  else HidIO.firmware_attempts k fd got w1.
Proof.
  intros Hn got evs w1.
  change (HidIO.firmware_attempts (S k) fd fw) with
    (_ ← os_write fd HidIO.firmware_query;
     firmware ← HidIO.read_frames fd;
     if (length firmware =? 0)%nat then
       _ ← os_close fd;
       raise (RuntimeError "Cannot read device firmware identifier")
     else if (8 <? length firmware)%nat then mret firmware
     else HidIO.firmware_attempts k fd firmware).
  unfold mbind, M_bind.
  rewrite (os_write_run _ _ _ _ Hn).
  destruct (answer n) as [reps rdy] eqn:Ha.
  rewrite (read_frames_run fd reps rdy) by apply dev_after.
  rewrite after_after. cbn [ready replies] in *.
  fold got. change ([EvWrite fd HidIO.firmware_query] ++ read_events fd rdy)%list
    with evs. fold w1.
  destruct (length got =? 0)%nat; [|by destruct (8 <? length got)%nat].
  rewrite (os_close_run fd (Node reps [])) by apply dev_after.
  unfold w1, raise. by rewrite after_after.
Qed.






(** ** A serial exchange *)

Lemma serial_open_run (name : string) (n : node) (w : world) :
  dev w !! name = Some n ->
  serial_open name w = (Normal name, after name n [EvOpen name] w).
Proof.
  intros Hn. unfold serial_open, emit, after. rewrite Hn. unfold_monad.
  by rewrite insert_id.
Qed.

Lemma os_open_run (name : string) (n : node) (w : world) :
  dev w !! name = Some n ->
  os_open name w = (Normal name, after name n [EvOpen name] w).
Proof.
  intros Hn. unfold os_open, emit, after. rewrite Hn. unfold_monad.
  by rewrite insert_id.
Qed.

Lemma serial_readline_run (fd : string) (n : node) (w : world) :
  dev w !! fd = Some n ->
  serial_readline fd w =
  (Normal (hd [] (ready n)),
   after fd (pop_ready n) [EvRead fd (hd [] (ready n))] w).
Proof.
  intros Hn. unfold serial_readline, emit, set_dev, after. unfold_monad. simpl.
  by rewrite Hn, (alter_lookup_insert _ _ n).
Qed.

(** The device answers Version with one line and ReadTemp with two: the
    decoder parses the stripped firmware line and the two stripped reply
    lines put together. *)
Lemma read_serial_run (name : string) (w : world) (version l1 l2 : bytes)
    (rest : list (list bytes)) :
  dev w !! name = Some (Node ([version] :: [l1; l2] :: rest) []) ->
  fst (SerialIO._read_serial name w)
  = SerialIO.serial_info (py_strip (latin1 version))
      (py_strip (latin1 l1) ++ py_strip (latin1 l2)).
Proof.
  intros Hn. unfold SerialIO._read_serial. unfold mbind, M_bind.
  rewrite (serial_open_run _ _ _ Hn).
  rewrite (os_write_run _ _ _ _ (dev_after _ _ _ _)), after_after.
  unfold answer. cbn [replies ready app].
  rewrite (serial_readline_run _ _ _ (dev_after _ _ _ _)), after_after.
  cbn [ready hd pop_ready replies tail].
  rewrite (os_write_run _ _ _ _ (dev_after _ _ _ _)), after_after.
  unfold answer. cbn [replies ready app].
  rewrite (serial_readline_run _ _ _ (dev_after _ _ _ _)), after_after.
  cbn [ready hd pop_ready replies tail].
  rewrite (serial_readline_run _ _ _ (dev_after _ _ _ _)), after_after.
  cbn [ready hd pop_ready replies tail].
  rewrite (os_close_run _ _ _ (dev_after _ _ _ _)).
  unfold lift. done.
Qed.

(** The hidraw exchange when the first firmware reply is long enough. *)
Lemma read_hidraw_run (name : string) (w : world) (fw data : list bytes)
    (rest : list (list bytes)) :
  dev w !! name = Some (Node (fw :: data :: rest) []) ->
  (8 < length (burst_bytes fw))%nat ->
  fst (HidIO._read_hidraw name w)
  = USBRead.hid_info (burst_bytes fw) (burst_bytes data).
Proof.
  intros Hn Hlong. unfold HidIO._read_hidraw, HidIO._read_hidraw_firmware.
  unfold mbind, M_bind.
  rewrite (os_open_run _ _ _ Hn).
  rewrite (firmware_attempt_run _ _ _ _ _ (dev_after _ _ _ _)). cbv zeta.
  unfold answer. cbn [replies ready app].
  destruct (Nat.eqb_spec (length (burst_bytes fw)) 0); [lia|].
  destruct (Nat.ltb_spec 8 (length (burst_bytes fw))); [|lia].
  rewrite after_after.
  rewrite (os_write_run _ _ _ _ (dev_after _ _ _ _)), after_after.
  unfold answer. cbn [replies ready app].
  rewrite (read_frames_run name rest data) by apply dev_after.
  rewrite after_after.
  rewrite (os_close_run _ _ _ (dev_after _ _ _ _)).
  unfold lift. done.
Qed.

(** ** The serial decoder *)

Lemma serial_scenario (firmware : string) :
  SerialIO.serial_info firmware "Temp-Inner:21.50,45Temp-Outer:19.00"
  = Normal (<["external temperature" := VFloat 19%float]>
              (<["internal humidity" := VFloat 45%float]>
                 (<["internal temperature" := VFloat 21.5%float]>
                    {[ "firmware" := VStr firmware ]}))).
Proof. reflexivity. Qed.

(** C9.  The serial decoder turns the concatenated reply
    Temp-Inner:21.50,45Temp-Outer:19.00 into internal temperature 21.5,
    internal humidity 45.0 and external temperature 19.0, also when the
    two halves arrive as two lines from the device; and a reply in which
    neither the Temp-Inner nor the Temp-Outer pattern is found gives a dict
    that holds the firmware id and nothing else: no sensor field and no
    error field. *)
Theorem serial_reply (firmware : string) :
  SerialIO.serial_info firmware "Temp-Inner:21.50,45Temp-Outer:19.00"
  = Normal (<["external temperature" := VFloat 19%float]>
              (<["internal humidity" := VFloat 45%float]>
                 (<["internal temperature" := VFloat 21.5%float]>
                    {[ "firmware" := VStr firmware ]})))
  /\ (forall (name : string) (w : world) (rest : list (list bytes)),
        dev w !! name
        = Some (Node ([line firmware]
                      :: [line "Temp-Inner:21.50,45"; line "Temp-Outer:19.00"]
                      :: rest) []) ->
        fst (SerialIO._read_serial name w)
        = Normal (<["external temperature" := VFloat 19%float]>
                    (<["internal humidity" := VFloat 45%float]>
                       (<["internal temperature" := VFloat 21.5%float]>
                          {[ "firmware" := VStr (py_strip (latin1 (line firmware))) ]}))))
  /\ (forall reply : string,
        re_search SerialIO.inner_pattern reply = None ->
        re_search SerialIO.outer_pattern reply = None ->
        SerialIO.serial_info firmware reply = Normal {[ "firmware" := VStr firmware ]}
        /\ lacks ("error" :: sensor_keys) ({[ "firmware" := VStr firmware ]} : dict)).
Proof.
  split; [apply serial_scenario|]. split.
  - intros name w rest Hn. rewrite (read_serial_run _ _ _ _ _ _ Hn).
    apply serial_scenario.
  - intros reply Hin Hout.
    unfold SerialIO.serial_info, SerialIO.parse_reply. unfold_monad.
    rewrite Hin, Hout. split; [done|]. repeat constructor.
Qed.

Lemma serial_reply_witness :
  SerialIO.serial_info "TEMPerX232_V2.0" "ERROR: no sensor"
  = Normal {[ "firmware" := VStr "TEMPerX232_V2.0" ]}
  /\ fst (SerialIO._read_serial "ttyUSB0"
            (World {[ "ttyUSB0" :=
                        Node [[line "TEMPerX232_V2.0"];
                              [line "Temp-Inner:21.50,45"; line "Temp-Outer:19.00"]]
                             [] ]} [] [] []))
     = Normal (<["external temperature" := VFloat 19%float]>
                 (<["internal humidity" := VFloat 45%float]>
                    (<["internal temperature" := VFloat 21.5%float]>
                       {[ "firmware" := VStr "TEMPerX232_V2.0" ]}))).
Proof.
  split.
  - apply (serial_reply "TEMPerX232_V2.0"); reflexivity.
  - pose proof (serial_reply "TEMPerX232_V2.0") as (_ & H & _).
    apply (H "ttyUSB0" _ []). reflexivity.
Defined.

(** ** The scanner *)

(** Induction on a sysfs tree, with the hypothesis for every entry of a
    directory. *)
Lemma fsnode_dir_ind (P : fsnode -> Prop) :
  (forall c, P (FFile c)) ->
  (forall t, P (FLink t)) ->
  (forall es, Forall (fun kv => P (snd kv)) es -> P (FDir es)) ->
  forall n, P n.
Proof.
  intros Hfile Hlink Hdir.
  fix IH 1. intros [c|es|t].
  - apply Hfile.
  - apply Hdir.
    induction es as [|kv es IHes]; constructor; [apply IH|exact IHes].
  - apply Hlink.
Qed.

Lemma elem_of_if_singleton (b : bool) (x name : string) :
  x ∈ (if b then {[ name ]} else ∅ : gset string) <-> b = true /\ x = name.
Proof.
  destruct b.
  - rewrite elem_of_singleton. split; [by intros ->|by intros [_ ->]].
  - rewrite elem_of_empty. split; [done|by intros [? _]].
Qed.

Lemma find_devices_names (n : fsnode) (x : string) :
  x ∈ USBList._find_devices n
  <-> x ∈ subtree_names n /\ USBList.name_matches x = true.
Proof.
  induction n as [c|t|es IH] using fsnode_dir_ind.
  - simpl. rewrite elem_of_empty, elem_of_nil. tauto.
  - simpl. rewrite elem_of_empty, elem_of_nil. tauto.
  - simpl. induction IH as [|[name child] es Hchild _ IHes].
    + rewrite elem_of_empty, elem_of_nil. tauto.
    + rewrite !elem_of_union, IHes. clear IHes.
      rewrite elem_of_cons, elem_of_app, !elem_of_if_singleton.
      assert (x ∈ match child with
                  | FDir _ => USBList._find_devices child
                  | _ => ∅
                  end
              <-> x ∈ match child with
                      | FDir _ => subtree_names child
                      | _ => []
                      end /\ USBList.name_matches x = true) as ->.
      { destruct child; [|exact Hchild|];
          rewrite elem_of_empty, elem_of_nil; tauto. }
      unfold USBList.name_matches. rewrite orb_true_iff.
      split.
      * intros [[[H|[H ->]]|[H ->]]|H]; tauto.
      * intros [[->|[H|H]] Hm]; tauto.
Qed.

Lemma insert_sorted_perm (x : string) (l : list string) :
  USBList.insert_sorted x l ≡ₚ x :: l.
Proof.
  induction l as [|y l IH]; simpl; [done|].
  destruct (String.leb x y); [done|].
  rewrite IH. apply Permutation_swap.
Qed.

Lemma sorted_perm (s : gset string) : USBList.sorted s ≡ₚ elements s.
Proof.
  unfold USBList.sorted.
  induction (elements s) as [|x l IH]; simpl; [done|].
  by rewrite insert_sorted_perm, IH.
Qed.

Lemma insert_sorted_Sorted (x : string) (l : list string) :
  Sorted string_le l -> Sorted string_le (USBList.insert_sorted x l).
Proof.
  induction l as [|y l IH]; intros Hl; simpl.
  - repeat constructor.
  - destruct (String.leb x y) eqn:Hxy.
    + constructor; [done|]. by constructor.
    + apply Sorted_inv in Hl as [Hl Hhd].
      constructor; [by apply IH|].
      assert (string_le y x) as Hyx.
      { destruct (String.leb_total x y) as [H|H]; [congruence|done]. }
      destruct l as [|z l]; simpl; [by constructor|].
      destruct (String.leb x z); constructor; [done|].
      by apply HdRel_inv in Hhd.
Qed.

Lemma sorted_Sorted (s : gset string) : Sorted string_le (USBList.sorted s).
Proof.
  unfold USBList.sorted.
  induction (elements s) as [|x l IH]; simpl; [constructor|].
  by apply insert_sorted_Sorted.
Qed.

Lemma get_usb_device_devices (dir : fsnode) (d : device) :
  USBList._get_usb_device dir = Normal (Some d) ->
  devices d = USBList.sorted (USBList._find_devices dir).
Proof.
  unfold USBList._get_usb_device. unfold_monad.
  destruct (String.eqb _ ""); [done|].
  repeat (match goal with
          | |- context [match py_int ?b ?s with _ => _ end] =>
              destruct (py_int b s)
          end; [|done]).
  by intros [= <-].
Qed.

(** C7, as the code has it.  The candidate interfaces recorded for a
    scanned device directory are in ascending order, without repetition,
    and are entry names found in the subtree of the directory (real
    subdirectories descended into, symbolic links not followed).  Every
    such name that starts with tty and has a digit later on (ttyUSB0,
    ttyACM1), or starts with hidraw and a digit, is recorded; and a
    recorded name is exactly one in which the two searches of the code
    succeed: the letters tty followed, anywhere later and before any
    newline, by a digit, or the letters hidraw directly followed by a
    digit. *)
Theorem candidate_interfaces (dir : fsnode) (d : device) :
  USBList._get_usb_device dir = Normal (Some d) ->
  Sorted string_le (devices d)
  /\ NoDup (devices d)
  /\ (forall name : string,
        name ∈ devices d
        <-> name ∈ subtree_names dir /\ (tty_then_digit name \/ hidraw_digit name))
  /\ (forall (b c : string) (digit : ascii),
        all_chars not_newline b = true -> is_digit digit = true ->
        "tty" ++ b ++ String digit c ∈ subtree_names dir ->
        "tty" ++ b ++ String digit c ∈ devices d)
  /\ (forall (c : string) (digit : ascii),
        is_digit digit = true ->
        "hidraw" ++ String digit c ∈ subtree_names dir ->
        "hidraw" ++ String digit c ∈ devices d).
Proof.
  intros Hd.
  assert (forall name : string,
            name ∈ devices d
            <-> name ∈ subtree_names dir
                /\ (tty_then_digit name \/ hidraw_digit name)) as Hiff.
  { intros name. rewrite (get_usb_device_devices _ _ Hd).
    rewrite sorted_perm, elem_of_elements, <- name_matches_plain.
    apply find_devices_names. }
  split; [rewrite (get_usb_device_devices _ _ Hd); apply sorted_Sorted|].
  split.
  { rewrite (get_usb_device_devices _ _ Hd), sorted_perm. apply NoDup_elements. }
  split; [exact Hiff|]. split.
  - intros b c digit Hb Hdigit Hin. apply Hiff. split; [done|]. left.
    by exists "", b, digit, c.
  - intros c digit Hdigit Hin. apply Hiff. split; [done|]. right.
    by exists "", digit, c.
Qed.

Lemma candidate_interfaces_witness :
  "ttyUSB0" ∈ devices (Device 0x1a86 0x5523 "QinHeng" "USB Serial" 1 7 ["ttyUSB0"] None)
  <-> "ttyUSB0" ∈ subtree_names serial_stick
      /\ (tty_then_digit "ttyUSB0" \/ hidraw_digit "ttyUSB0").
Proof.
  apply (candidate_interfaces serial_stick). vm_compute. reflexivity.
Defined.

(** ttyUSB0 is recorded, and it is not tty followed by digits. *)
Lemma candidate_interfaces_counterexample :
  USBList._get_usb_device serial_stick
  = Normal (Some (Device 0x1a86 0x5523 "QinHeng" "USB Serial" 1 7 ["ttyUSB0"] None))
  /\ spec_interface_name "ttyUSB0" = false.
Proof.
  split; vm_compute; reflexivity.
Qed.

(** C8.  A device directory that has a vendor id but no idProduct, or a
    busnum that cannot be read, does not yield a registry entry with the
    attribute absent: the empty string reaches [int] and the ValueError
    ends the whole scan, other devices included.  A missing manufacturer
    or product is absorbed as the empty string. *)
Theorem scan_aborts_on_missing_number :
  fst (USBList.get_usb_devices
         (World ∅ [("usb1", hub); ("1-1", stick_without_idProduct)] [] []))
  = Raise ValueError
  /\ fst (USBList.get_usb_devices
            (World ∅ [("usb1", hub); ("1-1", stick_unreadable_busnum)] [] []))
     = Raise ValueError
  /\ fst (USBList.get_usb_devices
            (World ∅ [("1-1", stick_without_strings)] [] []))
     = Normal [("/sys/bus/usb/devices/1-1",
                Device 0x0c45 0x7401 "" "" 1 4 [] None)].
Proof.
  repeat split; vm_compute; reflexivity.
Qed.

Lemma py_int_raises (base : Z) (s : string) (e : exn) :
  py_int base s = Raise e -> e = ValueError.
Proof.
  unfold py_int.
  destruct (match py_strip s with
            | String "-" s' => Z.opp <$> scan_unsigned base s'
            | String "+" s' => scan_unsigned base s'
            | s' => scan_unsigned base s'
            end); [done|congruence].
Qed.

(** The failure is general: whenever the vendor id is there and one of the
    three other numbers reads as the empty string, the directory raises. *)
Lemma get_usb_device_missing_number (es : list (string * fsnode)) :
  USBList._readfile es "idVendor" <> "" ->
  USBList._readfile es "idProduct" = ""
  \/ USBList._readfile es "busnum" = ""
  \/ USBList._readfile es "devnum" = "" ->
  USBList._get_usb_device (FDir es) = Raise ValueError.
Proof.
  intros Hv Hmissing. unfold USBList._get_usb_device. unfold_monad.
  apply String.eqb_neq in Hv. rewrite Hv.
  destruct (py_int 16 (USBList._readfile es "idVendor")) as [vid|e] eqn:Evid;
    [|by rewrite (py_int_raises _ _ _ Evid)].
  destruct (py_int 16 (USBList._readfile es "idProduct")) as [pid|e] eqn:Epid;
    [|by rewrite (py_int_raises _ _ _ Epid)].
  destruct (py_int 10 (USBList._readfile es "busnum")) as [bus|e] eqn:Ebus;
    [|by rewrite (py_int_raises _ _ _ Ebus)].
  destruct (py_int 10 (USBList._readfile es "devnum")) as [dev|e] eqn:Edev;
    [|by rewrite (py_int_raises _ _ _ Edev)].
  destruct Hmissing as [H|[H|H]]; rewrite H in *; discriminate.
Qed.

(** A directory without a readable idVendor is skipped, without error. *)
Lemma get_usb_device_no_vendor (es : list (string * fsnode)) :
  USBList._readfile es "idVendor" = "" ->
  USBList._get_usb_device (FDir es) = Normal None.
Proof.
  intros Hv. unfold USBList._get_usb_device. by rewrite Hv.
Qed.

(** ** The last candidate is the greatest *)




(** ** What a decoder does to the world *)

Lemma logs_only_ret {A} (name : string) (a : A) :
  logs_only name (mret a).
Proof.
  intros w r w' [= <- <-]. exists []. by rewrite app_nil_r.
Qed.



Lemma logs_only_bind {A B} (name : string) (m : M world A) (k : A -> M world B) :
  logs_only name m -> (forall a, logs_only name (k a)) ->
  logs_only name (m ≫= k).
Proof.
  intros Hm Hk w r w'. unfold mbind, M_bind.
  destruct (m w) as [[a|e] w1] eqn:Em.
  - intros Ek. destruct (Hm _ _ _ Em) as (evs1 & Hl1 & Hf1).
    destruct (Hk a _ _ _ Ek) as (evs2 & Hl2 & Hf2).
    exists (evs1 ++ evs2)%list. rewrite Hl2, Hl1, app_assoc.
    split; [done|]. by apply Forall_app.
  - intros [= <- <-]. destruct (Hm _ _ _ Em) as (evs1 & Hl1 & Hf1).
    by exists evs1.
Qed.

Lemma logs_only_emit (name : string) (e : event) :
  event_name e = Some name -> logs_only name (emit e).
Proof.
  intros He w r w' [= <- <-]. exists [e]. split; [done|]. by constructor.
Qed.


Lemma logs_only_os_open (name : string) : logs_only name (os_open name).
Proof.
  intros w r w'. unfold os_open. destruct (dev w !! name).
  - apply logs_only_bind; [by apply logs_only_emit|intros; apply logs_only_ret].
  - intros [= <- <-]. exists []. by rewrite app_nil_r.
Qed.

Lemma logs_only_serial_open (name : string) : logs_only name (serial_open name).
Proof.
  intros w r w'. unfold serial_open. destruct (dev w !! name).
  - apply logs_only_bind; [by apply logs_only_emit|intros; apply logs_only_ret].
  - intros [= <- <-]. exists []. by rewrite app_nil_r.
Qed.














(** ** The acquisition loop *)

Lemma read_items_cons (i : nat) (path : string) (info : device)
    (rest : list Temper.item) (results : list dict) (st : state) :
  Temper.read_items ((i, (path, info)) :: rest) results st =
  if negb (known_item (self st) (i, (path, info))) then
    Temper.read_items rest results st
  else
    match last (devices info) with
    | None =>
        Temper.read_items rest
          (results ++ [to_dict (Temper.set_error Temper.no_interface_message info)])
          (marked i st)
    | Some name =>
        match USBRead_read name (outside st) with
        | (Normal reading, w1) =>
            Temper.read_items rest (results ++ [reading ∪ to_dict info])
              (State (self st) w1)
        | (Raise e, w1) => (Raise e, State (self st) w1)
        end
    end.
Proof.
  cbn [Temper.read_items]. unfold mbind, M_bind, get_self, known_item.
  cbn [snd vendorid productid].
  destruct (negb _); [done|].
  destruct (last (devices info)) as [name|].
  - unfold in_world. destruct (USBRead_read name (outside st)) as [[rd|e] w1]; done.
  - destruct st as [t w]. done.
Qed.

Lemma is_known_id_same_forced (t t' : temper) (v p : Z) :
  same_forced t t' -> Temper._is_known_id t' v p = Temper._is_known_id t v p.
Proof.
  intros [Hv Hp]. unfold Temper._is_known_id. by rewrite Hv, Hp.
Qed.

Lemma set_error_idemp (msg : string) (d : device) :
  Temper.set_error msg (Temper.set_error msg d) = Temper.set_error msg d.
Proof. reflexivity. Qed.


Lemma names_of_cons_known (t : temper) (it : Temper.item) (rest : list Temper.item) :
  known_item t it = true ->
  names_of t (it :: rest)
  = match last (devices (snd (snd it))) with
    | Some name => name :: names_of t rest
    | None => names_of t rest
    end.
Proof.
  intros Hk. unfold names_of. cbn [List.filter]. rewrite Hk. simpl.
  by destruct (last (devices it.2.2)).
Qed.

Lemma names_of_cons_unknown (t : temper) (it : Temper.item) (rest : list Temper.item) :
  known_item t it = false -> names_of t (it :: rest) = names_of t rest.
Proof.
  intros Hk. unfold names_of. cbn [List.filter]. by rewrite Hk.
Qed.

Lemma known_item_same_forced (t t' : temper) (it : Temper.item) :
  same_forced t t' -> known_item t' it = known_item t it.
Proof. intros H. unfold known_item. by apply is_known_id_same_forced. Qed.


(** When the loop ends, the new results are the acquisition of the known
    items on the world as the loop found it. *)
Lemma read_items_acquired (t0 : temper) (items : list Temper.item) :
  forall (results : list dict) (st : state) (res : list dict) (st' : state),
    Temper.read_items items results st = (Normal res, st') ->
    same_forced t0 (self st) ->
    exists new,
      res = (results ++ new)%list
      /\ acquired (List.filter (known_item t0) items) (outside st) new (outside st').
Proof.
  induction items as [|[i [path info]] rest IH];
    intros results st res st' Hrun Hforced.
  - injection Hrun as <- <-. exists []. rewrite app_nil_r. split; [done|constructor].
  - rewrite read_items_cons in Hrun.
    rewrite (known_item_same_forced t0) in Hrun by done.
    cbn [List.filter].
    destruct (known_item t0 (i, (path, info))) eqn:Hknown; cbn [negb] in Hrun;
      [|by eapply IH].
    destruct (last (devices info)) as [name|] eqn:Hlast.
    + destruct (USBRead_read name (outside st)) as [[rd|e] w1] eqn:Hread;
        [|done].
      apply IH in Hrun as (new & -> & Hacq); [|done].
      exists ((rd ∪ to_dict info) :: new). rewrite <- app_assoc.
      split; [done|]. by econstructor.
    + apply IH in Hrun as (new & -> & Hacq); [|done].
      exists (to_dict (Temper.set_error Temper.no_interface_message info) :: new).
      rewrite <- app_assoc. split; [done|].
      apply last_None in Hlast. by constructor.
Qed.


(** The loop raises only what a decoder raised on an interface name of a
    known device. *)
Lemma read_items_raise (t0 : temper) (items : list Temper.item) :
  forall (results : list dict) (st : state) (e : exn) (st' : state),
    Temper.read_items items results st = (Raise e, st') ->
    same_forced t0 (self st) ->
    exists name w w',
      name ∈ names_of t0 items /\ USBRead_read name w = (Raise e, w').
Proof.
  induction items as [|[i [path info]] rest IH];
    intros results st e st' Hrun Hforced.
  - discriminate.
  - rewrite read_items_cons in Hrun.
    rewrite (known_item_same_forced t0) in Hrun by done.
    destruct (known_item t0 (i, (path, info))) eqn:Hknown; cbn [negb] in Hrun.
    2:{ rewrite names_of_cons_unknown by done. by eapply IH. }
    rewrite names_of_cons_known by done. cbn [snd].
    destruct (last (devices info)) as [name|] eqn:Hlast.
    + destruct (USBRead_read name (outside st)) as [[rd|e'] w1] eqn:Hread.
      * apply IH in Hrun as (n & w & w' & Hn & Hr); [|done].
        exists n, w, w'. split; [by apply list_elem_of_further|done].
      * injection Hrun as <- <-. exists name, (outside st), w1.
        split; [apply list_elem_of_here|done].
    + apply IH in Hrun; done.
Qed.

(** ** The order of the report *)












Lemma acquired_length (items : list Temper.item) (w w' : world) (res : list dict) :
  acquired items w res w' -> length res = length items.
Proof. induction 1; simpl; congruence. Qed.

Lemma same_forced_refl (t : temper) : same_forced t t.
Proof. done. Qed.


(** When [read] returns, its results are the acquisition of the included
    entries. *)
Lemma acquire_all_results (st : state) (res : list dict) :
  fst (Temper.read st) = Normal res ->
  acquired (included (self st) (usb_devices (self st))) (outside st) res
    (outside (snd (Temper.read st)))
  /\ length res = length (included (self st) (usb_devices (self st))).
Proof.
  assert (Temper.read st
          = Temper.read_items (Temper.sorted_items (usb_devices (self st))) [] st)
    as -> by reflexivity.
  destruct (Temper.read_items _ [] st) as [r st'] eqn:Hrun. cbn [fst snd].
  intros ->.
  destruct (read_items_acquired (self st) _ _ _ _ _ Hrun (same_forced_refl _))
    as (new & -> & Hacq).
  split; [done|]. by eapply acquired_length.
Qed.



(** ** The registry under [read], [reset] and the single-device loop *)

Lemma reset_run (st : state) :
  Temper.reset st =
  match USBList.scan_entries (sysfs (outside st)) [] with
  | Normal r =>
      let w1 := World (dev (outside st)) (sysfs (outside st)) (clock (outside st))
                  (log (outside st) ++ [EvScan]) in
      let (t, w2) := os_times_elapsed w1 in
      match t with
      | Normal now => (Normal tt, State (Temper (forced_vendor_id (self st))
                                           (forced_product_id (self st)) r now) w2)
      | Raise e => (Raise e, State (Temper (forced_vendor_id (self st))
                                      (forced_product_id (self st)) r
                                      (last_reset (self st))) w2)
      end
  | Raise e =>
      (Raise e,
       State (self st)
         (World (dev (outside st)) (sysfs (outside st)) (clock (outside st))
            (log (outside st) ++ [EvScan])))
  end.
Proof.
  unfold Temper.reset, USBList.get_usb_devices, in_world, emit,
    set_usb_devices, set_last_reset, with_usb_devices, with_last_reset.
  unfold_monad. cbn [sysfs].
  destruct (USBList.scan_entries (sysfs (outside st)) []) as [r|e]; [|done].
  cbn [outside self forced_vendor_id forced_product_id usb_devices last_reset].
  by destruct (os_times_elapsed _) as [[now|e] w2].
Qed.





(** ** The request handler *)

Lemma find_device_skip (cfg : server_config) (mode : request_mode)
    (vendor prod : Z) (t : temper) (pre rest : registry) (st : state) :
  Forall (fun kv => selects t vendor prod kv = false) pre ->
  RequestHandler.find_device cfg mode vendor prod t (pre ++ rest) st
  = RequestHandler.find_device cfg mode vendor prod t rest st.
Proof.
  induction 1 as [|[path info] pre Hkv _ IH]; [done|].
  cbn [app RequestHandler.find_device].
  unfold selects in Hkv. cbn [snd] in Hkv.
  destruct (Temper._is_known_id t (vendorid info) (productid info));
    cbn [negb]; [|done].
  rewrite <- andb_assoc in Hkv. cbn [andb] in Hkv. by rewrite Hkv.
Qed.



Lemma find_split {A} (f : A -> bool) (l : list A) (x : A) :
  List.find f l = Some x ->
  exists pre post,
    l = (pre ++ x :: post)%list /\ Forall (fun y => f y = false) pre /\ f x = true.
Proof.
  induction l as [|y l IH]; simpl; [done|].
  destruct (f y) eqn:Hy.
  - intros [= ->]. exists [], l. by repeat split.
  - intros Hfind. destruct (IH Hfind) as (pre & post & -> & Hpre & Hx).
    exists (y :: pre), post. split; [done|]. split; [by constructor|done].
Qed.



(** With two sticks of the same ids the request matches the first: here
    it is answered from the stick on hidraw0, and the second stick, which
    has no interface, is not looked at. *)
Lemma single_device_first_match :
  matched_entry (self twin_state) 3141 29697 (usb_devices (self twin_state))
  = Some ("/sys/bus/usb/devices/1-1", stick_on_hidraw0)
  /\ reply_code (fst (RequestHandler.get_path example_config "/3141/29697" GET
                        twin_state)) = Some 200.
Proof.
  split; vm_compute; reflexivity.
Qed.

(** ** The aggregate request *)

(** Once the first reading has raised FileNotFoundError, the handler
    looks up [force_reset] on the [Temper] object, which has no such
    attribute: neither the rescan nor the second reading takes place. *)
Lemma get_all_retry_unreachable (cfg : server_config) (st st1 st2 : state) :
  Temper.maybe_reset st = (Normal tt, st1) ->
  Temper.read st1 = (Raise FileNotFoundError, st2) ->
  RequestHandler.get_all cfg GET st = (Raise (AttributeError "force_reset"), st2).
Proof.
  intros Hreset Hread. unfold RequestHandler.get_all.
  unfold mbind, M_bind. cbn [Temper.call Temper.method String.eqb].
  change (Temper.call "maybe_reset") with Temper.maybe_reset.
  rewrite Hreset. unfold try_except_FileNotFoundError.
  rewrite Hread. reflexivity.
Qed.

(** C1.  The hidraw node of a known stick has gone since the scan.  The
    first reading of the aggregate request raises FileNotFoundError; the
    handler then calls [self.force_reset()], which class [Temper] does not
    define, and the request ends in AttributeError: no rescan is made (no
    scan event is logged, the registry is the old one), no second reading
    takes place and no reply is written.  Had the rescan and the retry
    run, they would have returned a result list. *)
Theorem aggregate_retry_never_runs :
  fst (RequestHandler.get_all example_config GET vanished_state)
  = Raise (AttributeError "force_reset")
  /\ fst (fst (RequestHandler.do_GET example_config "/" [] vanished_state))
     = Raise (AttributeError "force_reset")
  /\ snd (RequestHandler.do_GET example_config "/" [] vanished_state) = []
  /\ log (outside (snd (RequestHandler.get_all example_config GET vanished_state)))
     = []
  /\ usb_devices (self (snd (RequestHandler.get_all example_config GET
                               vanished_state)))
     = usb_devices (self vanished_state)
  /\ fst (Temper.read vanished_state) = Raise FileNotFoundError
  /\ Temper.method "force_reset" = None
  /\ reply_code
       (fst ((_ ← Temper.reset; l ← Temper.read;
              fl ← lift (RequestHandler.filter_all example_config l);
              mret (200, BList fl)) vanished_state))
     = Some 200.
Proof.
  repeat split; vm_compute; reflexivity.
Qed.

(** * Further properties *)

(** ** What the handler exposes *)

Lemma filter_loop_run (cfg : server_config) (info : dict) (u : string)
    (keys : list string) :
  RequestHandler.url_of cfg info = Normal u ->
  forall acc : dict,
    exists acc',
      RequestHandler.filter_loop cfg keys info acc = (Normal tt, acc')
      /\ forall k,
           acc' !! k =
           if decide (k = "url")
           then (if decide (keys = []) then acc !! k else Some (VStr u))
           else if decide (k ∈ keys)
                then (match info !! k with Some v => Some v | None => acc !! k end)
                else acc !! k.
Proof.
  intros Hu. induction keys as [|key keys IH]; intros acc.
  - exists acc. split; [done|]. intros k.
    destruct (decide (k = "url")); [done|].
    destruct (decide (k ∈ [])) as [Hin|_]; [by apply elem_of_nil in Hin|done].
  - cbn [RequestHandler.filter_loop]. unfold mbind, M_bind.
    set (acc1 := match info !! key with
                 | Some v => <[key := v]> acc
                 | None => acc
                 end).
    assert ((match info !! key with
             | Some v => setitem key v
             | None => mret tt
             end) acc = (Normal tt, acc1)) as ->
      by (unfold acc1; by destruct (info !! key)).
    unfold lift. rewrite Hu. unfold setitem, modify.
    destruct (IH (<["url" := VStr u]> acc1)) as (acc' & Hrun & Hacc').
    exists acc'. split; [done|]. intros k. rewrite Hacc'.
    destruct (decide (k = "url")) as [->|Hk].
    + destruct (decide (keys = [])); [by rewrite lookup_insert_eq|].
      by destruct (decide (key :: keys = [])).
    + rewrite lookup_insert_ne by done.
      assert (acc1 !! k = if decide (k = key)
                          then match info !! k with
                               | Some v => Some v
                               | None => acc !! k
                               end
                          else acc !! k) as Hacc1.
      { unfold acc1. destruct (decide (k = key)) as [->|Hne].
        - destruct (info !! key); [by rewrite lookup_insert_eq|done].
        - destruct (info !! key); [by rewrite lookup_insert_ne|done]. }
      destruct (decide (k ∈ keys)) as [Hin|Hnin].
      * rewrite decide_True by (by apply list_elem_of_further).
        destruct (info !! k) eqn:Hik; [done|].
        rewrite Hacc1. destruct (decide (k = key)); [by try rewrite Hik|done].
      * rewrite Hacc1. destruct (decide (k = key)) as [->|Hne].
        -- by rewrite decide_True by apply list_elem_of_here.
        -- rewrite decide_False; [done|].
           intros [?|?]%elem_of_cons; done.
Qed.

Lemma url_not_filter_key : "url" ∉ RequestHandler.filter_keys.
Proof.
  unfold RequestHandler.filter_keys. rewrite !not_elem_of_cons.
  repeat split; try discriminate. apply not_elem_of_nil.
Qed.

Lemma filter_run (cfg : server_config) (info : dict) (u : string) :
  RequestHandler.url_of cfg info = Normal u ->
  exists filtered,
    RequestHandler.filter cfg info = Normal filtered
    /\ (forall k, k ∈ RequestHandler.filter_keys -> filtered !! k = info !! k)
    /\ filtered !! "url" = Some (VStr u)
    /\ (forall k, k ∉ RequestHandler.filter_keys -> k <> "url" ->
          filtered !! k = None).
Proof.
  intros Hu.
  destruct (filter_loop_run cfg info u RequestHandler.filter_keys Hu ∅)
    as (filtered & Hrun & Hkeys).
  exists filtered. unfold RequestHandler.filter. rewrite Hrun.
  split; [done|]. split; [|split].
  - intros k Hk. rewrite Hkeys.
    rewrite decide_False by (intros ->; by apply url_not_filter_key).
    rewrite decide_True by done. rewrite lookup_empty. by destruct (info !! k).
  - rewrite Hkeys. rewrite decide_True by done. by rewrite decide_False.
  - intros k Hk Hurl. rewrite Hkeys.
    rewrite decide_False by done. by rewrite decide_False.
Qed.

Lemma url_of_ids (cfg : server_config) (info : dict) (v p : Z) :
  info !! "vendorid" = Some (VInt v) ->
  info !! "productid" = Some (VInt p) ->
  RequestHandler.url_of cfg info = Normal (device_url cfg v p).
Proof.
  intros Hv Hp. unfold RequestHandler.url_of, RequestHandler.dict_get.
  by rewrite Hv, Hp.
Qed.



(** ** The keys a decoder sets *)

Lemma keys_within_empty (keys : list string) : keys_within keys ∅.
Proof. intros k [v Hv]. by rewrite lookup_empty in Hv. Qed.

Lemma keys_within_insert (keys : list string) (k : string) (v : pyval)
    (info : dict) :
  k ∈ keys -> keys_within keys info -> keys_within keys (<[k := v]> info).
Proof.
  intros Hk Hinfo k' Hk'. destruct (decide (k' = k)) as [->|Hne]; [done|].
  rewrite lookup_insert_ne in Hk' by done. by apply Hinfo.
Qed.

Lemma keys_within_mono (keys keys' : list string) (info : dict) :
  keys ⊆ keys' -> keys_within keys info -> keys_within keys' info.
Proof. intros Hsub Hinfo k Hk. apply Hsub. by apply Hinfo. Qed.

Lemma keeps_setitem (keys : list string) (k : string) (v : pyval) :
  k ∈ keys -> keeps keys (setitem k v).
Proof.
  intros Hk acc Hacc. eexists. split; [reflexivity|].
  by apply keys_within_insert.
Qed.

Lemma keeps_bind (keys : list string) (m : M dict unit) (k : unit -> M dict unit) :
  keeps keys m -> keeps keys (k tt) -> keeps keys (m ≫= k).
Proof.
  intros Hm Hk acc Hacc. destruct (Hm acc Hacc) as (acc1 & Hrun & Hacc1).
  unfold mbind, M_bind. rewrite Hrun. by apply Hk.
Qed.

Lemma keeps_parse_bytes (keys : list string) (name : string) (offset : Z)
    (divisor : float) (b : bytes) :
  name ∈ keys -> keeps keys (USBRead._parse_bytes name offset divisor b).
Proof.
  intros Hname acc Hacc.
  destruct (parse_bytes_total name offset divisor b acc) as [->|[x ->]].
  - by exists acc.
  - eexists. split; [done|]. by apply keys_within_insert.
Qed.

Ltac in_list := unfold decoder_keys; rewrite !elem_of_cons; tauto.

Lemma keeps_decode_firmware (firmware data : bytes) :
  keeps decoder_keys (USBRead.decode_firmware firmware data).
Proof.
  unfold USBRead.decode_firmware.
  apply keeps_bind; [apply keeps_setitem; in_list|].
  apply keeps_bind; [apply keeps_setitem; in_list|].
  apply keeps_bind; [apply keeps_setitem; in_list|].
  cbv zeta.
  destruct (String.eqb _ "TEMPerF1.4").
  { apply keeps_bind; [apply keeps_setitem; in_list|].
    apply keeps_parse_bytes; in_list. }
  destruct (String.eqb _ "TEMPerGold_V3.").
  { apply keeps_bind; [apply keeps_setitem; in_list|].
    apply keeps_parse_bytes; in_list. }
  destruct (String.eqb _ "TEMPerX_V3.1" || String.eqb _ "TEMPerX_V3.3").
  { apply keeps_bind; [apply keeps_setitem; in_list|].
    apply keeps_bind; [apply keeps_parse_bytes; in_list|].
    apply keeps_bind; [apply keeps_parse_bytes; in_list|].
    apply keeps_bind; [apply keeps_parse_bytes; in_list|].
    apply keeps_parse_bytes; in_list. }
  apply keeps_setitem; in_list.
Qed.

(** The hidraw decoding never raises, and sets decoder keys only. *)
Lemma hid_info_keys (firmware data : bytes) :
  exists info,
    USBRead.hid_info firmware data = Normal info
    /\ keys_within decoder_keys info.
Proof.
  destruct (keeps_decode_firmware firmware data ∅ (keys_within_empty _))
    as (info & Hrun & Hkeys).
  exists info. unfold USBRead.hid_info. by rewrite Hrun.
Qed.

Lemma py_float_raises (s : string) (e : exn) :
  py_float s = Raise e -> e = ValueError.
Proof.
  unfold py_float. destruct (scan_decimal s 0 0 false false) as [[m ex]|];
    [done|congruence].
Qed.

(** The serial decoding raises nothing but ValueError, and sets decoder
    keys only. *)
Lemma serial_info_keys (firmware reply : string) :
  SerialIO.serial_info firmware reply = Raise ValueError
  \/ exists info,
       SerialIO.serial_info firmware reply = Normal info
       /\ keys_within decoder_keys info.
Proof.
  unfold SerialIO.serial_info, SerialIO.parse_reply.
  set (outer := match re_search SerialIO.outer_pattern reply with
                | Some _ => _
                | None => _
                end).
  assert (keeps decoder_keys outer) as Houter.
  { unfold outer. intros acc Hacc.
    destruct (re_search SerialIO.outer_pattern reply) as [m|]; [|by exists acc].
    unfold_monad. destruct (py_float (group m 1)) as [t|e]; [|by exists acc].
    eexists. split; [done|]. apply keys_within_insert; [in_list|done]. }
  clearbody outer.
  set (base := <["firmware" := VStr firmware]> (∅ : dict)).
  assert (keys_within decoder_keys base) as Hbase
    by (apply keys_within_insert; [in_list|apply keys_within_empty]).
  unfold mbind, M_bind, setitem, modify, lift. fold base.
  destruct (re_search SerialIO.inner_pattern reply) as [m|].
  - destruct (py_float (group m 1)) as [t|e] eqn:Et.
    + destruct (py_float (group m 2)) as [h|e] eqn:Eh.
      * right.
        destruct (Houter (<["internal humidity" := VFloat h]>
                            (<["internal temperature" := VFloat t]> base)))
          as (info & Hrun & Hkeys).
        { do 2 (apply keys_within_insert; [in_list|]). exact Hbase. }
        exists info. by rewrite Hrun.
      * left. by rewrite (py_float_raises _ _ Eh).
    + left. by rewrite (py_float_raises _ _ Et).
  - right. destruct (Houter base Hbase) as (info & Hrun & Hkeys).
    exists info. unfold mret, M_ret. by rewrite Hrun.
Qed.

Lemma bind_Normal_inv {S A B} (m : M S A) (k : A -> M S B) (s s' : S) (b : B) :
  (m ≫= k) s = (Normal b, s') ->
  exists a s1, m s = (Normal a, s1) /\ k a s1 = (Normal b, s').
Proof.
  unfold mbind, M_bind. destruct (m s) as [[a|e] s1]; [|done].
  intros Hk. by exists a, s1.
Qed.

Lemma lift_Normal_inv {S A} (o : outcome A) (s s' : S) (a : A) :
  lift o s = (Normal a, s') -> o = Normal a.
Proof. unfold lift. by intros [= -> _]. Qed.

(** What [USBRead.read] returns holds decoder keys only. *)
Lemma USBRead_read_keys (name : string) (w w' : world) (reading : dict) :
  USBRead_read name w = (Normal reading, w') ->
  keys_within decoder_keys reading.
Proof.
  unfold USBRead_read.
  destruct (String.prefix "hidraw" name).
  - unfold HidIO._read_hidraw. intros Hrun.
    repeat (apply bind_Normal_inv in Hrun as (? & ? & _ & Hrun)).
    apply lift_Normal_inv in Hrun.
    match type of Hrun with
    | USBRead.hid_info ?f ?d = _ =>
        destruct (hid_info_keys f d) as (info & Hinfo & Hkeys)
    end.
    rewrite Hinfo in Hrun. by injection Hrun as <-.
  - destruct (String.prefix "tty" name).
    + unfold SerialIO._read_serial. intros Hrun.
      repeat (apply bind_Normal_inv in Hrun as (? & ? & _ & Hrun)).
      apply lift_Normal_inv in Hrun.
      match type of Hrun with
      | SerialIO.serial_info ?f ?r = _ =>
          destruct (serial_info_keys f r) as [Hraise|(info & Hinfo & Hkeys)]
      end.
      * rewrite Hraise in Hrun. discriminate.
      * rewrite Hinfo in Hrun. by injection Hrun as <-.
    + intros [= <- _]. intros k [v Hv].
      apply lookup_singleton_Some in Hv as [<- _]. in_list.
Qed.

Lemma to_dict_identity (d : device) :
  to_dict d !! "vendorid" = Some (VInt (vendorid d))
  /\ to_dict d !! "productid" = Some (VInt (productid d))
  /\ to_dict d !! "manufacturer" = Some (VStr (manufacturer d))
  /\ to_dict d !! "product" = Some (VStr (product d))
  /\ to_dict d !! "busnum" = Some (VInt (busnum d))
  /\ to_dict d !! "devnum" = Some (VInt (devnum d))
  /\ to_dict d !! "devices" = Some (VList (devices d)).
Proof.
  unfold to_dict. destruct (error d); repeat split; reflexivity.
Qed.

Lemma to_dict_set_error (msg : string) (d : device) (k : string) :
  k <> "error" ->
  to_dict (Temper.set_error msg d) !! k = to_dict d !! k.
Proof.
  intros Hk. unfold to_dict. cbn [Temper.set_error error vendorid productid
    manufacturer product busnum devnum devices].
  rewrite (lookup_insert_ne _ "error") by done.
  destruct (error d); [by rewrite (lookup_insert_ne _ "error")|done].
Qed.

Lemma identity_not_decoder (k : string) :
  k ∈ identity_keys -> (k ∉ decoder_keys) /\ k <> "error".
Proof.
  intros Hk. apply list_elem_of_In in Hk. simpl in Hk. split.
  - intros Hd. apply list_elem_of_In in Hd. simpl in Hd.
    intuition (subst; discriminate).
  - intros ->. intuition discriminate.
Qed.

(** The merge of a reading over the identity keeps every identity field. *)
Lemma merge_keeps_identity (reading : dict) (d : device) (k : string) :
  keys_within decoder_keys reading -> k ∈ identity_keys ->
  (reading ∪ to_dict d) !! k = to_dict d !! k.
Proof.
  intros Hkeys Hk. apply identity_not_decoder in Hk as [Hk _].
  apply lookup_union_r. destruct (reading !! k) eqn:Hr; [|done].
  exfalso. apply Hk, Hkeys. by eexists.
Qed.

Lemma acquired_identity (items : list Temper.item) (w w' : world)
    (res : list dict) :
  acquired items w res w' ->
  Forall2 (fun (it : Temper.item) (r : dict) =>
             forall k, k ∈ identity_keys -> r !! k = to_dict (snd (snd it)) !! k)
          items res.
Proof.
  induction 1 as [|i path info rest w w' results Hd Hacq IH
                   |i path info name rd rest w w1 w' results Hl Hrd Hacq IH].
  - constructor.
  - constructor; [|done]. intros k Hk. cbn [snd].
    apply to_dict_set_error. by apply identity_not_decoder.
  - constructor; [|done]. intros k Hk. cbn [snd].
    apply merge_keeps_identity; [|done]. by eapply USBRead_read_keys.
Qed.



(** ** The answers to /devices and to / *)

Lemma filter_public (cfg : server_config) (info : dict) (v p : Z) :
  info !! "vendorid" = Some (VInt v) ->
  info !! "productid" = Some (VInt p) ->
  exists f,
    RequestHandler.filter cfg info = Normal f
    /\ public_object cfg v p f
    /\ (forall k, k ∈ sensor_keys -> f !! k = info !! k)
    /\ f !! "manufacturer" = info !! "manufacturer"
    /\ f !! "product" = info !! "product".
Proof.
  intros Hv Hp.
  destruct (filter_run cfg info _ (url_of_ids cfg info v p Hv Hp))
    as (f & Hrun & Hkeys & Hurl & Hnone).
  assert (forall k, In k RequestHandler.filter_keys -> f !! k = info !! k)
    as Hin by (intros k Hk; apply Hkeys; by apply list_elem_of_In).
  assert (forall k, ~ In k RequestHandler.filter_keys -> k <> "url" ->
                    f !! k = None)
    as Hout by (intros k Hk Hu; apply Hnone; [by rewrite list_elem_of_In|done]).
  exists f. split; [done|]. split; [|split; [|split]].
  - unfold public_object. rewrite Hurl, <- Hv, <- Hp.
    repeat split;
      first [ apply Hin; simpl; tauto
            | apply Hout; [simpl; intuition discriminate|discriminate] ].
  - intros k Hk. apply Hin. apply list_elem_of_In in Hk. simpl in *. tauto.
  - apply Hin. simpl. tauto.
  - apply Hin. simpl. tauto.
Qed.

Lemma known_devices_run (cfg : server_config) (t : temper) (r : registry) :
  exists l,
    RequestHandler.known_devices cfg t r = Normal l
    /\ Forall2 (fun (kv : string * device) (f : dict) =>
                  RequestHandler.filter cfg (to_dict (snd kv)) = Normal f
                  /\ public_object cfg (vendorid (snd kv)) (productid (snd kv)) f
                  /\ f !! "manufacturer" = Some (VStr (manufacturer (snd kv)))
                  /\ f !! "product" = Some (VStr (product (snd kv))))
               (List.filter
                  (fun kv => Temper._is_known_id t (vendorid (snd kv))
                               (productid (snd kv))) r)
               l.
Proof.
  induction r as [|[path info] r (l & Hl & Hall)]; [by exists []|].
  cbn [RequestHandler.known_devices List.filter snd].
  destruct (Temper._is_known_id t (vendorid info) (productid info));
    cbn [negb]; [|by exists l].
  pose proof (to_dict_identity info) as (Hv & Hp & Hm & Hpr & _).
  destruct (filter_public cfg (to_dict info) _ _ Hv Hp)
    as (f & Hf & Hpub & _ & Hfm & Hfp).
  exists (f :: l). unfold mbind, outcome_bind. rewrite Hf, Hl.
  split; [done|]. constructor; [|done]. cbn [snd].
  rewrite Hfm, Hfp. done.
Qed.

(** X3.  Once [maybe_reset] has returned, the answer to /devices is 200
    with one filtered object for every registry entry whose id is known,
    in registry order: its ids, manufacturer, product and url, and neither
    bus numbers nor interface names.  Nothing else happens: the state is
    the one [maybe_reset] left, so no device is opened, and the mode of
    the request makes no difference. *)
Theorem get_devices_answer (cfg : server_config) (mode : request_mode)
    (st st1 : state) :
  Temper.maybe_reset st = (Normal tt, st1) ->
  exists l,
    RequestHandler.get_devices cfg mode st = (Normal (200, BList l), st1)
    /\ Forall2 (fun (kv : string * device) (f : dict) =>
                  RequestHandler.filter cfg (to_dict (snd kv)) = Normal f
                  /\ public_object cfg (vendorid (snd kv)) (productid (snd kv)) f
                  /\ f !! "manufacturer" = Some (VStr (manufacturer (snd kv)))
                  /\ f !! "product" = Some (VStr (product (snd kv))))
               (List.filter
                  (fun kv => Temper._is_known_id (self st1) (vendorid (snd kv))
                               (productid (snd kv)))
                  (usb_devices (self st1)))
               l.
Proof.
  intros Hreset.
  destruct (known_devices_run cfg (self st1) (usb_devices (self st1)))
    as (l & Hl & Hall).
  exists l. split; [|done].
  unfold RequestHandler.get_devices.
  change (Temper.call "maybe_reset") with Temper.maybe_reset.
  unfold mbind, M_bind. rewrite Hreset. unfold get_self, lift. by rewrite Hl.
Qed.

Lemma get_devices_answer_witness :
  exists l,
    RequestHandler.get_devices example_config GET vanished_state
    = (Normal (200, BList l), vanished_state)
    /\ Forall2 (fun (kv : string * device) (f : dict) =>
                  RequestHandler.filter example_config (to_dict (snd kv)) = Normal f
                  /\ public_object example_config
                       (vendorid (snd kv)) (productid (snd kv)) f
                  /\ f !! "manufacturer" = Some (VStr (manufacturer (snd kv)))
                  /\ f !! "product" = Some (VStr (product (snd kv))))
               (List.filter
                  (fun kv => Temper._is_known_id (self vanished_state)
                               (vendorid (snd kv)) (productid (snd kv)))
                  (usb_devices (self vanished_state)))
               l.
Proof.
  apply (get_devices_answer example_config GET vanished_state vanished_state).
  vm_compute. reflexivity.
Defined.

Lemma filter_all_run (cfg : server_config) (items : list Temper.item)
    (res : list dict) :
  Forall2 (fun (it : Temper.item) (r : dict) =>
             forall k, k ∈ identity_keys -> r !! k = to_dict (snd (snd it)) !! k)
          items res ->
  exists fl,
    RequestHandler.filter_all cfg res = Normal fl
    /\ Forall2 (fun (r f : dict) =>
                  RequestHandler.filter cfg r = Normal f
                  /\ forall k, k ∈ sensor_keys -> f !! k = r !! k)
               res fl
    /\ Forall2 (fun (it : Temper.item) (f : dict) =>
                  public_object cfg (vendorid (snd (snd it)))
                    (productid (snd (snd it))) f
                  /\ f !! "manufacturer" = Some (VStr (manufacturer (snd (snd it))))
                  /\ f !! "product" = Some (VStr (product (snd (snd it)))))
               items fl.
Proof.
  induction 1 as [|it r items res Hr Hall (fl & Hfl & Hres & Hitems)];
    [by exists []|].
  pose proof (to_dict_identity (snd (snd it))) as (Hv & Hp & Hm & Hpr & _).
  assert (forall k, In k identity_keys -> r !! k = to_dict (snd (snd it)) !! k)
    as Hin by (intros k Hk; apply Hr; by apply list_elem_of_In).
  rewrite <- Hin in Hv, Hp, Hm, Hpr by (simpl; tauto).
  destruct (filter_public cfg r _ _ Hv Hp) as (f & Hf & Hpub & Hs & Hfm & Hfp).
  exists (f :: fl). cbn [RequestHandler.filter_all].
  unfold mbind, outcome_bind. rewrite Hf, Hfl.
  split; [done|]. split; constructor; try done.
  rewrite Hfm, Hfp. done.
Qed.

(** X4.  When [maybe_reset] and then the reading return, the answer to /
    is 200 with the filter of every reading, one for each included entry
    in reading order.  The filter never fails on a reading; every object
    carries the url made of its entry's ids, the entry's manufacturer and
    product and the sensor values of the reading, and leaves out the bus
    numbers, the interface names, the firmware, the raw bytes and the
    error message of an entry that could not be read. *)
Theorem get_all_answer (cfg : server_config) (st st1 st2 : state)
    (res : list dict) :
  Temper.maybe_reset st = (Normal tt, st1) ->
  Temper.read st1 = (Normal res, st2) ->
  exists fl,
    RequestHandler.get_all cfg GET st = (Normal (200, BList fl), st2)
    /\ Forall2 (fun (r f : dict) =>
                  RequestHandler.filter cfg r = Normal f
                  /\ forall k, k ∈ sensor_keys -> f !! k = r !! k)
               res fl
    /\ Forall2 (fun (it : Temper.item) (f : dict) =>
                  public_object cfg (vendorid (snd (snd it)))
                    (productid (snd (snd it))) f
                  /\ f !! "manufacturer" = Some (VStr (manufacturer (snd (snd it))))
                  /\ f !! "product" = Some (VStr (product (snd (snd it)))))
               (included (self st1) (usb_devices (self st1))) fl.
Proof.
  intros Hreset Hread.
  assert (fst (Temper.read st1) = Normal res) as Hres by by rewrite Hread.
  destruct (acquire_all_results st1 res Hres) as [Hacq _].
  apply acquired_identity in Hacq.
  destruct (filter_all_run cfg _ _ Hacq) as (fl & Hfl & Hrf & Hif).
  exists fl. split; [|done].
  unfold RequestHandler.get_all.
  change (Temper.call "maybe_reset") with Temper.maybe_reset.
  unfold mbind, M_bind. rewrite Hreset. unfold try_except_FileNotFoundError.
  rewrite Hread. unfold lift. rewrite Hfl. reflexivity.
Qed.

Lemma get_all_answer_witness :
  exists fl,
    RequestHandler.get_all example_config GET twin_state
    = (Normal (200, BList fl), snd (Temper.read twin_state))
    /\ Forall2 (fun (r f : dict) =>
                  RequestHandler.filter example_config r = Normal f
                  /\ forall k, k ∈ sensor_keys -> f !! k = r !! k)
               (readings twin_state) fl
    /\ Forall2 (fun (it : Temper.item) (f : dict) =>
                  public_object example_config (vendorid (snd (snd it)))
                    (productid (snd (snd it))) f
                  /\ f !! "manufacturer" = Some (VStr (manufacturer (snd (snd it))))
                  /\ f !! "product" = Some (VStr (product (snd (snd it)))))
               (included (self twin_state) (usb_devices (self twin_state))) fl.
Proof.
  apply (get_all_answer example_config twin_state twin_state
           (snd (Temper.read twin_state)) (readings twin_state)).
  - vm_compute. reflexivity.
  - vm_compute. reflexivity.
Defined.

(** ** Requests that open no device *)

Lemma quiet_refl (w : world) : quiet w w.
Proof. unfold quiet. auto. Qed.

Lemma os_times_elapsed_quiet (w : world) :
  dev (snd (os_times_elapsed w)) = dev w
  /\ sysfs (snd (os_times_elapsed w)) = sysfs w
  /\ log (snd (os_times_elapsed w)) = log w.
Proof.
  unfold os_times_elapsed. destruct (clock w) as [|t [|t' rest]]; done.
Qed.

Lemma reset_quiet (st : state) :
  dev (outside (snd (Temper.reset st))) = dev (outside st)
  /\ sysfs (outside (snd (Temper.reset st))) = sysfs (outside st)
  /\ log (outside (snd (Temper.reset st))) = (log (outside st) ++ [EvScan])%list.
Proof.
  rewrite reset_run.
  destruct (USBList.scan_entries (sysfs (outside st)) []) as [r|e]; [|done].
  cbv zeta.
  match goal with
  | |- context [os_times_elapsed ?w] =>
      pose proof (os_times_elapsed_quiet w) as (Hd & Hs & Hl);
      destruct (os_times_elapsed w) as [[now|e] w2]
  end; cbn [snd outside] in *; by rewrite Hd, Hs, Hl.
Qed.

Lemma maybe_reset_quiet (st : state) :
  quiet (outside st) (outside (snd (Temper.maybe_reset st))).
Proof.
  unfold Temper.maybe_reset, in_world, get_self. unfold_monad.
  pose proof (os_times_elapsed_quiet (outside st)) as (Hd & Hs & Hl).
  destruct (os_times_elapsed (outside st)) as [[now|e] w1]; cbn [snd] in *.
  - cbn [self]. destruct (PrimFloat.ltb _ _).
    + pose proof (reset_quiet (State (self st) w1)) as (Hd' & Hs' & Hl').
      cbn [outside] in *. unfold quiet.
      rewrite Hd', Hs', Hl', Hd, Hs, Hl. auto.
    + cbn [snd outside]. unfold quiet. auto.
  - cbn [outside]. unfold quiet. auto.
Qed.

Lemma get_devices_quiet (cfg : server_config) (mode : request_mode) (st : state) :
  quiet (outside st) (outside (snd (RequestHandler.get_devices cfg mode st))).
Proof.
  unfold RequestHandler.get_devices.
  change (Temper.call "maybe_reset") with Temper.maybe_reset.
  pose proof (maybe_reset_quiet st) as Hq.
  unfold mbind, M_bind.
  destruct (Temper.maybe_reset st) as [[[]|e] st1]; cbn [snd] in *; [|done].
  unfold get_self, lift.
  by destruct (RequestHandler.known_devices cfg _ _).
Qed.

Lemma get_all_head_quiet (cfg : server_config) (st : state) :
  quiet (outside st) (outside (snd (RequestHandler.get_all cfg HEAD st))).
Proof.
  unfold RequestHandler.get_all.
  change (Temper.call "maybe_reset") with Temper.maybe_reset.
  pose proof (maybe_reset_quiet st) as Hq.
  unfold mbind, M_bind.
  by destruct (Temper.maybe_reset st) as [[[]|e] st1].
Qed.

(** In a HEAD request the loop of [get_device] changes nothing and cannot
    raise. *)
Lemma find_device_head (cfg : server_config) (vendor prod : Z) (t : temper)
    (r : registry) (st : state) :
  RequestHandler.find_device cfg HEAD vendor prod t r st
  = (Normal (match matched_entry t vendor prod r with
             | Some _ => Some (200, BDict ∅)
             | None => None
             end), st).
Proof.
  induction r as [|[path info] r IH]; [done|].
  cbn [RequestHandler.find_device matched_entry List.find selects snd].
  unfold matched_entry, selects in *. cbn [List.find snd].
  destruct (Temper._is_known_id t (vendorid info) (productid info));
    cbn [negb andb]; [|exact IH].
  destruct ((vendor =? vendorid info) && (prod =? productid info)); [done|].
  exact IH.
Qed.

Lemma get_device_head_quiet (cfg : server_config) (m : captures) (st : state) :
  quiet (outside st)
    (outside (snd (RequestHandler.get_device cfg HEAD m st))).
Proof.
  unfold RequestHandler.get_device. unfold mbind, M_bind, lift.
  destruct (py_int 10 (group m 1)) as [vendor|e]; [|apply quiet_refl].
  destruct (py_int 10 (group m 2)) as [prod|e]; [|apply quiet_refl].
  unfold try_except_FileNotFoundError, get_self.
  rewrite find_device_head.
  destruct (matched_entry _ _ _ _); [apply quiet_refl|].
  change (Temper.call "maybe_reset") with Temper.maybe_reset.
  pose proof (maybe_reset_quiet st) as Hq.
  by destruct (Temper.maybe_reset st) as [[[]|e] st1].
Qed.

Lemma get_path_head_quiet (cfg : server_config) (path : string) (st : state) :
  quiet (outside st)
    (outside (snd (RequestHandler.get_path cfg path HEAD st))).
Proof.
  unfold RequestHandler.get_path.
  destruct (re_match RequestHandler.path_pattern path);
    [apply get_device_head_quiet|].
  destruct (String.eqb path "/devices"); [apply get_devices_quiet|].
  destruct (String.eqb path "/"); [apply get_all_head_quiet|].
  apply quiet_refl.
Qed.

(** X5.  A HEAD request, whatever its path and whether it is answered or
    ends in an exception, opens no device: /dev and the sysfs tree are
    left as they were and the only thing the process may have done is one
    scan of the USB devices.  The same holds for a GET of /devices. *)
Theorem head_opens_no_device (cfg : server_config) (path : string)
    (sent : list Z) (st : state) :
  quiet (outside st) (outside (snd (RequestHandler.get_path cfg path HEAD st)))
  /\ quiet (outside st)
       (outside (snd (fst (RequestHandlerMore.do_HEAD cfg path sent st))))
  /\ quiet (outside st)
       (outside (snd (RequestHandler.get_devices cfg GET st))).
Proof.
  split; [apply get_path_head_quiet|]. split.
  - unfold RequestHandlerMore.do_HEAD.
    pose proof (get_path_head_quiet cfg path st) as Hq.
    by destruct (RequestHandler.get_path cfg path HEAD st) as [[[code b]|e] st'].
  - apply get_devices_quiet.
Qed.

(** X8.  A HEAD for the ids of a known registry entry is answered 200
    with an empty object as soon as the entry is matched: nothing is
    read, the state is left as it was, and it makes no difference whether
    the entry has an interface or whether its device is still there. *)
Theorem head_single_device (cfg : server_config) (path : string)
    (m : captures) (vendor prod : Z) (sent : list Z) (st : state) :
  re_match RequestHandler.path_pattern path = Some m ->
  py_int 10 (group m 1) = Normal vendor ->
  py_int 10 (group m 2) = Normal prod ->
  is_Some (matched_entry (self st) vendor prod (usb_devices (self st))) ->
  RequestHandler.get_path cfg path HEAD st = (Normal (200, BDict ∅), st)
  /\ RequestHandlerMore.do_HEAD cfg path sent st
     = (Normal tt, st, (sent ++ [200])%list).
Proof.
  intros Hm Hv Hp [kv Hkv].
  assert (RequestHandler.get_path cfg path HEAD st = (Normal (200, BDict ∅), st))
    as Hrun.
  { unfold RequestHandler.get_path. rewrite Hm.
    unfold RequestHandler.get_device. unfold mbind, M_bind, lift.
    rewrite Hv, Hp. unfold try_except_FileNotFoundError, get_self.
    rewrite find_device_head, Hkv. reflexivity. }
  split; [done|]. unfold RequestHandlerMore.do_HEAD. by rewrite Hrun.
Qed.

Lemma head_single_device_witness :
  RequestHandler.get_path example_config "/3141/29697" HEAD vanished_state
  = (Normal (200, BDict ∅), vanished_state)
  /\ RequestHandlerMore.do_HEAD example_config "/3141/29697" [] vanished_state
     = (Normal tt, vanished_state, [200]).
Proof.
  apply (head_single_device example_config "/3141/29697"
           [(2%nat, "29697"); (1%nat, "3141")] 3141 29697 [] vanished_state).
  - vm_compute. reflexivity.
  - vm_compute. reflexivity.
  - vm_compute. reflexivity.
  - vm_compute. by eexists.
Defined.

(** ** The request for a single device *)

Lemma find_device_none (cfg : server_config) (mode : request_mode)
    (vendor prod : Z) (t : temper) (r : registry) (st : state) :
  matched_entry t vendor prod r = None ->
  RequestHandler.find_device cfg mode vendor prod t r st = (Normal None, st).
Proof.
  unfold matched_entry. intros Hnone.
  rewrite <- (app_nil_r r), find_device_skip; [done|].
  apply List.Forall_forall. intros kv Hkv.
  by apply (List.find_none _ _ Hnone).
Qed.

Lemma get_device_run (cfg : server_config) (mode : request_mode) (m : captures)
    (vendor prod : Z) (st : state) :
  py_int 10 (group m 1) = Normal vendor ->
  py_int 10 (group m 2) = Normal prod ->
  RequestHandler.get_device cfg mode m st
  = match RequestHandler.find_device cfg mode vendor prod (self st)
            (usb_devices (self st)) st with
    | (Normal (Some reply), st') => (Normal reply, st')
    | (Normal None, st') => not_found_after st'
    | (Raise e, st') =>
        if is_FileNotFoundError e then not_found_after st' else (Raise e, st')
    end.
Proof.
  intros Hv Hp. unfold RequestHandler.get_device. unfold mbind, M_bind, lift.
  rewrite Hv, Hp. unfold try_except_FileNotFoundError, get_self, not_found_after.
  change (Temper.call "maybe_reset") with Temper.maybe_reset.
  destruct (RequestHandler.find_device _ _ _ _ _ _ _) as [[[reply|]|e] st'];
    try done.
  by destruct (is_FileNotFoundError e).
Qed.

(** X6.  A request for ids that no known registry entry carries is
    answered from the registry as it stands when the request arrives: the
    loop touches nothing, then [maybe_reset] runs and, when it returns,
    the answer is 404 with error = no such device, in either mode.  A
    rescan made by that [maybe_reset] comes too late for the request. *)
Theorem unknown_device_not_found (cfg : server_config) (mode : request_mode)
    (m : captures) (vendor prod : Z) (st : state) :
  py_int 10 (group m 1) = Normal vendor ->
  py_int 10 (group m 2) = Normal prod ->
  matched_entry (self st) vendor prod (usb_devices (self st)) = None ->
  RequestHandler.get_device cfg mode m st = not_found_after st
  /\ (forall st1, Temper.maybe_reset st = (Normal tt, st1) ->
        RequestHandler.get_device cfg mode m st = (Normal no_such_device, st1)).
Proof.
  intros Hv Hp Hnone.
  assert (RequestHandler.get_device cfg mode m st = not_found_after st) as Hrun.
  { rewrite (get_device_run cfg mode m vendor prod st Hv Hp).
    by rewrite find_device_none. }
  split; [done|]. intros st1 Hreset. rewrite Hrun.
  unfold not_found_after. by rewrite Hreset.
Qed.

Lemma unknown_device_not_found_witness :
  RequestHandler.get_device example_config GET [(2%nat, "2"); (1%nat, "1")]
    bare_state = not_found_after bare_state
  /\ (forall st1, Temper.maybe_reset bare_state = (Normal tt, st1) ->
        RequestHandler.get_device example_config GET [(2%nat, "2"); (1%nat, "1")]
          bare_state = (Normal no_such_device, st1)).
Proof.
  apply (unknown_device_not_found example_config GET
           [(2%nat, "2"); (1%nat, "1")] 1 2 bare_state).
  - vm_compute. reflexivity.
  - vm_compute. reflexivity.
  - vm_compute. reflexivity.
Defined.

Lemma find_device_matched (cfg : server_config) (vendor prod : Z) (t : temper)
    (path : string) (info : device) (name : string) (rest : registry)
    (st : state) :
  selects t vendor prod (path, info) = true ->
  last (devices info) = Some name ->
  RequestHandler.find_device cfg GET vendor prod t ((path, info) :: rest) st
  = match USBRead_read name (outside st) with
    | (Normal r, w') =>
        match RequestHandler.filter cfg (r ∪ to_dict info) with
        | Normal f => (Normal (Some (200, BDict f)), State (self st) w')
        | Raise e => (Raise e, State (self st) w')
        end
    | (Raise e, w') => (Raise e, State (self st) w')
    end.
Proof.
  intros Hsel Hlast. cbn [RequestHandler.find_device].
  unfold selects in Hsel. cbn [snd] in Hsel.
  apply andb_prop in Hsel as [Hsel Hp]. apply andb_prop in Hsel as [Hk Hv].
  rewrite Hk, Hv, Hp, Hlast. cbn [negb andb].
  unfold mbind, M_bind, in_world, lift.
  destruct (USBRead_read name (outside st)) as [[r|e] w']; [|done].
  by destruct (RequestHandler.filter cfg (r ∪ to_dict info)).
Qed.

(** X7.  A GET for the ids of a known entry goes to the first such entry
    in registry order and reads its last interface name, once.  When the
    decoder returns, the answer is 200 with the filter of the reading
    merged over the entry: the url and ids of the entry, the sensor values
    of the reading, no bus numbers, firmware, raw bytes or error message.
    When the decoder raises FileNotFoundError the answer is that of a
    device that is not there ([maybe_reset], then 404); any other
    exception of the decoder leaves the handler. *)
Theorem single_device_answer (cfg : server_config) (m : captures)
    (vendor prod : Z) (entry : string) (info : device) (name : string)
    (st : state) :
  py_int 10 (group m 1) = Normal vendor ->
  py_int 10 (group m 2) = Normal prod ->
  matched_entry (self st) vendor prod (usb_devices (self st))
  = Some (entry, info) ->
  last (devices info) = Some name ->
  match USBRead_read name (outside st) with
  | (Normal r, w') =>
      exists f,
        RequestHandler.get_device cfg GET m st
        = (Normal (200, BDict f), State (self st) w')
        /\ RequestHandler.filter cfg (r ∪ to_dict info) = Normal f
        /\ public_object cfg vendor prod f
        /\ (forall k, k ∈ sensor_keys -> f !! k = r !! k)
  | (Raise e, w') =>
      RequestHandler.get_device cfg GET m st
      = if is_FileNotFoundError e then not_found_after (State (self st) w')
        else (Raise e, State (self st) w')
  end.
Proof.
  intros Hv Hp Hmatched Hlast.
  rewrite (get_device_run cfg GET m vendor prod st Hv Hp).
  apply find_split in Hmatched as (pre & post & Hreg & Hpre & Hsel).
  rewrite Hreg, find_device_skip by done.
  rewrite (find_device_matched cfg vendor prod (self st) entry info name post st
             Hsel Hlast).
  destruct (USBRead_read name (outside st)) as [[r|e] w'] eqn:Hread; [|done].
  pose proof (USBRead_read_keys _ _ _ _ Hread) as Hkeys.
  pose proof (to_dict_identity info) as (Hvid & Hpid & _).
  unfold selects in Hsel. cbn [snd] in Hsel.
  apply andb_prop in Hsel as [Hsel Hpe]. apply andb_prop in Hsel as [_ Hve].
  apply Z.eqb_eq in Hve, Hpe. subst vendor prod.
  assert ((r ∪ to_dict info) !! "vendorid" = Some (VInt (vendorid info))) as Hv'.
  { rewrite merge_keeps_identity; [done|done|]. apply list_elem_of_In. simpl. tauto. }
  assert ((r ∪ to_dict info) !! "productid" = Some (VInt (productid info)))
    as Hp'.
  { rewrite merge_keeps_identity; [done|done|]. apply list_elem_of_In. simpl. tauto. }
  destruct (filter_public cfg _ _ _ Hv' Hp') as (f & Hf & Hpub & Hs & _).
  exists f. rewrite Hf. split; [done|]. split; [done|]. split; [done|].
  intros k Hk. rewrite (Hs k Hk).
  destruct (r !! k) as [v|] eqn:Hr.
  - by apply lookup_union_Some_l.
  - apply lookup_union_None. split; [done|].
    apply list_elem_of_In in Hk. simpl in Hk. unfold to_dict.
    destruct (error info); intuition (subst; reflexivity).
Qed.

Lemma single_device_answer_witness :
  match USBRead_read "hidraw0" (outside twin_state) with
  | (Normal r, w') =>
      exists f,
        RequestHandler.get_device example_config GET
          [(2%nat, "29697"); (1%nat, "3141")] twin_state
        = (Normal (200, BDict f), State (self twin_state) w')
        /\ RequestHandler.filter example_config (r ∪ to_dict stick_on_hidraw0)
           = Normal f
        /\ public_object example_config 3141 29697 f
        /\ (forall k, k ∈ sensor_keys -> f !! k = r !! k)
  | (Raise e, w') =>
      RequestHandler.get_device example_config GET
        [(2%nat, "29697"); (1%nat, "3141")] twin_state
      = if is_FileNotFoundError e
        then not_found_after (State (self twin_state) w')
        else (Raise e, State (self twin_state) w')
  end.
Proof.
  apply (single_device_answer example_config
           [(2%nat, "29697"); (1%nat, "3141")] 3141 29697
           "/sys/bus/usb/devices/1-1" stick_on_hidraw0 "hidraw0" twin_state).
  - vm_compute. reflexivity.
  - vm_compute. reflexivity.
  - vm_compute. reflexivity.
  - reflexivity.
Defined.

(** ** The path of a single-device request *)



Lemma take_while_app (p : ascii -> bool) (a b : string) :
  all_chars p a = true ->
  match b with String c _ => p c = false | EmptyString => True end ->
  take_while p (a ++ b) = a /\ skip_while p (a ++ b) = b.
Proof.
  intros Ha Hb. induction a as [|c a IH].
  - rewrite append_nil. destruct b as [|c b]; [done|].
    cbn [take_while skip_while]. by rewrite Hb.
  - cbn [all_chars] in Ha. apply andb_prop in Ha as [Hc Ha].
    rewrite append_cons. cbn [take_while skip_while]. rewrite Hc.
    destruct (IH Ha) as [-> ->]. done.
Qed.

(** A star followed by something that cannot begin with a character of
    the class takes the whole run. *)
Lemma star_match_greedy {R} (p : ascii -> bool) (s : string)
    (k : string -> option R) :
  (forall c u, p c = true -> k (String c u) = None) ->
  star_match p s k = k (skip_while p s).
Proof.
  intros Hk. induction s as [|c s IH]; [done|].
  cbn [star_match skip_while]. destruct (p c) eqn:Hc; [|done].
  rewrite IH. destruct (k (skip_while p s)) eqn:Hks; [done|].
  by apply Hk.
Qed.

Lemma length_app (a b : string) :
  String.length (a ++ b) = (String.length a + String.length b)%nat.
Proof. induction a as [|c a IH]; [done|]. rewrite append_cons. simpl. by f_equal. Qed.

Lemma str_take_app (a b : string) :
  str_take (String.length (a ++ b) - String.length b) (a ++ b) = a.
Proof.
  rewrite length_app.
  replace (String.length a + String.length b - String.length b)%nat
    with (String.length a) by lia.
  induction a as [|c a IH]; [by destruct b|].
  rewrite append_cons. simpl. by f_equal.
Qed.

Lemma is_digit_range (c : ascii) :
  is_digit c = true <-> 48 <= byte_val c <= 57.
Proof. unfold is_digit. rewrite andb_true_iff, !Z.leb_le. done. Qed.

Lemma digit_not (c d : ascii) :
  is_digit c = true -> is_digit d = false -> c <> d.
Proof. intros Hc Hd ->. congruence. Qed.

Lemma digit_not_space (c : ascii) : is_digit c = true -> is_space c = false.
Proof.
  rewrite is_digit_range. intros Hc. unfold is_space. cbv zeta.
  rewrite !orb_false_iff, !andb_false_iff, !Z.leb_gt, !Z.eqb_neq. lia.
Qed.


Lemma lstrip_digits (s : string) :
  all_chars is_digit s = true -> lstrip s = s.
Proof.
  destruct s as [|c s]; [done|]. cbn [all_chars lstrip].
  intros [Hc _]%andb_prop. by rewrite digit_not_space.
Qed.

Lemma rstrip_digits (s : string) :
  all_chars is_digit s = true -> rstrip s = s.
Proof.
  induction s as [|c s IH]; [done|]. cbn [all_chars rstrip].
  intros [Hc Hs]%andb_prop. rewrite (IH Hs).
  destruct s; [by rewrite digit_not_space|done].
Qed.






Lemma path_pattern_accepts_run (v p tail : string) :
  digits v -> digits p -> tail = "" \/ tail = String "010" "" ->
  re_match RequestHandler.path_pattern ("/" ++ v ++ "/" ++ p ++ tail)
  = Some [(2%nat, p); (1%nat, v)].
Proof.
  intros [Hv0 Hv] [Hp0 Hp] Ht.
  destruct v as [|c v]; [done|]. destruct p as [|d p]; [done|].
  cbn [all_chars] in Hv, Hp.
  apply andb_prop in Hv as [Hc Hv]. apply andb_prop in Hp as [Hd Hp].
  unfold re_match, RequestHandler.path_pattern. cbn [rmatch].
  assert (String.prefix "/" ("/" ++ String c v ++ "/" ++ String d p ++ tail)
          = true) as -> by (apply prefix_split; by eexists).
  rewrite str_drop_app, append_cons. rewrite Hc.
  rewrite star_match_greedy.
  2:{ intros e u He. destruct (String.prefix "/" (String e u)) eqn:Hpre; [|done].
      apply prefix_split in Hpre as [u' Hu]. injection Hu as -> _. done. }
  destruct (take_while_app is_digit v ("/" ++ String d p ++ tail) Hv)
    as [_ ->]; [done|].
  assert (String.prefix "/" ("/" ++ String d p ++ tail) = true) as ->
    by (apply prefix_split; by eexists).
  rewrite str_drop_app, append_cons. rewrite Hd.
  rewrite star_match_greedy.
  2:{ intros e u He. destruct (String.eqb_spec (String e u) "") as [|_]; [done|].
      destruct (String.eqb_spec (String e u) (String "010" "")) as [Heq|_];
        [|done].
      injection Heq as -> _. done. }
  destruct (take_while_app is_digit p tail Hp) as [_ ->];
    [by destruct Ht as [->| ->]|].
  assert (String.eqb tail "" || String.eqb tail (String "010" "") = true) as ->
    by (by destruct Ht as [->| ->]).
  f_equal. f_equal; [|f_equal]; f_equal.
  - exact (str_take_app (String d p) tail).
  - exact (str_take_app (String c v) ("/" ++ String d (p ++ tail))).
Qed.

(** X10.  Every path of that shape is taken for a single-device request:
    two non-empty runs of digits after slashes, with or without a final
    line feed, match the pattern with the runs as groups 1 and 2.  The
    number of digits is not bounded and leading zeros are accepted. *)
Theorem path_pattern_accepts (v p tail : string) :
  digits v -> digits p -> tail = "" \/ tail = String "010" "" ->
  re_match RequestHandler.path_pattern ("/" ++ v ++ "/" ++ p ++ tail)
  = Some [(2%nat, p); (1%nat, v)]
  /\ group [(2%nat, p); (1%nat, v)] 1 = v
  /\ group [(2%nat, p); (1%nat, v)] 2 = p.
Proof.
  intros Hv Hp Ht. split; [by apply path_pattern_accepts_run|done].
Qed.

Lemma path_pattern_accepts_witness :
  re_match RequestHandler.path_pattern ("/" ++ "0003141" ++ "/" ++ "29697" ++ "")
  = Some [(2%nat, "29697"); (1%nat, "0003141")]
  /\ group [(2%nat, "29697"); (1%nat, "0003141")] 1 = "0003141"
  /\ group [(2%nat, "29697"); (1%nat, "0003141")] 2 = "29697".
Proof.
  apply (path_pattern_accepts "0003141" "29697" "").
  - split; [discriminate|reflexivity].
  - split; [discriminate|reflexivity].
  - left. reflexivity.
Defined.

(** ** The registry a scan returns *)

Lemma dict_set_elem {A} (k : string) (v : A) (l : list (string * A))
    (kv : string * A) :
  kv ∈ dict_set k v l -> kv = (k, v) \/ kv ∈ l.
Proof.
  induction l as [|[k' v'] l IH]; cbn [dict_set].
  - intros ->%list_elem_of_singleton. by left.
  - destruct (String.eqb k k').
    + intros [->|H]%elem_of_cons; [by left|right; by apply list_elem_of_further].
    + intros [->|H]%elem_of_cons; [right; apply list_elem_of_here|].
      destruct (IH H) as [->|Hl]; [by left|right; by apply list_elem_of_further].
Qed.

Lemma dict_set_keys {A} (k : string) (v : A) (l : list (string * A)) (x : string) :
  x ∈ map fst (dict_set k v l) <-> x = k \/ x ∈ map fst l.
Proof.
  induction l as [|[k' v'] l IH]; cbn [dict_set map fst].
  - rewrite list_elem_of_singleton, elem_of_nil. tauto.
  - destruct (String.eqb_spec k k') as [->|Hne]; cbn [map fst].
    + rewrite !elem_of_cons. tauto.
    + rewrite !elem_of_cons, IH. tauto.
Qed.

Lemma dict_set_NoDup {A} (k : string) (v : A) (l : list (string * A)) :
  NoDup (map fst l) -> NoDup (map fst (dict_set k v l)).
Proof.
  induction l as [|[k' v'] l IH]; cbn [dict_set map fst]; intros Hl.
  - apply NoDup_singleton.
  - apply NoDup_cons in Hl as [Hk' Hl].
    destruct (String.eqb_spec k k') as [->|Hne]; cbn [map fst].
    + by apply NoDup_cons.
    + apply NoDup_cons. split; [|by apply IH].
      rewrite dict_set_keys. intros [->|H]; done.
Qed.

Lemma get_usb_device_fields (dir : fsnode) (d : device) :
  USBList._get_usb_device dir = Normal (Some d) ->
  let es := match dir with FDir es => es | _ => [] end in
  USBList._readfile es "idVendor" <> ""
  /\ py_int 16 (USBList._readfile es "idVendor") = Normal (vendorid d)
  /\ py_int 16 (USBList._readfile es "idProduct") = Normal (productid d)
  /\ manufacturer d = USBList._readfile es "manufacturer"
  /\ product d = USBList._readfile es "product"
  /\ py_int 10 (USBList._readfile es "busnum") = Normal (busnum d)
  /\ py_int 10 (USBList._readfile es "devnum") = Normal (devnum d)
  /\ error d = None.
Proof.
  unfold USBList._get_usb_device. unfold_monad. cbv zeta.
  destruct (String.eqb_spec (USBList._readfile match dir with
                                               | FDir es => es
                                               | _ => []
                                               end "idVendor") "")
    as [|Hne]; [done|].
  repeat (match goal with
          | |- context [match py_int ?b ?s with _ => _ end] =>
              destruct (py_int b s)
          end; [|done]).
  by intros [= <-].
Qed.

Lemma get_usb_device_raises (dir : fsnode) (e : exn) :
  USBList._get_usb_device dir = Raise e -> e = ValueError.
Proof.
  unfold USBList._get_usb_device. unfold_monad. cbv zeta.
  destruct (String.eqb _ ""); [done|].
  repeat (match goal with
          | |- context [match py_int ?b ?s with _ => _ end] =>
              let H := fresh in
              destruct (py_int b s) eqn:H;
              [|apply py_int_raises in H; by intros [= <-]]
          end).
  done.
Qed.

Lemma scan_entries_run (all es : list (string * fsnode)) (info r : registry) :
  USBList.scan_entries es info = Normal r ->
  (forall kv, kv ∈ es -> kv ∈ all) ->
  NoDup (map fst info) -> Forall (scanned all) info ->
  NoDup (map fst r) /\ Forall (scanned all) r
  /\ (forall k, k ∈ map fst info -> k ∈ map fst r)
  /\ (forall name n, (name, n) ∈ es -> USBList.is_dir n = true ->
        exists od,
          USBList._get_usb_device (default n (USBList.resolve n)) = Normal od
          /\ (is_Some od ->
              USBList.path_join USBList.SYSPATH name ∈ map fst r)).
Proof.
  revert info. induction es as [|[name n] es IH]; intros info Hrun Hsub Hnd Hall.
  - injection Hrun as <-. repeat split; try done.
    intros name n Hin. by apply elem_of_nil in Hin.
  - cbn [USBList.scan_entries] in Hrun.
    assert (forall kv, kv ∈ es -> kv ∈ all) as Hsub'
      by (intros kv Hkv; apply Hsub; by apply list_elem_of_further).
    destruct (USBList.is_dir n) eqn:Hdir.
    + unfold mbind, outcome_bind in Hrun.
      destruct (USBList._get_usb_device (default n (USBList.resolve n)))
        as [[dv|]|e] eqn:Hdev; [| |done].
      * destruct (IH _ Hrun Hsub') as (Hnd' & Hall' & Hkeys & Hes).
        { by apply dict_set_NoDup. }
        { apply List.Forall_forall. intros kv Hkv.
          apply list_elem_of_In, dict_set_elem in Hkv as [->|Hkv].
          - exists name, n. split; [apply Hsub, list_elem_of_here|done].
          - rewrite List.Forall_forall in Hall. by apply Hall, list_elem_of_In. }
        split; [done|]. split; [done|]. split.
        { intros k Hk. apply Hkeys, dict_set_keys. by right. }
        intros name' n' [[= -> ->]|Hin]%elem_of_cons Hd'.
        -- exists (Some dv). split; [done|]. intros _.
           apply Hkeys, dict_set_keys. by left.
        -- by apply Hes.
      * destruct (IH _ Hrun Hsub' Hnd Hall) as (Hnd' & Hall' & Hkeys & Hes).
        split; [done|]. split; [done|]. split; [done|].
        intros name' n' [[= -> ->]|Hin]%elem_of_cons Hd'.
        -- exists None. split; [done|]. by intros [? ?].
        -- by apply Hes.
    + destruct (IH _ Hrun Hsub' Hnd Hall) as (Hnd' & Hall' & Hkeys & Hes).
      split; [done|]. split; [done|]. split; [done|].
      intros name' n' [[= -> ->]|Hin]%elem_of_cons Hd'; [congruence|].
      by apply Hes.
Qed.

Lemma get_usb_devices_run (w : world) :
  USBList.get_usb_devices w
  = (USBList.scan_entries (sysfs w) [],
     World (dev w) (sysfs w) (clock w) (log w ++ [EvScan])).
Proof.
  unfold USBList.get_usb_devices, emit. unfold_monad. cbn [sysfs].
  by destruct (USBList.scan_entries (sysfs w) []).
Qed.

(** X11.  When the scan returns, it has logged one scan and touched
    nothing else, and its registry has one entry for each path: every
    entry stands for a directory entry of SYSPATH (a directory, or a link
    to one) whose path is its key and whose description is what
    [_get_usb_device] gives there, without error field and with its
    interface names in ascending order without repetition; and every
    directory entry was described without failure, each one with a vendor
    id having its path in the registry. *)
Theorem scan_registry (w w' : world) (r : registry) :
  USBList.get_usb_devices w = (Normal r, w') ->
  w' = World (dev w) (sysfs w) (clock w) (log w ++ [EvScan])
  /\ NoDup (map fst r)
  /\ Forall (fun kv => scanned (sysfs w) kv
                       /\ error (snd kv) = None
                       /\ Sorted string_le (devices (snd kv))
                       /\ NoDup (devices (snd kv))) r
  /\ (forall name n, (name, n) ∈ sysfs w -> USBList.is_dir n = true ->
        exists od,
          USBList._get_usb_device (default n (USBList.resolve n)) = Normal od
          /\ (is_Some od ->
              USBList.path_join USBList.SYSPATH name ∈ map fst r)).
Proof.
  rewrite get_usb_devices_run. intros [= Hrun <-].
  destruct (scan_entries_run (sysfs w) (sysfs w) [] r Hrun)
    as (Hnd & Hall & _ & Hes); [done|apply NoDup_nil_2|done|].
  split; [done|]. split; [done|]. split; [|done].
  eapply Forall_impl; [exact Hall|]. intros [path d] Hkv.
  split; [done|]. destruct Hkv as (name & n & _ & _ & _ & Hd). cbn [snd] in *.
  pose proof (get_usb_device_fields _ _ Hd) as (_ & _ & _ & _ & _ & _ & _ & He).
  split; [done|]. rewrite (get_usb_device_devices _ _ Hd).
  split; [apply sorted_Sorted|].
  rewrite sorted_perm. apply NoDup_elements.
Qed.

Lemma scan_registry_witness :
  snd (USBList.get_usb_devices (World ∅ [("usb1", hub); ("1-1", serial_stick)] [] []))
  = World ∅ [("usb1", hub); ("1-1", serial_stick)] [] [EvScan]
  /\ NoDup (map fst (registry_of_scan [("usb1", hub); ("1-1", serial_stick)]))
  /\ Forall (fun kv => scanned [("usb1", hub); ("1-1", serial_stick)] kv
                       /\ error (snd kv) = None
                       /\ Sorted string_le (devices (snd kv))
                       /\ NoDup (devices (snd kv)))
            (registry_of_scan [("usb1", hub); ("1-1", serial_stick)])
  /\ (forall name n, (name, n) ∈ [("usb1", hub); ("1-1", serial_stick)] ->
        USBList.is_dir n = true ->
        exists od,
          USBList._get_usb_device (default n (USBList.resolve n)) = Normal od
          /\ (is_Some od ->
              USBList.path_join USBList.SYSPATH name
              ∈ map fst (registry_of_scan [("usb1", hub); ("1-1", serial_stick)]))).
Proof.
  apply (scan_registry (World ∅ [("usb1", hub); ("1-1", serial_stick)] [] [])).
  vm_compute. reflexivity.
Defined.

Lemma scan_entries_raises (es : list (string * fsnode)) (e : exn) :
  forall info,
    USBList.scan_entries es info = Raise e ->
    e = ValueError
    /\ exists name n,
         (name, n) ∈ es /\ USBList.is_dir n = true
         /\ USBList._get_usb_device (default n (USBList.resolve n))
            = Raise ValueError.
Proof.
  induction es as [|[name n] es IH]; intros info; [done|].
  cbn [USBList.scan_entries].
  assert (forall info', USBList.scan_entries es info' = Raise e ->
            e = ValueError /\ exists name0 n0,
              (name0, n0) ∈ (name, n) :: es /\ USBList.is_dir n0 = true
              /\ USBList._get_usb_device (default n0 (USBList.resolve n0))
                 = Raise ValueError) as IH'.
  { intros info' H. destruct (IH _ H) as (-> & name0 & n0 & Hin & Hrest).
    split; [done|]. exists name0, n0. split; [by apply list_elem_of_further|done]. }
  destruct (USBList.is_dir n) eqn:Hdir; [|apply IH'].
  unfold mbind, outcome_bind.
  destruct (USBList._get_usb_device (default n (USBList.resolve n)))
    as [[dv|]|e'] eqn:Hdev; [apply IH'|apply IH'|].
  intros [= ->]. pose proof (get_usb_device_raises _ _ Hdev) as ->.
  split; [done|]. exists name, n. split; [apply list_elem_of_here|done].
Qed.

Lemma os_times_elapsed_returns (w : world) :
  exists now, fst (os_times_elapsed w) = Normal now.
Proof.
  unfold os_times_elapsed. destruct (clock w) as [|t [|t' rest]]; by eexists.
Qed.

Lemma reset_raises (st : state) (e : exn) :
  fst (Temper.reset st) = Raise e ->
  e = ValueError /\ USBList.scan_entries (sysfs (outside st)) [] = Raise ValueError.
Proof.
  rewrite reset_run.
  destruct (USBList.scan_entries (sysfs (outside st)) []) as [r|e'] eqn:Hscan.
  - cbv zeta.
    match goal with
    | |- context [os_times_elapsed ?w] =>
        destruct (os_times_elapsed_returns w) as [now Hnow];
        destruct (os_times_elapsed w) as [[now'|e'] w2]
    end; done.
  - cbn [fst]. intros [= ->].
    by destruct (scan_entries_raises _ _ _ Hscan) as [-> _].
Qed.

Lemma maybe_reset_raises (st : state) (e : exn) :
  fst (Temper.maybe_reset st) = Raise e -> e = ValueError.
Proof.
  unfold Temper.maybe_reset, in_world, get_self. unfold_monad.
  destruct (os_times_elapsed_returns (outside st)) as [now Hnow].
  destruct (os_times_elapsed (outside st)) as [[now'|e'] w1]; [|done].
  cbn [self]. destruct (PrimFloat.ltb _ _); [|done].
  intros H. by destruct (reset_raises _ _ H).
Qed.



(** ** A whole exchange with a device *)






(** ** The forced id *)







(** ** What a reading leaves alone *)



























(** ** What a serial reading can look like *)

(** X17.  A serial reading that returns always carries the firmware text
    and never an error message, an external humidity or the hex fields.
    Internal temperature and internal humidity come together, exactly
    when the Temp-Inner pattern is found in the reply; the external
    temperature is there exactly when the Temp-Outer pattern is found and
    its number is one [float()] accepts.  The reading fails, with
    ValueError, only on a number of the inner sensor that [float()]
    rejects; such a number of the outer sensor is passed over in
    silence. *)
Theorem serial_reading_shape (firmware reply : string) :
  match SerialIO.serial_info firmware reply with
  | Normal info =>
      info !! "firmware" = Some (VStr firmware)
      /\ lacks ["error"; "external humidity"; "hex_firmware"; "hex_data"] info
      /\ (is_Some (info !! "internal temperature")
          <-> is_Some (re_search SerialIO.inner_pattern reply))
      /\ (is_Some (info !! "internal humidity")
          <-> is_Some (re_search SerialIO.inner_pattern reply))
      /\ (is_Some (info !! "external temperature")
          <-> exists m t, re_search SerialIO.outer_pattern reply = Some m
                          /\ py_float (group m 1) = Normal t)
  | Raise e =>
      e = ValueError
      /\ exists m, re_search SerialIO.inner_pattern reply = Some m
                   /\ (py_float (group m 1) = Raise ValueError
                       \/ py_float (group m 2) = Raise ValueError)
  end.
Proof.
  unfold SerialIO.serial_info, SerialIO.parse_reply.
  unfold_monad. unfold setitem, modify, lift, try_except. unfold_monad.
  destruct (re_search SerialIO.inner_pattern reply) as [mi|].
  - destruct (py_float (group mi 1)) as [t|e] eqn:Et.
    2:{ pose proof (py_float_raises _ _ Et) as ->. split; [done|].
        exists mi. split; [done|]. by left. }
    destruct (py_float (group mi 2)) as [h|e] eqn:Eh.
    2:{ pose proof (py_float_raises _ _ Eh) as ->. split; [done|].
        exists mi. split; [done|]. by right. }
    destruct (re_search SerialIO.outer_pattern reply) as [mo|].
    + destruct (py_float (group mo 1)) as [x|e] eqn:Ex.
      * split; [done|]. split; [by repeat constructor|].
        split; [split; by eexists|]. split; [split; by eexists|].
        split; [intros _; by exists mo, x|by eexists].
      * split; [done|]. split; [by repeat constructor|].
        split; [split; by eexists|]. split; [split; by eexists|].
        split; [by intros [? ?]|].
        intros (m & x & [= <-] & Hx). congruence.
    + split; [done|]. split; [by repeat constructor|].
      split; [split; by eexists|]. split; [split; by eexists|].
      split; [by intros [? ?]|]. by intros (m & x & ? & _).
  - destruct (re_search SerialIO.outer_pattern reply) as [mo|].
    + destruct (py_float (group mo 1)) as [x|e] eqn:Ex.
      * split; [done|]. split; [by repeat constructor|].
        split; [split; by intros [? ?]|]. split; [split; by intros [? ?]|].
        split; [intros _; by exists mo, x|by eexists].
      * split; [done|]. split; [by repeat constructor|].
        split; [split; by intros [? ?]|]. split; [split; by intros [? ?]|].
        split; [by intros [? ?]|].
        intros (m & x & [= <-] & Hx). congruence.
    + split; [done|]. split; [by repeat constructor|].
      split; [split; by intros [? ?]|]. split; [split; by intros [? ?]|].
      split; [by intros [? ?]|]. by intros (m & x & ? & _).
Qed.

(** ** How a request can end *)

Lemma raises_only_ret {S A} (P : exn -> Prop) (a : A) :
  raises_only P (mret a : M S A).
Proof. intros s e s'. discriminate. Qed.

Lemma raises_only_raise {S A} (P : exn -> Prop) (e : exn) :
  P e -> raises_only P (raise e : M S A).
Proof. intros He s e' s' [= <- _]. exact He. Qed.

Lemma raises_only_bind {S A B} (P : exn -> Prop) (m : M S A) (k : A -> M S B) :
  raises_only P m -> (forall a, raises_only P (k a)) ->
  raises_only P (m ≫= k).
Proof.
  intros Hm Hk s e s'. unfold mbind, M_bind.
  destruct (m s) as [[a|e'] s1] eqn:Em.
  - apply Hk.
  - intros [= <- _]. by eapply Hm.
Qed.

Lemma raises_only_emit (P : exn -> Prop) (ev : event) : raises_only P (emit ev).
Proof. intros s e s'. discriminate. Qed.

Lemma raises_only_modify {S} (P : exn -> Prop) (f : S -> S) :
  raises_only P (modify f).
Proof. intros s e s'. discriminate. Qed.

Lemma raises_only_os_write (P : exn -> Prop) (fd : string) (data : bytes) :
  raises_only P (os_write fd data).
Proof.
  unfold os_write.
  apply raises_only_bind; [apply raises_only_modify|intros _].
  apply raises_only_emit.
Qed.

Lemma raises_only_select_ready (P : exn -> Prop) (fd : string) :
  raises_only P (select_ready fd).
Proof. intros s e s'. unfold select_ready. by destruct (dev s !! fd). Qed.

Lemma raises_only_os_read (P : exn -> Prop) (fd : string) (k : nat) :
  raises_only P (os_read fd k).
Proof.
  intros s. unfold os_read. cbv zeta.
  apply raises_only_bind; [apply raises_only_modify|intros _].
  apply raises_only_bind; [apply raises_only_emit|intros _].
  apply raises_only_ret.
Qed.

Lemma raises_only_serial_readline (P : exn -> Prop) (fd : string) :
  raises_only P (serial_readline fd).
Proof.
  intros s. unfold serial_readline. cbv zeta.
  apply raises_only_bind; [apply raises_only_modify|intros _].
  apply raises_only_bind; [apply raises_only_emit|intros _].
  apply raises_only_ret.
Qed.

Lemma raises_only_read_loop (P : exn -> Prop) (fd : string) (fuel : nat) :
  forall acc, raises_only P (HidIO.read_loop fuel fd acc).
Proof.
  induction fuel as [|fuel IH]; intros acc.
  - apply raises_only_ret.
  - rewrite read_loop_S.
    apply raises_only_bind; [apply raises_only_select_ready|intros [|]].
    + apply raises_only_bind; [apply raises_only_os_read|intros data; apply IH].
    + apply raises_only_ret.
Qed.

Lemma raises_only_firmware_attempts (P : exn -> Prop) (fd : string) (n : nat) :
  P firmware_failure ->
  forall fw, raises_only P (HidIO.firmware_attempts n fd fw).
Proof.
  intros HP. induction n as [|n IH]; intros fw.
  - apply raises_only_ret.
  - change (HidIO.firmware_attempts (S n) fd fw) with
      (_ ← os_write fd HidIO.firmware_query;
       firmware ← HidIO.read_frames fd;
       if (length firmware =? 0)%nat then
         _ ← os_close fd;
         raise (RuntimeError "Cannot read device firmware identifier")
       else if (8 <? length firmware)%nat then mret firmware
       else HidIO.firmware_attempts n fd firmware).
    apply raises_only_bind; [apply raises_only_os_write|intros _].
    apply raises_only_bind;
      [intros w; apply raises_only_read_loop|intros firmware].
    destruct (length firmware =? 0)%nat.
    + apply raises_only_bind; [apply raises_only_emit|intros _].
      by apply raises_only_raise.
    + destruct (8 <? length firmware)%nat; [apply raises_only_ret|apply IH].
Qed.

Lemma raises_only_read_hidraw (name : string) :
  raises_only decoder_exn (HidIO._read_hidraw name).
Proof.
  unfold HidIO._read_hidraw.
  apply raises_only_bind.
  { intros w e w'. unfold os_open. destruct (dev w !! name).
    - unfold emit. unfold_monad. discriminate.
    - intros [= <- _]. by left. }
  intros fd.
  apply raises_only_bind.
  { apply raises_only_firmware_attempts. right. by left. }
  intros firmware.
  apply raises_only_bind; [apply raises_only_os_write|intros _].
  apply raises_only_bind; [intros w; apply raises_only_read_loop|intros data].
  apply raises_only_bind; [apply raises_only_emit|intros _].
  intros w e w'. unfold lift.
  destruct (hid_info_keys firmware data) as (info & -> & _). discriminate.
Qed.

Lemma raises_only_read_serial (name : string) :
  raises_only decoder_exn (SerialIO._read_serial name).
Proof.
  unfold SerialIO._read_serial.
  apply raises_only_bind.
  { intros w e w'. unfold serial_open. destruct (dev w !! name).
    - unfold emit. unfold_monad. discriminate.
    - intros [= <- _]. right. right. by left. }
  intros fd.
  apply raises_only_bind; [apply raises_only_os_write|intros _].
  apply raises_only_bind; [apply raises_only_serial_readline|intros l].
  apply raises_only_bind; [apply raises_only_os_write|intros _].
  apply raises_only_bind; [apply raises_only_serial_readline|intros l1].
  apply raises_only_bind; [apply raises_only_serial_readline|intros l2].
  apply raises_only_bind; [apply raises_only_emit|intros _].
  intros w e w'. unfold lift.
  match goal with
  | |- (SerialIO.serial_info ?f ?r, _) = _ -> _ =>
      destruct (serial_info_keys f r) as [->|(info & -> & _)]
  end; [|discriminate].
  intros [= <- _]. right. right. by right.
Qed.

Lemma USBRead_read_raises (name : string) (w w' : world) (e : exn) :
  USBRead_read name w = (Raise e, w') -> decoder_exn e.
Proof.
  unfold USBRead_read.
  destruct (String.prefix "hidraw" name); [apply raises_only_read_hidraw|].
  destruct (String.prefix "tty" name); [apply raises_only_read_serial|].
  discriminate.
Qed.

Lemma merged_filter (cfg : server_config) (rd : dict) (info : device)
    (name : string) (w w' : world) :
  USBRead_read name w = (Normal rd, w') ->
  exists f, RequestHandler.filter cfg (rd ∪ to_dict info) = Normal f.
Proof.
  intros Hread. pose proof (USBRead_read_keys _ _ _ _ Hread) as Hkeys.
  pose proof (to_dict_identity info) as (Hvid & Hpid & _).
  assert ((rd ∪ to_dict info) !! "vendorid" = Some (VInt (vendorid info))) as Hv.
  { rewrite merge_keeps_identity; [done|done|]. apply list_elem_of_In. simpl. tauto. }
  assert ((rd ∪ to_dict info) !! "productid" = Some (VInt (productid info)))
    as Hp.
  { rewrite merge_keeps_identity; [done|done|]. apply list_elem_of_In. simpl. tauto. }
  destruct (filter_public cfg _ _ _ Hv Hp) as (f & Hf & _). by exists f.
Qed.

Lemma find_device_outcome (cfg : server_config) (mode : request_mode)
    (vendor prod : Z) (t : temper) (r : registry) (st : state) :
  match fst (RequestHandler.find_device cfg mode vendor prod t r st) with
  | Normal (Some reply) => fst reply = 200
  | Normal None => True
  | Raise e => mode = GET /\ (e = IndexError \/ decoder_exn e)
  end.
Proof.
  induction r as [|[path info] r IH]; [done|].
  cbn [RequestHandler.find_device].
  destruct (negb _); [exact IH|].
  destruct ((vendor =? vendorid info) && (prod =? productid info)); [|exact IH].
  destruct mode; [|done].
  destruct (last (devices info)) as [name|]; [|cbn; tauto].
  unfold mbind, M_bind, in_world, lift.
  destruct (USBRead_read name (outside st)) as [[rd|e] w'] eqn:Hread.
  - destruct (merged_filter cfg rd info name _ _ Hread) as [f ->]. done.
  - cbn [fst]. split; [done|]. right. by eapply USBRead_read_raises.
Qed.

Lemma not_found_outcome (mode : request_mode) (st : state) :
  handler_outcome mode (fst (not_found_after st)).
Proof.
  unfold not_found_after.
  pose proof (maybe_reset_raises st) as Hr.
  destruct (Temper.maybe_reset st) as [[[]|e] st1]; cbn [fst] in *.
  - right. by left.
  - left. by apply Hr.
Qed.

Lemma get_device_outcome (cfg : server_config) (mode : request_mode)
    (m : captures) (st : state) :
  handler_outcome mode (fst (RequestHandler.get_device cfg mode m st)).
Proof.
  destruct (py_int 10 (group m 1)) as [vendor|e] eqn:Hv.
  2:{ unfold RequestHandler.get_device. unfold mbind, M_bind, lift.
      rewrite Hv. left. by eapply py_int_raises. }
  destruct (py_int 10 (group m 2)) as [prod|e] eqn:Hp.
  2:{ unfold RequestHandler.get_device. unfold mbind, M_bind, lift.
      rewrite Hv, Hp. left. by eapply py_int_raises. }
  rewrite (get_device_run cfg mode m vendor prod st Hv Hp).
  pose proof (find_device_outcome cfg mode vendor prod (self st)
                (usb_devices (self st)) st) as Hfind.
  destruct (RequestHandler.find_device _ _ _ _ _ _ _) as [[[reply|]|e] st'];
    cbn [fst] in Hfind.
  - by left.
  - apply not_found_outcome.
  - destruct Hfind as [-> He].
    destruct (is_FileNotFoundError e) eqn:Hfnf; [apply not_found_outcome|].
    cbn [fst handler_outcome]. unfold handler_exn, decoder_exn in *.
    destruct He as [->|[->|[->|[->| ->]]]]; cbn in Hfnf; try discriminate;
      auto 10.
Qed.

Lemma get_devices_outcome (cfg : server_config) (mode : request_mode)
    (st : state) :
  handler_outcome mode (fst (RequestHandler.get_devices cfg mode st)).
Proof.
  unfold RequestHandler.get_devices.
  change (Temper.call "maybe_reset") with Temper.maybe_reset.
  pose proof (maybe_reset_raises st) as Hr.
  unfold mbind, M_bind.
  destruct (Temper.maybe_reset st) as [[[]|e] st1]; cbn [fst] in *.
  - unfold get_self, lift.
    destruct (known_devices_run cfg (self st1) (usb_devices (self st1)))
      as (l & -> & _). by left.
  - left. by apply Hr.
Qed.

Lemma read_raises (st : state) (e : exn) :
  fst (Temper.read st) = Raise e -> decoder_exn e.
Proof.
  assert (Temper.read st
          = Temper.read_items (Temper.sorted_items (usb_devices (self st))) [] st)
    as -> by reflexivity.
  destruct (Temper.read_items _ [] st) as [r st'] eqn:Hrun. cbn [fst].
  intros ->.
  destruct (read_items_raise (self st) _ _ _ _ _ Hrun (same_forced_refl _))
    as (name & w & w' & _ & Hread).
  by eapply USBRead_read_raises.
Qed.

Lemma get_all_outcome (cfg : server_config) (mode : request_mode) (st : state) :
  handler_outcome mode (fst (RequestHandler.get_all cfg mode st)).
Proof.
  unfold RequestHandler.get_all.
  change (Temper.call "maybe_reset") with Temper.maybe_reset.
  pose proof (maybe_reset_raises st) as Hr.
  unfold mbind at 1. unfold M_bind at 1.
  destruct (Temper.maybe_reset st) as [[[]|e] st1]; cbn [fst] in *;
    [|left; by apply Hr].
  destruct mode; [|by left].
  unfold mbind, M_bind, try_except_FileNotFoundError.
  destruct (Temper.read st1) as [[res|e] st2] eqn:Hread.
  - assert (fst (Temper.read st1) = Normal res) as Hres by by rewrite Hread.
    destruct (acquire_all_results st1 res Hres) as [Hacq _].
    apply acquired_identity in Hacq.
    destruct (filter_all_run cfg _ _ Hacq) as (fl & Hfl & _).
    unfold lift. rewrite Hfl. by left.
  - assert (decoder_exn e) as He
      by (apply (read_raises st1); by rewrite Hread).
    destruct (is_FileNotFoundError e) eqn:Hfnf.
    + cbn. unfold handler_exn. auto 10.
    + cbn [fst handler_outcome]. unfold handler_exn, decoder_exn in *.
      destruct He as [->|[->|[->| ->]]]; cbn in Hfnf; try discriminate;
        auto 10.
Qed.

Lemma get_path_outcome (cfg : server_config) (path : string)
    (mode : request_mode) (st : state) :
  handler_outcome mode (fst (RequestHandler.get_path cfg path mode st)).
Proof.
  unfold RequestHandler.get_path.
  destruct (re_match RequestHandler.path_pattern path);
    [apply get_device_outcome|].
  destruct (String.eqb path "/devices"); [apply get_devices_outcome|].
  destruct (String.eqb path "/"); [apply get_all_outcome|].
  right. by right.
Qed.

(** X18.  Whatever the path and the mode, a request that is answered is
    answered 200, or 404 with one of two bodies: error = no such device
    or error = unrecognized path.  No other status is ever produced. *)
Theorem reply_codes (cfg : server_config) (path : string) (mode : request_mode)
    (st : state) (code : Z) (b : body) :
  fst (RequestHandler.get_path cfg path mode st) = Normal (code, b) ->
  code = 200
  \/ (code = 404
      /\ (b = BDict {[ "error" := VStr "no such device" ]}
          \/ b = BDict {[ "error" := VStr "unrecognized path" ]})).
Proof.
  intros Hrun. pose proof (get_path_outcome cfg path mode st) as Hout.
  rewrite Hrun in Hout. destruct Hout as [H|[[= -> ->]|[= -> ->]]]; auto.
Qed.

Lemma reply_codes_witness :
  404 = 200
  \/ (404 = 404
      /\ (BDict {[ "error" := VStr "unrecognized path" ]}
          = BDict {[ "error" := VStr "no such device" ]}
          \/ BDict {[ "error" := VStr "unrecognized path" ]}
             = BDict {[ "error" := VStr "unrecognized path" ]})).
Proof.
  apply (reply_codes example_config "/devices/" GET bare_state).
  vm_compute. reflexivity.
Defined.



(** ** The url of a device leads back to it *)

Lemma append_assoc_str (a b c : string) : (a ++ b) ++ c = a ++ (b ++ c).
Proof. induction a as [|x a IH]; [done|]. rewrite !append_cons. by f_equal. Qed.

Lemma append_empty_r (a : string) : a ++ "" = a.
Proof. induction a as [|x a IH]; [done|]. rewrite append_cons. by f_equal. Qed.

Lemma all_chars_app (p : ascii -> bool) (a b : string) :
  all_chars p (a ++ b) = all_chars p a && all_chars p b.
Proof.
  induction a as [|x a IH]; [done|]. rewrite append_cons. cbn [all_chars].
  by rewrite IH, andb_assoc.
Qed.

Lemma pretty_N_char_digit (d : N) :
  (d < 10)%N ->
  is_digit (pretty_N_char d) = true
  /\ digit_value (pretty_N_char d) = Some (Z.of_N d)
  /\ Ascii.eqb (pretty_N_char d) "_" = false.
Proof.
  intros Hd.
  assert (d = 0 \/ d = 1 \/ d = 2 \/ d = 3 \/ d = 4 \/ d = 5 \/ d = 6 \/ d = 7
          \/ d = 8 \/ d = 9)%N as H by lia.
  repeat (destruct H as [->|H]; [by vm_compute|]). subst d. by vm_compute.
Qed.

(** The decimal digits stdpp writes for a number are read back by the
    digit scanner of [int()]. *)
Lemma pretty_N_go_scan (x : N) :
  forall s, exists pre,
    pretty_N_go x s = pre ++ s
    /\ all_chars is_digit pre = true
    /\ (x = 0%N -> pre = "")
    /\ ((0 < x)%N -> pre <> ""
        /\ forall acc need t,
             scan_digits 10 (pre ++ t) acc need
             = scan_digits 10 t
                 (acc * 10 ^ Z.of_nat (String.length pre) + Z.of_N x) false).
Proof.
  induction (N.lt_wf_0 x) as [x _ IH]. intros s.
  destruct (N.eq_dec x 0%N) as [->|Hx].
  { exists "". rewrite pretty_N_go_0. repeat split; try done; lia. }
  assert (0 < x)%N as Hpos by lia.
  rewrite pretty_N_go_step by done.
  destruct (pretty_N_char_digit (x mod 10)) as (Hdig & Hval & Hus);
    [by apply N.mod_lt|].
  set (c := pretty_N_char (x mod 10)) in *.
  destruct (IH (x / 10)%N (N.div_lt x 10 Hpos eq_refl) (String c s))
    as (pre' & Hrun & Hall & Hzero & Hscan).
  exists (pre' ++ String c "").
  split; [by rewrite Hrun, append_assoc_str|].
  split; [rewrite all_chars_app, Hall; cbn [all_chars]; by rewrite Hdig|].
  split; [lia|]. intros _. split; [by destruct pre'|].
  intros acc need t. rewrite append_assoc_str, append_cons, append_nil.
  rewrite length_app. cbn [String.length].
  assert (x = 10 * (x / 10) + x mod 10)%N as Hdm by (apply N.div_mod; lia).
  destruct (N.eq_dec (x / 10)%N 0%N) as [H0|H0].
  - rewrite (Hzero H0), append_nil. cbn [scan_digits String.length Nat.add].
    rewrite Hus, Hval. rewrite H0 in Hdm.
    destruct (Z.ltb_spec (Z.of_N (x mod 10)) 10) as [_|Hge].
    2:{ assert (x `mod` 10 < 10)%N by (apply N.mod_lt; lia). lia. }
    f_equal. lia.
  - assert (0 < x / 10)%N as Hq by (by apply N.neq_0_lt_0).
    destruct (Hscan Hq) as [_ Hs]. rewrite Hs.
    cbn [scan_digits]. rewrite Hus, Hval.
    destruct (Z.ltb_spec (Z.of_N (x mod 10)) 10) as [_|Hge].
    2:{ assert (x `mod` 10 < 10)%N by (apply N.mod_lt; lia). lia. }
    f_equal.
    replace (Z.of_nat (String.length pre' + 1))
      with (Z.of_nat (String.length pre') + 1) by lia.
    rewrite Z.pow_add_r by lia. lia.
Qed.

Lemma pretty_Z_scan (z : Z) :
  0 <= z -> digits (pretty z) /\ scan_digits 10 (pretty z) 0 true = Some z.
Proof.
  intros Hz. destruct z as [|q|q]; [by split|clear Hz|lia].
  assert (pretty (Zpos q) = pretty_N_go (Npos q) "") as -> by reflexivity.
  destruct (pretty_N_go_scan (Npos q) "") as (pre & -> & Hall & _ & Hpos).
  assert (0 < N.pos q)%N as Hq by lia.
  destruct (Hpos Hq) as [Hne Hscan].
  rewrite append_empty_r. split; [done|].
  rewrite <- (append_empty_r pre), Hscan. by cbn [scan_digits].
Qed.

Lemma py_int_of_digits (s : string) (n : Z) :
  digits s -> scan_digits 10 s 0 true = Some n -> py_int 10 s = Normal n.
Proof.
  intros [Hne Hs] Hn. unfold py_int, py_strip.
  rewrite (lstrip_digits s Hs), (rstrip_digits s Hs).
  assert (scan_unsigned 10 s = Some n) as Hu by exact Hn.
  destruct s as [|c s]; [done|].
  cbn [all_chars] in Hs. apply andb_prop in Hs as [Hc _].
  destruct (Ascii.eqb_spec c "-") as [->|Hm]; [discriminate|].
  destruct (Ascii.eqb_spec c "+") as [->|Hp]; [discriminate|].
  assert (match String c s with
          | String "-" s' => Z.opp <$> scan_unsigned 10 s'
          | String "+" s' => scan_unsigned 10 s'
          | s' => scan_unsigned 10 s'
          end = scan_unsigned 10 (String c s)) as ->.
  { destruct c as [[] [] [] [] [] [] [] []]; try reflexivity; congruence. }
  by rewrite Hu.
Qed.

Lemma id_path_run (v p : Z) :
  0 <= v -> 0 <= p ->
  re_match RequestHandler.path_pattern ("/" ++ pretty v ++ "/" ++ pretty p)
  = Some [(2%nat, pretty p); (1%nat, pretty v)]
  /\ py_int 10 (pretty v) = Normal v /\ py_int 10 (pretty p) = Normal p.
Proof.
  intros Hv Hp.
  destruct (pretty_Z_scan v Hv) as [Hdv Hsv].
  destruct (pretty_Z_scan p Hp) as [Hdp Hsp].
  split; [|split; by apply py_int_of_digits].
  rewrite <- (append_empty_r (pretty p)) at 1.
  apply path_pattern_accepts_run; auto.
Qed.

(** X20.  The url the filter hands out for a known registry entry leads
    back to it.  When the ids of the entry are not negative, the url is
    the address of the server followed by a path that the single-device
    pattern matches, whose two groups [int()] reads back as the ids of the
    entry; a request for that path therefore matches a known entry with
    these ids, and a HEAD for it is answered 200. *)
Theorem url_leads_back (cfg : server_config) (st : state)
    (kv : string * device) (f : dict) :
  kv ∈ usb_devices (self st) ->
  Temper._is_known_id (self st) (vendorid (snd kv)) (productid (snd kv)) = true ->
  0 <= vendorid (snd kv) -> 0 <= productid (snd kv) ->
  RequestHandler.filter cfg (to_dict (snd kv)) = Normal f ->
  exists path m kv',
    f !! "url"
    = Some (VStr (protocol cfg ++ "://" ++ hostname cfg ++ ":"
                  ++ pretty (port cfg) ++ path))
    /\ re_match RequestHandler.path_pattern path = Some m
    /\ py_int 10 (group m 1) = Normal (vendorid (snd kv))
    /\ py_int 10 (group m 2) = Normal (productid (snd kv))
    /\ matched_entry (self st) (vendorid (snd kv)) (productid (snd kv))
         (usb_devices (self st)) = Some kv'
    /\ vendorid (snd kv') = vendorid (snd kv)
    /\ productid (snd kv') = productid (snd kv)
    /\ RequestHandler.get_path cfg path HEAD st = (Normal (200, BDict ∅), st).
Proof.
  intros Hin Hknown Hv Hp Hf.
  pose proof (to_dict_identity (snd kv)) as (Hvid & Hpid & _).
  destruct (filter_public cfg _ _ _ Hvid Hpid) as (f' & Hf' & Hpub & _).
  rewrite Hf in Hf'. injection Hf' as <-.
  destruct Hpub as (Hurl & _).
  destruct (id_path_run _ _ Hv Hp) as (Hm & Hiv & Hip).
  assert (exists kv', matched_entry (self st) (vendorid (snd kv))
                        (productid (snd kv)) (usb_devices (self st)) = Some kv'
                      /\ selects (self st) (vendorid (snd kv))
                           (productid (snd kv)) kv' = true)
    as (kv' & Hkv' & Hsel).
  { unfold matched_entry.
    destruct (List.find _ _) as [kv'|] eqn:Hfind.
    - exists kv'. split; [done|]. by apply List.find_some in Hfind as [_ ?].
    - apply list_elem_of_In in Hin.
      pose proof (List.find_none _ _ Hfind kv Hin) as Hno.
      unfold selects in Hno. by rewrite Hknown, !Z.eqb_refl in Hno. }
  exists ("/" ++ pretty (vendorid (snd kv)) ++ "/" ++ pretty (productid (snd kv))),
    [(2%nat, pretty (productid (snd kv))); (1%nat, pretty (vendorid (snd kv)))],
    kv'.
  split; [exact Hurl|]. split; [done|]. split; [done|]. split; [done|].
  split; [done|].
  unfold selects in Hsel.
  apply andb_prop in Hsel as [Hsel Hpe]. apply andb_prop in Hsel as [_ Hve].
  apply Z.eqb_eq in Hve, Hpe. split; [done|]. split; [done|].
  unfold RequestHandler.get_path. rewrite Hm.
  unfold RequestHandler.get_device. unfold mbind, M_bind, lift.
  cbn [group Nat.eqb]. rewrite Hiv, Hip.
  unfold try_except_FileNotFoundError, get_self.
  rewrite find_device_head, Hkv'. reflexivity.
Qed.

Lemma url_leads_back_witness :
  exists path m kv',
    match RequestHandler.filter example_config (to_dict stick_on_hidraw0) with
    | Normal f => f
    | Raise _ => ∅
    end !! "url"
    = Some (VStr (protocol example_config ++ "://" ++ hostname example_config
                  ++ ":" ++ pretty (port example_config) ++ path))
    /\ re_match RequestHandler.path_pattern path = Some m
    /\ py_int 10 (group m 1) = Normal 3141
    /\ py_int 10 (group m 2) = Normal 29697
    /\ matched_entry (self twin_state) 3141 29697 (usb_devices (self twin_state))
       = Some kv'
    /\ vendorid (snd kv') = 3141
    /\ productid (snd kv') = 29697
    /\ RequestHandler.get_path example_config path HEAD twin_state
       = (Normal (200, BDict ∅), twin_state).
Proof.
  apply (url_leads_back example_config twin_state
           ("/sys/bus/usb/devices/1-1", stick_on_hidraw0)).
  - apply list_elem_of_here.
  - reflexivity.
  - vm_compute. discriminate.
  - vm_compute. discriminate.
  - vm_compute. reflexivity.
Defined.

(** ** HEAD against GET, and the read loop *)

(** X21.  Whenever a GET is answered 200, a HEAD for the same path in the
    same state is answered 200 as well.  (The converse does not hold: a
    HEAD reads no device.) *)
Theorem head_agrees_with_get (cfg : server_config) (path : string)
    (st : state) (b : body) :
  fst (RequestHandler.get_path cfg path GET st) = Normal (200, b) ->
  exists b', fst (RequestHandler.get_path cfg path HEAD st) = Normal (200, b').
Proof.
  unfold RequestHandler.get_path.
  destruct (re_match RequestHandler.path_pattern path) as [m|].
  - destruct (py_int 10 (group m 1)) as [vendor|e] eqn:Hv.
    2:{ unfold RequestHandler.get_device. unfold mbind, M_bind, lift.
        by rewrite Hv. }
    destruct (py_int 10 (group m 2)) as [prod|e] eqn:Hp.
    2:{ unfold RequestHandler.get_device. unfold mbind, M_bind, lift.
        by rewrite Hv, Hp. }
    rewrite !(get_device_run cfg _ m vendor prod st Hv Hp).
    rewrite find_device_head.
    destruct (matched_entry (self st) vendor prod (usb_devices (self st)))
      as [kv|] eqn:Hm; [intros _; by eexists|].
    rewrite find_device_none by done. intros Hrun. exfalso.
    unfold not_found_after in Hrun.
    by destruct (Temper.maybe_reset st) as [[[]|e] st1].
  - destruct (String.eqb path "/devices").
    + unfold RequestHandler.get_devices. intros Hrun. by exists b.
    + destruct (String.eqb path "/"); [|done].
      destruct (Temper.maybe_reset st) as [[[]|e] st1] eqn:Hreset.
      * intros _. exists (BList []). unfold RequestHandler.get_all.
        change (Temper.call "maybe_reset") with Temper.maybe_reset.
        unfold mbind, M_bind. by rewrite Hreset.
      * unfold RequestHandler.get_all.
        change (Temper.call "maybe_reset") with Temper.maybe_reset.
        unfold mbind at 1. unfold M_bind at 1. by rewrite Hreset.
Qed.

Lemma head_agrees_with_get_witness :
  exists b',
    fst (RequestHandler.get_path example_config "/3141/29697" HEAD twin_state)
    = Normal (200, b').
Proof.
  apply (head_agrees_with_get example_config "/3141/29697" twin_state
           (match fst (RequestHandler.get_path example_config "/3141/29697" GET
                         twin_state) with
            | Normal (_, b) => b
            | Raise _ => BList []
            end)).
  vm_compute. reflexivity.
Defined.

(** X22.  The select-and-read loop of the hidraw decoder returns the
    frames that wait on the device, in order and each cut to eight bytes,
    and leaves none waiting; it makes one read for each frame and nothing
    else, and it ends by itself: the loop is left through its [break],
    however many more turns it is allowed. *)
Theorem read_loop_gathers (fd : string) (w : world) (reps : list (list bytes))
    (rdy : list bytes) :
  dev w !! fd = Some (Node reps rdy) ->
  HidIO.read_frames fd w
  = (Normal (burst_bytes rdy), after fd (Node reps []) (read_events fd rdy) w)
  /\ forall fuel acc,
       (length rdy < fuel)%nat ->
       HidIO.read_loop fuel fd acc w
       = (Normal (acc ++ burst_bytes rdy)%list,
          after fd (Node reps []) (read_events fd rdy) w).
Proof.
  intros Hn. split.
  - by rewrite (read_frames_run fd reps rdy w Hn).
  - intros fuel acc Hfuel. by apply read_loop_run.
Qed.

Lemma read_loop_gathers_witness :
  HidIO.read_frames "hidraw0" waiting_world
  = (Normal (burst_bytes waiting_frames),
     after "hidraw0" (Node [] []) (read_events "hidraw0" waiting_frames)
       waiting_world)
  /\ forall fuel acc,
       (length waiting_frames < fuel)%nat ->
       HidIO.read_loop fuel "hidraw0" acc waiting_world
       = (Normal (acc ++ burst_bytes waiting_frames)%list,
          after "hidraw0" (Node [] []) (read_events "hidraw0" waiting_frames)
            waiting_world).
Proof.
  apply (read_loop_gathers "hidraw0" waiting_world [] waiting_frames).
  reflexivity.
Defined.
